(* ===== verification/_CoqProject ===== *)
-Q . S2P
Prelude.v
DateTime.v
PyVal.v
Staging.v
Commit.v
Repository.v
RepoDict.v
RepoManager.v
Commands.v
Main.v
PullRequest.v
