(* ===== verification/Prelude.v ===== *)
(** * A verification development for the Git simulator of [src/proyecto1]

    The program is a small, single-user simulator of a Git workflow
    written in Python, with its state saved to JSON files between runs.
    Its parts, and the file of this development that models each of them
    (in the order of [_CoqProject]):

    - [Prelude.v] (this file): the Python semantics the components share.
      Python exceptions are the type [exc]; a computation that may raise is
      a [res A] ([Ok] or [Raise]); a method that mutates [self] and may
      raise is the state-and-exception monad [PyM S A], in which, as in
      Python, a mutation made before the exception is kept.  The builtins
      the code calls on ints and strings are translated here: [str(int)]
      is [py_str_Z], [int(str)] is [py_int], [s.split(c)] is [py_split],
      [s.split()] is [py_split_ws], [s.strip()] is [py_strip_str],
      truthiness of an optional string is [py_truthy_str].
    - [DateTime.v]: the naive [datetime] values the code stamps on commits
      and pull requests: their order, [str()], [isoformat()] and
      [datetime.fromisoformat], with the ranges the constructor checks
      ([dt_valid]).  This is the Python library, modelled from its
      documented behaviour, not code of the repository.
    - [PyVal.v]: the Python values of the persistence code ([pyval]:
      [None], bools, ints, strings, lists, dicts as association lists,
      datetimes), [data[k]], iteration, and the files [json.load] reads
      ([json_file]: missing, not valid JSON, or a decoded value).
      [json.dump] accepts a value made of JSON types ([json_ok]).
    - [Staging.v]: [staging.py], class [StagingArea]: the list of staged
      file records and [add_file], [remove_file], [get_files], [clear],
      [status].  The filesystem the class reads is an explicit snapshot
      [FsSnapshot]; SHA-1 is the interface [Sha1] (a typeclass), since the
      code calls it as a library.
    - [Commit.v]: [commit.py], the immutable [Commit] record, its
      [__str__], [to_dict], [from_dict], and the class [CommitHistory]
      ([add_commit], [get_history]).
    - [Repository.v]: [repository.py], class [Repository] ([add_file],
      [commit], [_generate_hash]) and the history walk of the [git log]
      command of [commands.py]; the repository invariant and its
      preservation, termination of the walk, what happens on a hash
      collision, and the abstract repository [commit] refines.
    - [RepoDict.v]: [Repository.to_dict] and [Repository.from_dict].
    - [RepoManager.v]: class [RepositoryManager] of [repository.py]
      ([create_repository], [get_repository], [list_repositories],
      [load_repositories], [to_dict]).
    - [Commands.v]: the three commands of [commands.py] ([git_init],
      [git_status], [git_log]) on the simulator state [Simulator] of
      [main.py] ([repo_manager] and [current_repo]), the command table built
      by [_initialize_commands] from the configuration, and
      [execute_command].
    - [Main.v]: [main.py], class [GitSimulator]: construction (reading
      [config.json] and [data/repos.json]), [save_data], the loop [run]
      over a finite input, and the entry point [program].
    - [PullRequest.v]: [pull_request.py], class [PullRequest] (its status
      state machine, [to_dict], [from_dict]) and class [PullRequestQueue]
      (FIFO queue, id counter, [save_to_file], [load_from_file]).

    How the parts interact: [Repository] owns one [StagingArea] and a store
    of [Commit]s keyed by hash; [Repository.commit] moves the staged file
    names into a new commit; [RepositoryManager] keeps a list of
    repositories; the [git] commands act on the manager and on the
    current repository, which is an alias of one of the manager's entries
    (modelled by an index into the manager's list); [GitSimulator] builds
    the command table, loads the manager from [repos.json], runs commands
    read line by line and saves the manager on [exit].  [PullRequestQueue]
    is independent of the repositories and has its own file.

    Theorems, by group (the claims C1..C40):
    - refinement (C1, [Repository.runs_refine]): every run of [add_file] and
      [commit] from a new repository implements the abstract repository
      [AbsRepo] (a log of commits and a list of staged names), with the
      [git log] walk listing exactly the commits made, newest first;
    - invariants: the repository invariant [repo_wf] (store keys are the
      commits' hashes, head stored, branch pointer = head, parents stored
      and strictly older) kept by [commit] when the new hash is fresh and
      the clock advances (C3); the simulator invariant kept by [git init]
      (C20); the queue invariant [queue_wf] (ids [PR-k], numbers strictly
      increasing and below [next_id]) kept by [create_pr],
      [process_next_pr] and a save and reload (C12, C13, C15); the status
      machine of [PullRequest], where [in_review] is unreachable (C11);
      the reachability relation [Commands.cmd_reach] of the command loop,
      by rule induction: from a simulator with no current repository, as
      after a restart, no command ever selects a repository it already
      had (C27), so the repositories read from [repos.json] are only ever
      saved again ([Main.program_never_selects_loaded] composes this
      with [GitSimulator.__init__] and the loop of [run]); and, as the
      table has no [add] or [commit], [git status] never lists a staged
      file and [git log] never prints a history in such a session (C17);
    - termination and divergence: the log walk ends within
      [size commits] steps on a well-formed repository (C2), listing stored
      commits from the newest to the oldest as the spec says (C4), but
      runs forever once a hash collision makes a commit its own parent
      (C5); the loop [run] never ends on an input
      without an [exit] line, because the [EOFError] of [input()] is caught
      (C35);
    - persistence: [Repository.from_dict(r.to_dict())] gives [r] back with
      an empty staging area (C31, the spec's round trip), and drops a head
      that is not in the store (C32); the same for [Commit] (C38); the
      values [to_dict] builds are JSON ([save_data] never raises, C37); a
      session that reaches [exit] ends and saves the state its commands
      produced (the reference [Main.session_effect]: only an enabled
      [init] changes the simulator), and the next simulator reads back
      those repositories (C34);
    - errors: [CommitHistory.get_history] raises [AttributeError] as soon
      as the head has a parent (C6) and otherwise returns the head alone
      (C19),
      [add_file] raises on a missing file or a directory (C16, C29), a
      [repos.json] of the wrong shape makes the constructor raise while a
      corrupt one is tolerated (C36, the program stops before its loop),
      [load_from_file] raises on a corrupt
      file or a bad entry (C39);
    - bounds: after a save and reload the counter of the queue is between
      1 and its old value and above every reloaded id number (C30);
    - functional behaviour and equivalence: FIFO order of the queue (C8)
      and [process_next_pr] dequeuing the oldest request (C13), fresh ids
      after a reload (C9) and the counter rebuilt from the last queued id,
      so that processed ids are handed out again (C7), the round trip
      [int(str(n)) = n] behind the reload (C10), lookups and filters (C14,
      C24, C25), staging (C18), the staged files of a commit in insertion
      order (C40, the spec's property), the output of [git log] after a
      run of commits (C21) and of [git status] after [add_file]s (C26), the
      unchecked methods of [PullRequest] against a reference ([last] of the
      status-setting calls, C28), the command table against a reference
      definition (C33), [git init] (C23), and no configuration enabling
      anything but [init], [status] and [log] (C22).

    Fuel and bounds: the unbounded loops are the [while current:] of
    [GitLogCommand.execute] and the [while True:] of [run].  [log_walk]
    takes fuel and returns [None] when it runs out; [size commits] is
    enough because on a well-formed store every step goes to a strictly
    older commit, so the walk visits each stored commit at most once (the
    measure [older] of [Repository.v]); [Commands.log_fuel] passes that
    bound.  [run] spends one unit per input line and gives [git log] what
    is left: the length of the input before [exit] plus a bound on the
    commits of every repository is enough (C34).  The [get_history] loop
    is bounded by [max_commits] itself.  The round trip of dates holds for
    the datetimes the constructor accepts (years 1 to 9999 and the field
    ranges of [dt_valid]), which every [datetime.now()] is.

    Not modelled: the text of the JSON files (the encoding of
    [json.dump] and the parser of [json.load]): a file is a decoded value,
    or missing, or not valid JSON; [json.load(json.dump(v))] is [v] for the
    JSON values the code writes.  The order of the entries of a dict
    written from a [gmap] is the map's, not Python's insertion order
    ([from_dict] does not depend on it).  A stored field of another Python
    type than the record's is reported as [TypeError] when read, where
    Python would store it.  SHA-1 itself (the [Sha1] class has a stand-in
    instance [demo_sha1] used only by the concrete runs).  [fromisoformat]
    is modelled on the naive strings [YYYY-MM-DD[*HH[:MM[:SS[.fff[fff]]]]]]
    that every CPython since 3.7 parses alike; a UTC offset, an aware
    datetime and the other formats of CPython 3.11 are outside it.  The
    paths of [_get_config_path]/[_get_data_dir], the [IOError]s of the
    file system, [print] outside [run], and [KeyboardInterrupt] are not
    modelled. *)

From stdpp Require Export base gmap strings list.
From Stdlib Require Export ZArith.
From Stdlib Require Import Ascii DecimalString DecimalZ.

Declare Scope py_scope.
Delimit Scope py_scope with py.
Create HintDb gitsim.
Create Rewrite HintDb gitsim.

(** ** Exceptions and results *)

(** The Python exceptions the modelled code can raise. *)
Inductive exc :=
| FileNotFoundError (msg : string)
| IsADirectoryError (path : string)
| AttributeError (attr : string)
| IndexError
| ValueError (literal : string)
| KeyError (key : string)
| TypeError (msg : string)
| JSONDecodeError
| EOFError.

(** [str(e)], as [print(f"Error: {str(e)}")] shows it; an [EOFError]
    raised by [input()] has no message. *)
Definition py_exc_str (e : exc) : string :=
  match e with
  | FileNotFoundError msg => msg
  | IsADirectoryError p => "[Errno 21] Is a directory: '" +:+ p +:+ "'"
  | AttributeError a => "object has no attribute '" +:+ a +:+ "'"
  | IndexError => "list index out of range"
  | ValueError lit => lit
  | KeyError k => "'" +:+ k +:+ "'"
  | TypeError msg => msg
  | JSONDecodeError => "Expecting value"
  | EOFError => ""
  end.

Inductive res (A : Type) :=
| Ok (a : A)
| Raise (e : exc).
Arguments Ok {A} a.
Arguments Raise {A} e.

(** A method of an object of type [S]: it may mutate the object and then
    return or raise; mutations made before a [raise] stay. *)
Definition PyM (S A : Type) := S -> S * res A.

Definition py_ret {S A} (a : A) : PyM S A := fun s => (s, Ok a).
Definition py_raise {S A} (e : exc) : PyM S A := fun s => (s, Raise e).
Definition py_get {S} : PyM S S := fun s => (s, Ok s).
Definition py_put {S} (s : S) : PyM S unit := fun _ => (s, Ok tt).
Definition py_bind {S A B} (m : PyM S A) (k : A -> PyM S B) : PyM S B :=
  fun s => match m s with
           | (s', Ok a) => k a s'
           | (s', Raise e) => (s', Raise e)
           end.
(** Lift a pure computation that may raise. *)
Definition py_lift {S A} (r : res A) : PyM S A :=
  fun s => (s, r).

Notation "'let!' x ':=' m 'in' k" := (py_bind m (fun x => k))
  (at level 10, x name, m at level 100, k at level 200) : py_scope.
Notation "m ';;!' k" := (py_bind m (fun _ => k))
  (at level 100, right associativity) : py_scope.

(** ** Truthiness *)

(** [if x:] on a value that is [None] or a string. *)
Definition py_truthy_str (x : option string) : bool :=
  match x with
  | Some s => negb (String.eqb s "")
  | None => false
  end.

Definition py_truthy_list {A} (l : list A) : bool :=
  match l with [] => false | _ => true end.

(** ** Sequences *)

(** [xs[i]] for [i >= 0]. *)
Definition py_index {A} (xs : list A) (i : nat) : res A :=
  match xs !! i with Some x => Ok x | None => Raise IndexError end.

(** [xs[-1]]. *)
Definition py_last {A} (xs : list A) : res A :=
  match last xs with Some x => Ok x | None => Raise IndexError end.

(** [s.split(sep)] with an explicit one-character separator: every
    occurrence splits, empty pieces are kept. *)
Fixpoint py_split_aux (sep : Ascii.ascii) (s : string) (cur : string) : list string :=
  match s with
  | EmptyString => [cur]
  | String c s' =>
      if Ascii.eqb c sep then cur :: py_split_aux sep s' ""
      else py_split_aux sep s' (cur +:+ String c EmptyString)
  end.
Definition py_split (sep : Ascii.ascii) (s : string) : list string :=
  py_split_aux sep s "".

(** ** [str(int)] and [int(str)] *)

Definition py_str_Z (z : Z) : string := NilEmpty.string_of_int (Z.to_int z).

(** [str.isspace] on one character, restricted to ASCII: the test behind
    [int()], [str.strip()] and [str.split()]. *)
Definition py_is_space (c : Ascii.ascii) : bool :=
  match Ascii.nat_of_ascii c with
  | 32 | 9 | 10 | 11 | 12 | 13 | 28 | 29 | 30 | 31 => true
  | _ => false
  end.

Fixpoint py_lstrip (cs : list Ascii.ascii) : list Ascii.ascii :=
  match cs with
  | c :: cs' => if py_is_space c then py_lstrip cs' else cs
  | [] => []
  end.
Definition py_strip (cs : list Ascii.ascii) : list Ascii.ascii :=
  rev (py_lstrip (rev (py_lstrip cs))).

(** [s.strip()] on a string. *)
Definition py_strip_str (s : string) : string :=
  String.string_of_list_ascii (py_strip (String.list_ascii_of_string s)).

(** [s.split()] with no separator: the maximal runs of non-space
    characters, in order; [cur] is the current run, reversed. *)
Fixpoint py_split_ws_aux (cs : list Ascii.ascii) (cur : list Ascii.ascii) : list string :=
  match cs with
  | [] => match cur with [] => [] | _ => [String.string_of_list_ascii (rev cur)] end
  | c :: cs' =>
      if py_is_space c then
        match cur with
        | [] => py_split_ws_aux cs' []
        | _ => String.string_of_list_ascii (rev cur) :: py_split_ws_aux cs' []
        end
      else py_split_ws_aux cs' (c :: cur)
  end.
Definition py_split_ws (s : string) : list string :=
  py_split_ws_aux (String.list_ascii_of_string s) [].

Definition py_digit (c : Ascii.ascii) : option Z :=
  match c with
  | "0"%char => Some 0%Z | "1"%char => Some 1%Z | "2"%char => Some 2%Z
  | "3"%char => Some 3%Z | "4"%char => Some 4%Z | "5"%char => Some 5%Z
  | "6"%char => Some 6%Z | "7"%char => Some 7%Z | "8"%char => Some 8%Z
  | "9"%char => Some 9%Z
  | _ => None
  end.

(** The decimal digit grammar [digit (["_"] digit)*] of [int()];
    [after] says that the previous character was a digit. *)
Fixpoint py_digits (cs : list Ascii.ascii) (acc : Z) (after : bool) : option Z :=
  match cs with
  | [] => if after then Some acc else None
  | c :: cs' =>
      match py_digit c with
      | Some d => py_digits cs' (acc * 10 + d)%Z true
      | None =>
          if after && Ascii.eqb c "_"%char then py_digits cs' acc false else None
      end
  end.

(** [int(s)] in base 10: surrounding whitespace, an optional sign, digits
    with single underscores between them; [ValueError] otherwise. *)
Definition py_int_chars (cs : list Ascii.ascii) : option Z :=
  match cs with
  | c :: cs' =>
      if Ascii.eqb c "-"%char then option_map Z.opp (py_digits cs' 0 false)
      else if Ascii.eqb c "+"%char then py_digits cs' 0 false
      else py_digits cs 0 false
  | [] => None
  end.

Definition py_int (s : string) : res Z :=
  match py_int_chars (py_strip (String.list_ascii_of_string s)) with
  | Some z => Ok z
  | None => Raise (ValueError s)
  end.

(** ** Library interfaces *)

(** [hashlib.sha1(data).hexdigest()]: the code only calls it, so it is an
    interface; the theorems hold for every instance. *)
Class Sha1 := sha1_hexdigest : list Byte.byte -> string.

(** A stand-in digest for the concrete runs of the examples: the bytes
    themselves behind a prefix, so that it is never empty.  It is not
    SHA-1; no theorem depends on it. *)
Definition demo_sha1 : Sha1 := fun bs => "x" +:+ String.string_of_list_byte bs.

(** [s.encode()]: a Rocq string is already the byte sequence of its UTF-8
    text. *)
Definition py_encode (s : string) : list Byte.byte := String.list_byte_of_string s.

(** A newline character, for the code's f-strings with [\n]. *)
Definition nl : string := String (Ascii.ascii_of_nat 10) EmptyString.

(** Value of a decimal digit string read left to right from [acc]: the
    reference against which [py_digits] is checked. *)
Fixpoint uint_val (d : Decimal.uint) (acc : Z) : Z :=
  match d with
  | Decimal.Nil => acc
  | Decimal.D0 d => uint_val d (acc * 10)
  | Decimal.D1 d => uint_val d (acc * 10 + 1)
  | Decimal.D2 d => uint_val d (acc * 10 + 2)
  | Decimal.D3 d => uint_val d (acc * 10 + 3)
  | Decimal.D4 d => uint_val d (acc * 10 + 4)
  | Decimal.D5 d => uint_val d (acc * 10 + 5)
  | Decimal.D6 d => uint_val d (acc * 10 + 6)
  | Decimal.D7 d => uint_val d (acc * 10 + 7)
  | Decimal.D8 d => uint_val d (acc * 10 + 8)
  | Decimal.D9 d => uint_val d (acc * 10 + 9)
  end%Z.

(** ** Lemmas on the Python builtins *)

Lemma py_bind_ok {S A B} (m : PyM S A) (k : A -> PyM S B) s s' a :
  m s = (s', Ok a) -> py_bind m k s = k a s'.
Proof. intros H. unfold py_bind. by rewrite H. Qed.

Lemma py_bind_raise {S A B} (m : PyM S A) (k : A -> PyM S B) s s' e :
  m s = (s', Raise e) -> py_bind m k s = (s', Raise e).
Proof. intros H. unfold py_bind. by rewrite H. Qed.

Lemma py_truthy_str_true x :
  py_truthy_str x = true <-> exists s, x = Some s /\ s <> "".
Proof.
  destruct x as [s|]; simpl; [|naive_solver].
  destruct (String.eqb_spec s ""); naive_solver.
Qed.

Lemma pos_of_uint_acc_val d (acc : positive) :
  Zpos (Pos.of_uint_acc d acc) = uint_val d (Zpos acc).
Proof.
  revert acc. induction d; intros acc; simpl; try rewrite IHd; f_equal; lia.
Qed.

Lemma Z_of_uint_val d : Z.of_uint d = uint_val d 0.
Proof.
  unfold Z.of_uint, N.of_uint.
  induction d; simpl; rewrite ?pos_of_uint_acc_val; auto.
Qed.

Lemma py_digits_uint d acc after :
  d <> Decimal.Nil \/ after = true ->
  py_digits (String.list_ascii_of_string (NilEmpty.string_of_uint d)) acc after
  = Some (uint_val d acc).
Proof.
  revert acc after. induction d; intros acc after Hd; simpl;
    [destruct Hd as [Hd | ->]; [done|reflexivity]|..];
    rewrite IHd by auto; do 2 f_equal; lia.
Qed.

Lemma string_of_uint_no_space d :
  Forall (fun c => py_is_space c = false)
    (String.list_ascii_of_string (NilEmpty.string_of_uint d)).
Proof. induction d; simpl; auto. Qed.

Lemma py_strip_id cs :
  Forall (fun c => py_is_space c = false) cs -> py_strip cs = cs.
Proof.
  intros H. unfold py_strip.
  assert (Hl : forall l, Forall (fun c => py_is_space c = false) l -> py_lstrip l = l).
  { intros [|c l] Hf; [done|]. inversion Hf as [|? ? Hc]; simpl. by rewrite Hc. }
  rewrite (Hl cs H), Hl; [apply rev_involutive|]. by apply Forall_rev.
Qed.

Lemma to_int_nonnil z :
  Z.to_int z <> Decimal.Pos Decimal.Nil /\ Z.to_int z <> Decimal.Neg Decimal.Nil.
Proof.
  pose proof (DecimalZ.of_to z) as Hz.
  split; intros Hn; rewrite Hn in Hz; simpl in Hz; subst z; discriminate Hn.
Qed.

Lemma py_int_chars_unsigned cs :
  match cs with
  | c :: _ => Ascii.eqb c "-"%char = false /\ Ascii.eqb c "+"%char = false
  | [] => True
  end ->
  py_int_chars cs = py_digits cs 0 false.
Proof. destruct cs as [|c cs]; simpl; [done|]. by intros [-> ->]. Qed.

(** [int(str(z)) = z]: printing a Python int and parsing it back is the
    identity, the fact the reload of the pull-request counter relies on. *)
Lemma py_int_str_Z z : py_int (py_str_Z z) = Ok z.
Proof.
  pose proof (DecimalZ.of_to z) as Hz. pose proof (to_int_nonnil z) as [Hp Hn].
  unfold py_int, py_str_Z. destruct (Z.to_int z) as [u|u] eqn:E; simpl in Hz |- *.
  - rewrite py_strip_id by apply string_of_uint_no_space.
    rewrite py_int_chars_unsigned, py_digits_uint by
      (destruct u; [done|..]; (left; congruence) || (split; reflexivity)).
    by rewrite Z_of_uint_val in Hz; rewrite Hz.
  - rewrite py_strip_id by (constructor; [done|apply string_of_uint_no_space]).
    simpl. rewrite py_digits_uint by (left; congruence).
    simpl. by rewrite Z_of_uint_val in Hz; rewrite Hz.
Qed.

(** ** Counting with [filter] *)

Section filter_count.
Context {A : Type} (P Q : A -> Prop) `{!forall x, Decision (P x)} `{!forall x, Decision (Q x)}.

Lemma length_filter_mono (l : list A) :
  (forall x, x ∈ l -> P x -> Q x) -> length (filter P l) <= length (filter Q l).
Proof.
  induction l as [|y l IH]; intros Hpq; simpl; [done|].
  rewrite !filter_cons.
  assert (length (filter P l) <= length (filter Q l)) by (apply IH; set_solver).
  repeat case_decide; simpl; try lia. exfalso. naive_solver set_solver.
Qed.

(** A measure that strictly drops: every [P] is a [Q], and some element
    of the list is a [Q] and not a [P]. *)
Lemma length_filter_strict (l : list A) y :
  (forall x, x ∈ l -> P x -> Q x) -> y ∈ l -> Q y -> ~ P y ->
  length (filter P l) < length (filter Q l).
Proof.
  induction l as [|z l IH]; intros Hpq Hy HQ HP; [set_solver|].
  rewrite !filter_cons. apply elem_of_cons in Hy as [->|Hy].
  - rewrite decide_False, decide_True by done. simpl.
    pose proof (length_filter_mono l ltac:(set_solver)). lia.
  - assert (length (filter P l) < length (filter Q l)) by (apply IH; set_solver).
    repeat case_decide; simpl; try lia. exfalso. naive_solver set_solver.
Qed.

End filter_count.

(** ** Strings *)

(** stdpp makes [String.append] opaque to [simpl]; these equations
    unfold it. *)
Lemma string_app_cons c (s1 s2 : string) : String c s1 +:+ s2 = String c (s1 +:+ s2).
Proof. reflexivity. Qed.

Lemma string_app_nil_l (s : string) : "" +:+ s = s.
Proof. reflexivity. Qed.

#[export] Hint Rewrite string_app_cons string_app_nil_l : gitsim.

Lemma string_app_assoc (s1 s2 s3 : string) : (s1 +:+ s2) +:+ s3 = s1 +:+ (s2 +:+ s3).
Proof. induction s1 as [|c s1 IH]; autorewrite with gitsim; [done|by rewrite IH]. Qed.

Lemma string_app_nil_r (s : string) : s +:+ "" = s.
Proof. induction s as [|c s IH]; autorewrite with gitsim; [done|by rewrite IH]. Qed.

(** ["".join(...)] of a list of pieces. *)
Lemma string_concat_cons (x : string) l : String.concat "" (x :: l) = x +:+ String.concat "" l.
Proof. destruct l; simpl; [by rewrite string_app_nil_r|done]. Qed.

(** A loop [acc += f(x)] over [l] appends the pieces in order. *)
Lemma foldl_string_app {A} (f : A -> string) (a : string) (l : list A) :
  foldl (fun acc x => acc +:+ f x) a l = a +:+ String.concat "" (map f l).
Proof.
  revert a. induction l as [|x l IH]; intros a; cbn [foldl map]; [by rewrite string_app_nil_r|].
  by rewrite IH, string_concat_cons, string_app_assoc.
Qed.

(** A string as its list of characters. *)
Lemma list_ascii_of_string_app (s1 s2 : string) :
  String.list_ascii_of_string (s1 +:+ s2) =
  String.list_ascii_of_string s1 ++ String.list_ascii_of_string s2.
Proof. induction s1 as [|c s1 IH]; [done|]. rewrite string_app_cons. simpl. by rewrite IH. Qed.

Lemma length_list_ascii_of_string (s : string) :
  String.length s = length (String.list_ascii_of_string s).
Proof. induction s as [|c s IH]; simpl; auto. Qed.

#[export] Hint Rewrite list_ascii_of_string_app String.list_ascii_of_string_of_list_ascii
  : gitsim.

(** [s.split(sep)] on a string without [sep] continues the current piece
    to the end. *)
Lemma py_split_aux_nosep sep s cur :
  Forall (fun c => c <> sep) (String.list_ascii_of_string s) ->
  py_split_aux sep s cur = [cur +:+ s].
Proof.
  revert cur. induction s as [|c s IH]; intros cur Hs; simpl.
  - by rewrite string_app_nil_r.
  - inversion Hs as [|? ? Hc Hs']; subst.
    destruct (Ascii.eqb_spec c sep); [done|].
    rewrite IH by done. by rewrite string_app_assoc.
Qed.

(** [str(n)] of a non-negative int has no minus sign. *)
Lemma py_str_Z_nonneg_nodash z :
  (0 <= z)%Z -> Forall (fun c => c <> "-"%char) (String.list_ascii_of_string (py_str_Z z)).
Proof.
  intros Hz. unfold py_str_Z.
  assert (Hd : forall u, Forall (fun c => c <> "-"%char)
                 (String.list_ascii_of_string (NilEmpty.string_of_uint u))).
  { induction u; simpl; constructor; done. }
  destruct z as [|p|p]; [apply Hd|apply Hd|lia].
Qed.

(** [str] is injective on ints, because [int] inverts it. *)
Lemma py_str_Z_inj z1 z2 : py_str_Z z1 = py_str_Z z2 -> z1 = z2.
Proof.
  intros H. pose proof (py_int_str_Z z1) as H1. rewrite H, py_int_str_Z in H1.
  by injection H1.
Qed.
