(* ===== verification/DateTime.v ===== *)
(** Naive [datetime] values of the Python library, as the code stamps them
    on commits ([Commit.date]) and pull requests ([created_at],
    [merged_at]), with their order and [str()]. *)

From S2P Require Import Prelude.
From Stdlib Require Import Ascii.

Record datetime := mk_datetime {
  dt_year : nat; dt_month : nat; dt_day : nat;
  dt_hour : nat; dt_minute : nat; dt_second : nat; dt_microsecond : nat
}.

#[export] Instance datetime_eq_dec : EqDecision datetime.
Proof. solve_decision. Defined.

Definition dt_fields (d : datetime) : list nat :=
  [dt_year d; dt_month d; dt_day d; dt_hour d; dt_minute d; dt_second d;
   dt_microsecond d].

(** Python compares naive datetimes field by field. *)
Fixpoint lex_ltb (l1 l2 : list nat) : bool :=
  match l1, l2 with
  | x :: xs, y :: ys => (x <? y) || ((x =? y) && lex_ltb xs ys)
  | _, _ => false
  end.

Definition dt_ltb (a b : datetime) : bool := lex_ltb (dt_fields a) (dt_fields b).
Definition dt_lt (a b : datetime) : Prop := dt_ltb a b = true.

#[export] Instance dt_lt_dec a b : Decision (dt_lt a b).
Proof. unfold dt_lt. apply _. Defined.

(** A decimal digit character and its value. *)
Definition digit_char (d : nat) : Ascii.ascii := Ascii.ascii_of_nat (48 + d).
Definition digit_nat (c : Ascii.ascii) : option nat :=
  let n := Ascii.nat_of_ascii c in
  if (48 <=? n) && (n <=? 57) then Some (n - 48) else None.

(** The last [w] decimal digits of [n], most significant first. *)
Fixpoint fixed_digits (w n : nat) : list Ascii.ascii :=
  match w with
  | 0 => []
  | S w' => fixed_digits w' (n / 10) ++ [digit_char (n mod 10)]
  end.

(** [%0wd]: [str(n)] left-padded with zeros to width [w], that is exactly
    [w] digits when [n < 10^w], and [str(n)] itself otherwise. *)
Definition pad0 (w n : nat) : string :=
  if n <? 10 ^ w then String.string_of_list_ascii (fixed_digits w n)
  else py_str_Z (Z.of_nat n).

(** [isoformat(sep)]: the microseconds are printed only when nonzero. *)
Definition dt_isoformat_sep (sep : string) (d : datetime) : string :=
  pad0 4 (dt_year d) +:+ "-" +:+ pad0 2 (dt_month d) +:+ "-" +:+ pad0 2 (dt_day d)
  +:+ sep +:+ pad0 2 (dt_hour d) +:+ ":" +:+ pad0 2 (dt_minute d) +:+ ":"
  +:+ pad0 2 (dt_second d)
  +:+ (if dt_microsecond d =? 0 then "" else "." +:+ pad0 6 (dt_microsecond d)).

Definition dt_str : datetime -> string := dt_isoformat_sep " ".
Definition dt_isoformat : datetime -> string := dt_isoformat_sep "T".

(** ** Validity and [fromisoformat] *)

Definition is_leap (y : nat) : bool :=
  (y mod 4 =? 0) && (negb (y mod 100 =? 0) || (y mod 400 =? 0)).

Definition days_in_month (y m : nat) : nat :=
  match m with
  | 2 => if is_leap y then 29 else 28
  | 4 | 6 | 9 | 11 => 30
  | _ => 31
  end.

(** The ranges the [datetime] constructor checks ([MINYEAR = 1],
    [MAXYEAR = 9999]); a value out of them raises [ValueError]. *)
Definition dt_valid (d : datetime) : bool :=
  (1 <=? dt_year d) && (dt_year d <? 10 ^ 4) &&
  (1 <=? dt_month d) && (dt_month d <=? 12) &&
  (1 <=? dt_day d) && (dt_day d <=? days_in_month (dt_year d) (dt_month d)) &&
  (dt_hour d <? 24) && (dt_minute d <? 60) && (dt_second d <? 60) &&
  (dt_microsecond d <? 10 ^ 6).

(** Exactly [w] digits from the front of [cs], read onto [acc]. *)
Fixpoint parse_fixed (w : nat) (cs : list Ascii.ascii) (acc : nat)
    : option (nat * list Ascii.ascii) :=
  match w, cs with
  | 0, _ => Some (acc, cs)
  | S w', c :: cs' =>
      match digit_nat c with
      | Some d => parse_fixed w' cs' (acc * 10 + d)
      | None => None
      end
  | S _, [] => None
  end.

Definition parse_field (w : nat) (cs : list Ascii.ascii) : option (nat * list Ascii.ascii) :=
  parse_fixed w cs 0.

(** [.fff] or [.ffffff] at the end of the string. *)
Definition parse_fraction (cs : list Ascii.ascii) : option nat :=
  match length cs with
  | 3 => match parse_field 3 cs with Some (f, []) => Some (f * 10 ^ 3) | _ => None end
  | 6 => match parse_field 6 cs with Some (f, []) => Some f | _ => None end
  | _ => None
  end.

(** [HH[:MM[:SS[.fff[fff]]]]] *)
Definition parse_time (cs : list Ascii.ascii) : option (nat * nat * nat * nat) :=
  match parse_field 2 cs with
  | Some (hh, []) => Some (hh, 0, 0, 0)
  | Some (hh, ":"%char :: cs1) =>
      match parse_field 2 cs1 with
      | Some (mm, []) => Some (hh, mm, 0, 0)
      | Some (mm, ":"%char :: cs2) =>
          match parse_field 2 cs2 with
          | Some (ss, []) => Some (hh, mm, ss, 0)
          | Some (ss, "."%char :: cs3) =>
              option_map (fun us => (hh, mm, ss, us)) (parse_fraction cs3)
          | _ => None
          end
      | _ => None
      end
  | _ => None
  end.

(** [YYYY-MM-DD] then nothing, or one separator character and a time. *)
Definition parse_isoformat (cs : list Ascii.ascii) : option datetime :=
  match parse_field 4 cs with
  | Some (y, "-"%char :: cs1) =>
      match parse_field 2 cs1 with
      | Some (mo, "-"%char :: cs2) =>
          match parse_field 2 cs2 with
          | Some (dd, []) => Some (mk_datetime y mo dd 0 0 0 0)
          | Some (dd, _ :: cs3) =>
              match parse_time cs3 with
              | Some (hh, mi, ss, us) => Some (mk_datetime y mo dd hh mi ss us)
              | None => None
              end
          | None => None
          end
      | _ => None
      end
  | _ => None
  end.

(** [datetime.fromisoformat(s)] on a [str]: the string is parsed, then the
    constructor checks the ranges; both failures raise [ValueError].  Any
    other argument type raises [TypeError] (see [PyVal]). *)
Definition dt_fromisoformat (s : string) : res datetime :=
  match parse_isoformat (String.list_ascii_of_string s) with
  | Some d => if dt_valid d then Ok d else Raise (ValueError s)
  | None => Raise (ValueError s)
  end.

(** ** Order *)

Lemma lex_ltb_irrefl l : lex_ltb l l = false.
Proof.
  induction l as [|x l IH]; simpl; [done|].
  by rewrite Nat.ltb_irrefl, Nat.eqb_refl, IH.
Qed.

Lemma lex_ltb_trans l1 l2 l3 :
  lex_ltb l1 l2 = true -> lex_ltb l2 l3 = true -> lex_ltb l1 l3 = true.
Proof.
  revert l2 l3. induction l1 as [|x l1 IH]; intros [|y l2] [|z l3]; simpl; try done.
  rewrite !orb_true_iff, !andb_true_iff, !Nat.ltb_lt, !Nat.eqb_eq.
  intros [?|[-> ?]] [?|[-> ?]]; eauto with lia.
Qed.

Lemma dt_lt_irrefl d : ~ dt_lt d d.
Proof. unfold dt_lt, dt_ltb. by rewrite lex_ltb_irrefl. Qed.

Lemma dt_lt_trans a b c : dt_lt a b -> dt_lt b c -> dt_lt a c.
Proof. apply lex_ltb_trans. Qed.

#[export] Hint Resolve dt_lt_irrefl dt_lt_trans : gitsim.

(** ** The [isoformat] / [fromisoformat] round trip *)

Lemma digit_nat_char d : d < 10 -> digit_nat (digit_char d) = Some d.
Proof.
  intros Hd. unfold digit_nat, digit_char. rewrite Ascii.nat_ascii_embedding by lia.
  replace ((48 <=? 48 + d) && (48 + d <=? 57)) with true
    by (symmetry; apply andb_true_iff; split; apply Nat.leb_le; lia).
  f_equal. lia.
Qed.

Lemma length_fixed_digits w n : length (fixed_digits w n) = w.
Proof. revert n. induction w as [|w IH]; intros n; simpl; [done|]. rewrite length_app, IH. simpl. lia. Qed.

(** Reading back [w] digits: the parser runs from the front, the printer
    builds from the back, so the statement carries the rest of the input
    and the width still to read. *)
Lemma parse_fixed_digits w k n acc rest :
  n < 10 ^ w ->
  parse_fixed (w + k) (fixed_digits w n ++ rest) acc = parse_fixed k rest (acc * 10 ^ w + n).
Proof.
  revert k n acc rest. induction w as [|w IH]; intros k n acc rest Hn.
  - simpl in *. by replace (acc * 1 + n) with acc by lia.
  - rewrite Nat.pow_succ_r' in *. cbn [fixed_digits].
    replace (S w + k) with (w + S k) by lia.
    rewrite <- app_assoc, IH by (apply Nat.Div0.div_lt_upper_bound; lia).
    cbn [app parse_fixed]. rewrite digit_nat_char by (apply Nat.mod_upper_bound; lia).
    f_equal. pose proof (Nat.div_mod_eq n 10). nia.
Qed.

Lemma parse_field_fixed w n rest :
  n < 10 ^ w -> parse_field w (fixed_digits w n ++ rest) = Some (n, rest).
Proof.
  intros Hn. unfold parse_field. rewrite <- (Nat.add_0_r w) at 1.
  by rewrite parse_fixed_digits.
Qed.

Lemma pad0_small w n :
  n < 10 ^ w -> pad0 w n = String.string_of_list_ascii (fixed_digits w n).
Proof. intros Hn. unfold pad0. by rewrite (proj2 (Nat.ltb_lt _ _) Hn). Qed.

(** The bounds [dt_valid] gives, in the form the printer needs. *)
Lemma dt_valid_bounds d :
  dt_valid d = true ->
  dt_year d < 10 ^ 4 /\ dt_month d < 10 ^ 2 /\ dt_day d < 10 ^ 2 /\ dt_hour d < 10 ^ 2 /\
  dt_minute d < 10 ^ 2 /\ dt_second d < 10 ^ 2 /\ dt_microsecond d < 10 ^ 6.
Proof.
  unfold dt_valid. rewrite !andb_true_iff, !Nat.leb_le, !Nat.ltb_lt.
  assert (forall y m, days_in_month y m <= 31)
    by (intros y [|[|[|[|[|[|[|[|[|[|[|[|m]]]]]]]]]]]]; simpl; try destruct (is_leap y); lia).
  intros Hv. decompose [and] Hv. specialize (H (dt_year d) (dt_month d)).
  change (10 ^ 2) with 100. repeat split; first [assumption | lia].
Qed.

Lemma parse_field_fixed_end w n : n < 10 ^ w -> parse_field w (fixed_digits w n) = Some (n, []).
Proof. intros Hn. rewrite <- (app_nil_r (fixed_digits w n)). by apply parse_field_fixed. Qed.

(** The characters of [isoformat()] of a valid datetime. *)
Lemma dt_isoformat_chars d :
  dt_valid d = true ->
  String.list_ascii_of_string (dt_isoformat d) =
    fixed_digits 4 (dt_year d) ++ "-"%char :: fixed_digits 2 (dt_month d) ++ "-"%char ::
    fixed_digits 2 (dt_day d) ++ "T"%char :: fixed_digits 2 (dt_hour d) ++ ":"%char ::
    fixed_digits 2 (dt_minute d) ++ ":"%char :: fixed_digits 2 (dt_second d) ++
    (if dt_microsecond d =? 0 then [] else "."%char :: fixed_digits 6 (dt_microsecond d)).
Proof.
  intros (?&?&?&?&?&?&?)%dt_valid_bounds. unfold dt_isoformat, dt_isoformat_sep.
  rewrite !pad0_small by done. autorewrite with gitsim.
  destruct (dt_microsecond d =? 0); cbn [String.list_ascii_of_string app];
    by autorewrite with gitsim.
Qed.

(** [datetime.fromisoformat(d.isoformat())] gives [d] back for every
    datetime the constructor accepts. *)
Theorem dt_fromisoformat_isoformat d : dt_valid d = true -> dt_fromisoformat (dt_isoformat d) = Ok d.
Proof.
  intros Hv. pose proof (dt_valid_bounds d Hv) as (?&?&?&?&?&?&?).
  unfold dt_fromisoformat. rewrite dt_isoformat_chars by done.
  unfold parse_isoformat, parse_time.
  do 6 (rewrite parse_field_fixed by done; cbv beta iota).
  destruct (dt_microsecond d =? 0) eqn:Eus; cbv beta iota.
  - apply Nat.eqb_eq in Eus. rewrite <- Eus. destruct d. cbn [dt_year dt_month dt_day dt_hour dt_minute dt_second dt_microsecond] in *. by rewrite Hv.
  - unfold parse_fraction. rewrite length_fixed_digits. cbv beta iota.
    rewrite parse_field_fixed_end by done. cbn [option_map]. cbv beta iota. destruct d. cbn [dt_year dt_month dt_day dt_hour dt_minute dt_second dt_microsecond] in *. by rewrite Hv.
Qed.

Create Rewrite HintDb dt_length.
#[local] Hint Rewrite @length_app @length_cons length_fixed_digits : dt_length.

(** [isoformat()] of a valid datetime has 19 characters, or 26 with
    microseconds. *)
Theorem dt_isoformat_length d :
  dt_valid d = true ->
  String.length (dt_isoformat d) = if dt_microsecond d =? 0 then 19 else 26.
Proof.
  intros Hv. rewrite length_list_ascii_of_string, dt_isoformat_chars by done.
  destruct (dt_microsecond d =? 0); autorewrite with dt_length; simpl; lia.
Qed.

Lemma dt_isoformat_nonempty d : dt_valid d = true -> String.eqb (dt_isoformat d) "" = false.
Proof.
  intros Hv. destruct (String.eqb_spec (dt_isoformat d) "") as [He|]; [|done].
  pose proof (dt_isoformat_length d Hv) as Hl. rewrite He in Hl. by destruct (dt_microsecond d =? 0).
Qed.
