(* ===== verification/PyVal.v ===== *)
(** The Python values the persistence code builds and reads: what
    [to_dict] returns and what [json.load] hands to [from_dict].  A dict is
    an association list in insertion order; [json.dump] accepts a value
    only when it is made of JSON types ([json_ok]), so a [datetime] left in
    a dict would make it raise [TypeError].  The files the program reads
    are [json_file]s: missing, not valid JSON, or a decoded value. *)

From S2P Require Import Prelude DateTime.

Module PyVal.

Unset Elimination Schemes.
Inductive pyval :=
| PNone
| PBool (b : bool)
| PInt (z : Z)
| PStr (s : string)
| PList (l : list pyval)
| PDict (kvs : list (string * pyval))
| PDateTime (d : datetime).
Set Elimination Schemes.

(** The induction principle with the nested lists, as for JSON trees. *)
Definition pyval_ind (P : pyval -> Prop)
    (fnone : P PNone) (fbool : forall b, P (PBool b)) (fint : forall z, P (PInt z))
    (fstr : forall s, P (PStr s)) (flist : forall l, Forall P l -> P (PList l))
    (fdict : forall kvs, Forall (fun kv => P kv.2) kvs -> P (PDict kvs))
    (fdt : forall d, P (PDateTime d)) : forall v, P v :=
  fix F v :=
    match v with
    | PNone => fnone
    | PBool b => fbool b
    | PInt z => fint z
    | PStr s => fstr s
    | PList l => flist l ((fix G l : Forall P l :=
                             match l with
                             | [] => Forall_nil_2 _
                             | x :: l' => Forall_cons_2 _ _ _ (F x) (G l')
                             end) l)
    | PDict kvs => fdict kvs ((fix G kvs : Forall (fun kv => P kv.2) kvs :=
                                 match kvs with
                                 | [] => Forall_nil_2 _
                                 | kv :: kvs' => Forall_cons_2 _ _ _ (F kv.2) (G kvs')
                                 end) kvs)
    | PDateTime d => fdt d
    end.

(** [json.dump] succeeds on the value: no [datetime] inside. *)
Fixpoint json_ok (v : pyval) : bool :=
  match v with
  | PList l => forallb json_ok l
  | PDict kvs => forallb (fun kv => json_ok kv.2) kvs
  | PDateTime _ => false
  | _ => true
  end.

(** A file the program reads with [json.load]. *)
Inductive json_file :=
| FileMissing
| FileCorrupt
| FileJson (v : pyval).

(** [json.dump(v, f)] then [json.load(f)]: the value comes back. *)
Definition json_save (v : pyval) : res json_file :=
  if json_ok v then Ok (FileJson v) else Raise (TypeError "Object of type datetime is not JSON serializable").

(** [json.load(f)] on an open file. *)
Definition json_load (f : json_file) : res pyval :=
  match f with
  | FileMissing => Raise (FileNotFoundError "")
  | FileCorrupt => Raise JSONDecodeError
  | FileJson v => Ok v
  end.

(** [if v:] on any value. *)
Definition py_truthy_val (v : pyval) : bool :=
  match v with
  | PNone => false
  | PBool b => b
  | PInt z => negb (Z.eqb z 0)
  | PStr s => negb (String.eqb s "")
  | PList l => negb (bool_decide (l = []))
  | PDict kvs => negb (bool_decide (kvs = []))
  | PDateTime _ => true
  end.

(** ** Reading values *)

Definition type_name (v : pyval) : string :=
  match v with
  | PNone => "NoneType" | PBool _ => "bool" | PInt _ => "int" | PStr _ => "str"
  | PList _ => "list" | PDict _ => "dict" | PDateTime _ => "datetime"
  end.

Fixpoint assoc_lookup (k : string) (kvs : list (string * pyval)) : option pyval :=
  match kvs with
  | [] => None
  | (k', v) :: kvs' => if String.eqb k' k then Some v else assoc_lookup k kvs'
  end.

(** [data[k]] *)
Definition py_getitem (v : pyval) (k : string) : res pyval :=
  match v with
  | PDict kvs => match assoc_lookup k kvs with Some x => Ok x | None => Raise (KeyError k) end
  | PList _ => Raise (TypeError "list indices must be integers or slices, not str")
  | PStr _ => Raise (TypeError "string indices must be integers")
  | _ => Raise (TypeError ("'" +:+ type_name v +:+ "' object is not subscriptable"))
  end.

(** The fields of a record are Rocq types: a value of another Python type
    stored in one is reported as a [TypeError] when it is read. *)
Definition as_str (v : pyval) : res string :=
  match v with PStr s => Ok s | _ => Raise (TypeError ("expected str, got " +:+ type_name v)) end.

(** A field that is a string or [None]. *)
Definition as_opt_str (v : pyval) : res (option string) :=
  match v with
  | PNone => Ok None
  | PStr s => Ok (Some s)
  | _ => Raise (TypeError ("expected str or None, got " +:+ type_name v))
  end.

(** [mapM] of the [res] monad: the first exception wins, as in a list
    comprehension. *)
Fixpoint res_map {A B} (f : A -> res B) (l : list A) : res (list B) :=
  match l with
  | [] => Ok []
  | x :: l' =>
      match f x with
      | Ok y => match res_map f l' with Ok ys => Ok (y :: ys) | Raise e => Raise e end
      | Raise e => Raise e
      end
  end.

Definition as_str_list (v : pyval) : res (list string) :=
  match v with
  | PList l => res_map as_str l
  | _ => Raise (TypeError ("expected list, got " +:+ type_name v))
  end.

(** [for x in v]: a list gives its elements, a dict its keys, a string
    its characters; other values are not iterable. *)
Definition py_iter (v : pyval) : res (list pyval) :=
  match v with
  | PList l => Ok l
  | PDict kvs => Ok (map (fun kv => PStr kv.1) kvs)
  | PStr s => Ok (map (fun c => PStr (String c EmptyString)) (String.list_ascii_of_string s))
  | _ => Raise (TypeError ("'" +:+ type_name v +:+ "' object is not iterable"))
  end.

(** [d.items()] of a dict; other values have no [items] method. *)
Definition as_items (v : pyval) : res (list (string * pyval)) :=
  match v with
  | PDict kvs => Ok kvs
  | _ => Raise (AttributeError "items")
  end.

(** A field that is a dict. *)
Definition as_dict (v : pyval) : res (list (string * pyval)) :=
  match v with
  | PDict kvs => Ok kvs
  | _ => Raise (TypeError ("expected dict, got " +:+ type_name v))
  end.

(** [datetime.fromisoformat(v)] *)
Definition py_fromisoformat (v : pyval) : res datetime :=
  match v with
  | PStr s => dt_fromisoformat s
  | _ => Raise (TypeError ("fromisoformat: argument must be str"))
  end.

(** The [res] monad's bind, written [let? x := r in k]. *)
Definition res_bind {A B} (r : res A) (k : A -> res B) : res B :=
  match r with Ok a => k a | Raise e => Raise e end.

Notation "'let?' x ':=' r 'in' k" := (res_bind r (fun x => k))
  (at level 10, x name, r at level 100, k at level 200) : py_scope.

(** [data[k]] read as a field of a record. *)
Definition get_str (data : pyval) (k : string) : res string :=
  res_bind (py_getitem data k) as_str.
Definition get_opt_str (data : pyval) (k : string) : res (option string) :=
  res_bind (py_getitem data k) as_opt_str.
Definition get_str_list (data : pyval) (k : string) : res (list string) :=
  res_bind (py_getitem data k) as_str_list.

(** The value [to_dict] stores for a string list and for an optional
    string. *)
Definition py_str_list (l : list string) : pyval := PList (map PStr l).
Definition py_opt_str (o : option string) : pyval :=
  match o with Some s => PStr s | None => PNone end.

(** ** Lemmas *)

Lemma res_bind_ok {A B} (a : A) (k : A -> res B) : res_bind (Ok a) k = k a.
Proof. done. Qed.

Lemma res_map_ok {A B} (f : A -> res B) (g : B -> A) (l : list B) :
  Forall (fun y => f (g y) = Ok y) l -> res_map f (map g l) = Ok l.
Proof. induction 1 as [|y l Hy _ IH]; simpl; [done|]. by rewrite Hy, IH. Qed.

Lemma res_map_map {A B C} (f : A -> res B) (g : C -> A) (h : C -> B) (l : list C) :
  Forall (fun x => f (g x) = Ok (h x)) l -> res_map f (map g l) = Ok (map h l).
Proof. induction 1 as [|x l Hx _ IH]; simpl; [done|]. by rewrite Hx, IH. Qed.

Lemma res_map_length {A B} (f : A -> res B) l ys : res_map f l = Ok ys -> length ys = length l.
Proof.
  revert ys. induction l as [|x l IH]; intros ys; simpl; [by intros [= <-]|].
  destruct (f x); [|done]. destruct (res_map f l) eqn:E; [|done].
  intros [= <-]. simpl. by rewrite (IH _ eq_refl).
Qed.

Lemma as_str_list_ok (l : list string) : as_str_list (py_str_list l) = Ok l.
Proof. unfold as_str_list, py_str_list. apply res_map_ok. by apply Forall_true. Qed.

Lemma as_opt_str_ok (o : option string) : as_opt_str (py_opt_str o) = Ok o.
Proof. by destruct o. Qed.

Lemma json_ok_str_list l : json_ok (py_str_list l) = true.
Proof. unfold py_str_list. induction l as [|s l IH]; simpl in *; auto. Qed.

Lemma json_ok_opt_str o : json_ok (py_opt_str o) = true.
Proof. by destruct o. Qed.

(** Looking up a key of a dict literal whose keys are distinct. *)
Lemma assoc_lookup_hit k v kvs : assoc_lookup k ((k, v) :: kvs) = Some v.
Proof. simpl. by rewrite String.eqb_refl. Qed.

Lemma assoc_lookup_miss k k' v kvs : k' <> k -> assoc_lookup k ((k', v) :: kvs) = assoc_lookup k kvs.
Proof. intros Hne. simpl. by destruct (String.eqb_spec k' k). Qed.

#[export] Hint Rewrite @res_bind_ok as_str_list_ok as_opt_str_ok json_ok_str_list json_ok_opt_str
  : gitsim.

End PyVal.
