(* ===== verification/Staging.v ===== *)
(** [src/proyecto1/staging.py]: the class [StagingArea], a list of staged
    file records.  The filesystem [add_file] reads is an explicit snapshot
    (a map from path to entry), so that its existence test, its read, its
    size and its modification time all see the same state. *)

From S2P Require Import Prelude.

Module Staging.

(** ** The filesystem the class reads *)

Inductive FsEntry :=
| FsFile (content : list Byte.byte) (mtime : Z)
| FsDir.

(** A snapshot of the filesystem: path to entry. *)
Abbreviation FsSnapshot := (gmap string FsEntry).

(** [os.path.exists] *)
Definition os_path_exists (fs : FsSnapshot) (path : string) : bool :=
  bool_decide (is_Some (fs !! path)).

(** ** State *)

(** The dict [file_info] built by [add_file]. *)
Record StagedFile := mk_staged_file {
  sf_filename : string;
  sf_status : string;
  sf_checksum : string;
  sf_size : nat;
  sf_last_modified : Z
}.

Record StagingArea := mk_staging { files : list StagedFile }.

(** [StagingArea.__init__] *)
Definition staging_init : StagingArea := mk_staging [].

(** The default [status='A'] of [add_file]. *)
Definition status_added : string := "A".

Section Operations.
Context `{Sha1}.

(** [StagingArea.add_file(filename, status)]: raises [FileNotFoundError]
    when the path does not exist, and [open] raises [IsADirectoryError] on
    a directory; otherwise the file's record is appended. *)
Definition add_file (fs : FsSnapshot) (filename status : string)
    : PyM StagingArea string :=
  (if negb (os_path_exists fs filename) then
     py_raise (FileNotFoundError ("Archivo '" +:+ filename +:+ "' no encontrado"))
   else
     match fs !! filename with
     | Some (FsFile content mtime) =>
         let file_info := {| sf_filename := filename; sf_status := status;
                             sf_checksum := sha1_hexdigest content;
                             sf_size := length content;
                             sf_last_modified := mtime |} in
         let! sa := py_get in
         py_put (mk_staging (files sa ++ [file_info])) ;;!
         py_ret ("Archivo '" +:+ filename +:+ "' añadido al área de staging")
     | _ => py_raise (IsADirectoryError filename)
     end)%py.

End Operations.

(** The loop of [remove_file]: the list without its first record named
    [filename], or [None] when there is none. *)
Fixpoint pop_first (filename : string) (l : list StagedFile) : option (list StagedFile) :=
  match l with
  | [] => None
  | fi :: l' =>
      if String.eqb (sf_filename fi) filename then Some l'
      else option_map (cons fi) (pop_first filename l')
  end.

(** [StagingArea.remove_file(filename)] *)
Definition remove_file (filename : string) : PyM StagingArea string :=
  fun sa =>
    match pop_first filename (files sa) with
    | Some l => (mk_staging l,
                 Ok ("Archivo '" +:+ filename +:+ "' removido del área de staging"))
    | None => (sa, Ok ("Archivo '" +:+ filename +:+ "' no encontrado en staging"))
    end.

(** [StagingArea.get_files()] *)
Definition get_files (sa : StagingArea) : list string := map sf_filename (files sa).

(** [StagingArea.clear()] *)
Definition clear : PyM StagingArea unit := py_put (mk_staging []).

(** [StagingArea.status()] *)
Definition status (sa : StagingArea) : string :=
  if negb (py_truthy_list (files sa)) then "No hay archivos en el área de staging"
  else foldl (fun msg fi => msg +:+ sf_status fi +:+ ": " +:+ sf_filename fi +:+ nl)
             ("Archivos en el área de staging:" +:+ nl) (files sa).

(** ** Theorems *)

Section Proofs.
Context `{Sha1}.

(** The record [add_file] appends for a regular file. *)
Definition staged_record (filename status : string) (content : list Byte.byte)
    (mtime : Z) : StagedFile :=
  {| sf_filename := filename; sf_status := status; sf_checksum := sha1_hexdigest content;
     sf_size := length content; sf_last_modified := mtime |}.

Lemma add_file_regular fs filename status content mtime sa :
  fs !! filename = Some (FsFile content mtime) ->
  add_file fs filename status sa =
    (mk_staging (files sa ++ [staged_record filename status content mtime]),
     Ok ("Archivo '" +:+ filename +:+ "' añadido al área de staging")).
Proof.
  intros Hf. unfold add_file, os_path_exists. rewrite Hf. by rewrite bool_decide_true.
Qed.

(** C16: [add_file] on a path that does not exist raises
    [FileNotFoundError] and leaves the staging area as it was. *)
Lemma add_file_missing fs filename status sa :
  fs !! filename = None ->
  add_file fs filename status sa =
    (sa, Raise (FileNotFoundError ("Archivo '" +:+ filename +:+ "' no encontrado"))).
Proof.
  intros Hf. unfold add_file, os_path_exists. rewrite bool_decide_false; [done|].
  rewrite Hf. by intros [].
Qed.

(** C29: [add_file] on a directory passes the existence test and then
    [open] raises [IsADirectoryError]; nothing is staged. *)
Lemma add_file_dir fs filename status sa :
  fs !! filename = Some FsDir ->
  add_file fs filename status sa = (sa, Raise (IsADirectoryError filename)).
Proof.
  intros Hf. unfold add_file, os_path_exists. rewrite Hf. by rewrite bool_decide_true.
Qed.

(** A successful [add_file] appends one record, with the file's name and
    the given status. *)
Lemma add_file_appends_record fs filename status sa sa' msg :
  add_file fs filename status sa = (sa', Ok msg) ->
  exists fi, files sa' = files sa ++ [fi] /\ sf_filename fi = filename /\ sf_status fi = status.
Proof.
  unfold add_file, os_path_exists.
  destruct (fs !! filename) as [[content mtime|]|] eqn:Hf; simpl;
    try (rewrite bool_decide_true by done); try (rewrite bool_decide_false by (by intros []));
    simpl; intros [= <- _]; try done.
  by eexists.
Qed.

Lemma add_file_appends fs filename status sa sa' msg :
  add_file fs filename status sa = (sa', Ok msg) ->
  get_files sa' = get_files sa ++ [filename].
Proof.
  intros (fi & Hf & Hn & _)%add_file_appends_record. unfold get_files. rewrite Hf, map_app. simpl. by rewrite Hn.
Qed.

Lemma add_file_raise_unchanged fs filename status sa sa' e :
  add_file fs filename status sa = (sa', Raise e) -> sa' = sa.
Proof.
  unfold add_file, os_path_exists.
  destruct (fs !! filename) as [[content mtime|]|]; simpl;
    try (rewrite bool_decide_true by done); try (rewrite bool_decide_false by (by intros []));
    simpl; by intros [= <- _].
Qed.

End Proofs.

(** [pop_first] removes exactly the first record with the given name. *)
Lemma pop_first_some filename l l' :
  pop_first filename l = Some l' <->
  exists l1 fi l2, l = l1 ++ fi :: l2 /\ Forall (fun g => sf_filename g <> filename) l1 /\
                   sf_filename fi = filename /\ l' = l1 ++ l2.
Proof.
  revert l'. induction l as [|g l IH]; intros l'; simpl.
  - split; [done|]. intros ([|] & ? & ? & ? & _); done.
  - destruct (String.eqb_spec (sf_filename g) filename) as [Hg|Hg].
    + split.
      * intros [= <-]. by exists [], g, l.
      * intros ([|g' l1] & fi & l2 & [= -> ->] & Hl1 & Hfi & ->); [done|].
        by inversion Hl1.
    + split.
      * destruct (pop_first filename l) as [l''|] eqn:E; simpl; [|done].
        intros [= <-]. destruct (proj1 (IH l'') eq_refl) as (l1 & fi & l2 & -> & ? & ? & ->).
        exists (g :: l1), fi, l2. by repeat constructor.
      * intros ([|g' l1] & fi & l2 & [= -> El] & Hl1 & Hfi & ->); [done|].
        inversion Hl1; subst. rewrite (proj2 (IH (l1 ++ l2))); [done|]. eauto 10.
Qed.

Lemma pop_first_none filename l :
  pop_first filename l = None <-> Forall (fun g => sf_filename g <> filename) l.
Proof.
  induction l as [|g l IH]; simpl; [split; auto|].
  destruct (String.eqb_spec (sf_filename g) filename) as [Hg|Hg].
  - split; [done|]. by inversion 1.
  - rewrite Forall_cons. destruct (pop_first filename l); simpl; naive_solver.
Qed.

(** C18: [remove_file] pops the first staged record with the name (the
    records before it have other names) and reports it; when there is
    none it reports so and changes nothing. *)
Lemma remove_file_spec filename sa :
  (exists l1 fi l2, files sa = l1 ++ fi :: l2 /\
     Forall (fun g => sf_filename g <> filename) l1 /\ sf_filename fi = filename /\
     remove_file filename sa =
       (mk_staging (l1 ++ l2),
        Ok ("Archivo '" +:+ filename +:+ "' removido del área de staging")))
  \/
  (Forall (fun g => sf_filename g <> filename) (files sa) /\
   remove_file filename sa =
     (sa, Ok ("Archivo '" +:+ filename +:+ "' no encontrado en staging"))).
Proof.
  unfold remove_file. destruct (pop_first filename (files sa)) as [l'|] eqn:E.
  - left. destruct (proj1 (pop_first_some _ _ _) E) as (l1 & fi & l2 & ? & ? & ? & ->).
    by exists l1, fi, l2.
  - right. by rewrite <- pop_first_none.
Qed.

(** ** Concrete runs *)

Section Witnesses.
#[local] Existing Instance demo_sha1.

Definition demo_fs : FsSnapshot :=
  {[ "README.md" := FsFile (String.list_byte_of_string "0123456789") 0;
     "docs" := FsDir ]}.

Lemma add_file_missing_witness :
  demo_fs !! "nope.txt" = None /\
  add_file demo_fs "nope.txt" status_added staging_init =
    (staging_init, Raise (FileNotFoundError ("Archivo '" +:+ "nope.txt" +:+ "' no encontrado"))).
Proof. split; [reflexivity|apply add_file_missing; reflexivity]. Defined.

Lemma add_file_dir_witness :
  demo_fs !! "docs" = Some FsDir /\
  add_file demo_fs "docs" status_added staging_init = (staging_init, Raise (IsADirectoryError "docs")).
Proof. split; [reflexivity|apply add_file_dir; reflexivity]. Defined.

End Witnesses.

End Staging.
