(* ===== verification/Commit.v ===== *)
(** [src/proyecto1/commit.py]: the record [Commit] and its [__str__], and
    the class [CommitHistory], a head pointer whose [get_history] reads an
    attribute [self.commits] the class never sets. *)

From S2P Require Import Prelude DateTime PyVal.

Module Commit.
Import PyVal.

(** [Commit.__init__]: one field per attribute; [parent_hash] is [None]
    or a hash string. *)
Record Commit := mk_commit {
  hash : string;
  date : datetime;
  author_email : string;
  message : string;
  parent_hash : option string;
  files : list string;
  branch : string
}.

#[export] Instance Commit_eq_dec : EqDecision Commit.
Proof. solve_decision. Defined.

(** [Commit.__str__] *)
Definition commit_str (c : Commit) : string :=
  "Commit: " +:+ String.substring 0 6 (hash c) +:+ nl
  +:+ "Author: " +:+ author_email c +:+ nl
  +:+ "Date:   " +:+ dt_str (date c) +:+ nl
  +:+ "Branch: " +:+ branch c +:+ nl
  +:+ nl +:+ "    " +:+ message c +:+ nl.

(** [Commit.to_dict] *)
Definition commit_to_dict (c : Commit) : pyval :=
  PDict [("hash", PStr (hash c)); ("date", PStr (dt_isoformat (date c)));
         ("author_email", PStr (author_email c)); ("message", PStr (message c));
         ("parent_hash", py_opt_str (parent_hash c)); ("files", py_str_list (files c));
         ("branch", PStr (branch c))].

(** [Commit.from_dict(data)]: the arguments of [cls(...)] are evaluated
    left to right, so the first missing key is the one reported. *)
Definition commit_from_dict (data : pyval) : res Commit :=
  (let? h := get_str data "hash" in
   let? d := res_bind (py_getitem data "date") py_fromisoformat in
   let? ae := get_str data "author_email" in
   let? msg := get_str data "message" in
   let? ph := get_opt_str data "parent_hash" in
   let? fs := get_str_list data "files" in
   let? br := get_str data "branch" in
   Ok (mk_commit h d ae msg ph fs br))%py.

(** ** [CommitHistory] *)

Record CommitHistory := mk_history { head : option Commit }.

(** [CommitHistory.__init__] *)
Definition history_init : CommitHistory := mk_history None.

(** [CommitHistory.add_commit(commit)]: the commit object is mutated (its
    [parent_hash] becomes the old head's hash) and becomes the head; the
    mutated commit is returned beside the new history. *)
Definition add_commit (c : Commit) (h : CommitHistory) : Commit * CommitHistory :=
  let c' := {| hash := hash c; date := date c; author_email := author_email c;
               message := message c;
               parent_hash := match head h with Some hd => Some (hash hd) | None => None end;
               files := files c; branch := branch c |} in
  (c', mk_history (Some c')).

(** The [while current and count < max_commits] loop of [get_history]:
    [n] is the number of iterations left before [count] reaches
    [max_commits].  Following a truthy [parent_hash] reads [self.commits],
    an attribute no method of [CommitHistory] creates. *)
Fixpoint history_loop (n : nat) (current : option Commit) (acc : list Commit)
    : res (list Commit) :=
  match n, current with
  | S n', Some c =>
      let acc' := acc ++ [c] in
      if py_truthy_str (parent_hash c) then Raise (AttributeError "commits")
      else history_loop n' None acc'
  | _, _ => Ok acc
  end.

(** [CommitHistory.get_history(max_commits=10)]; a negative bound runs no
    iteration. *)
Definition get_history (max_commits : Z) (h : CommitHistory) : res (list Commit) :=
  history_loop (Z.to_nat max_commits) (head h) [].

(** ** Theorems *)

(** C6: [get_history] raises [AttributeError] as soon as the head has a
    (truthy) parent and at least one iteration runs: the loop reads
    [self.commits], which a [CommitHistory] does not have. *)
Lemma get_history_parent_raises max_commits h c p :
  (0 < max_commits)%Z -> head h = Some c -> parent_hash c = Some p -> p <> "" ->
  get_history max_commits h = Raise (AttributeError "commits").
Proof.
  intros Hm Hh Hp Hne. unfold get_history. rewrite Hh.
  destruct (Z.to_nat max_commits) eqn:E; [lia|]. simpl. rewrite Hp.
  by rewrite (proj2 (py_truthy_str_true (Some p))) by eauto.
Qed.

(** C19: when the head has no (truthy) parent, [get_history] returns the
    head alone if [max_commits] is positive and nothing otherwise; with no
    head it returns nothing.  With C6 this is the whole behaviour of
    [get_history]: the history never goes past the head. *)
Lemma get_history_no_parent max_commits h :
  (forall c, head h = Some c -> py_truthy_str (parent_hash c) = false) ->
  get_history max_commits h =
    Ok (match head h with Some c => if (0 <? max_commits)%Z then [c] else [] | None => [] end).
Proof.
  intros Hp. unfold get_history. destruct (head h) as [c|] eqn:Eh; [|by destruct (Z.to_nat max_commits)].
  destruct (Z.ltb_spec 0 max_commits) as [Hm|Hm].
  - destruct (Z.to_nat max_commits) eqn:E; [lia|]. simpl. rewrite (Hp c eq_refl). by destruct n.
  - by replace (Z.to_nat max_commits) with 0%nat by lia.
Qed.

(** The round trip of the persisted commit: every field comes back, the
    date through [isoformat] and [fromisoformat]. *)
Lemma commit_from_to_dict c :
  dt_valid (date c) = true -> commit_from_dict (commit_to_dict c) = Ok c.
Proof.
  intros Hd. unfold commit_from_dict, commit_to_dict, get_str, get_opt_str, get_str_list.
  cbn [py_getitem assoc_lookup String.eqb Ascii.eqb Bool.eqb andb res_bind as_str
       py_fromisoformat].
  rewrite dt_fromisoformat_isoformat by done. autorewrite with gitsim. by destruct c.
Qed.

(** [to_dict] leaves no [datetime] in the dict: [json.dump] accepts it. *)
Lemma commit_to_dict_json c : json_ok (commit_to_dict c) = true.
Proof.
  unfold commit_to_dict. cbn [json_ok forallb snd]. by autorewrite with gitsim.
Qed.

(** C38: [Commit.from_dict(c.to_dict())] is [c]: hash, author, message,
    parent, files and branch come back as stored, the date through
    [isoformat] and [fromisoformat], for every date the [datetime]
    constructor accepts. *)
Theorem commit_roundtrip c :
  dt_valid (date c) = true -> commit_from_dict (commit_to_dict c) = Ok c.
Proof. apply commit_from_to_dict. Qed.

(** ** Concrete runs *)

Definition demo_date : datetime := mk_datetime 2024 5 1 12 0 0 0.

Definition demo_commit (h : string) : Commit :=
  mk_commit h demo_date "a@b.com" "msg" None ["README.md"] "main".

(** Two commits added one after the other: the second's parent is the
    first's hash. *)
Definition demo_history : CommitHistory :=
  (add_commit (demo_commit "bbb") (add_commit (demo_commit "aaa") history_init).2).2.

Lemma get_history_parent_raises_witness :
  exists c, (0 < 10)%Z /\ head demo_history = Some c /\ parent_hash c = Some "aaa" /\
    "aaa" <> "" /\ get_history 10 demo_history = Raise (AttributeError "commits").
Proof.
  eexists. split; [lia|]. split; [reflexivity|]. split; [reflexivity|]. split; [done|].
  eapply (get_history_parent_raises 10 demo_history _ "aaa"); [lia|reflexivity|reflexivity|done].
Defined.

Lemma commit_roundtrip_witness :
  dt_valid (date (demo_commit "aaa")) = true /\
  commit_from_dict (commit_to_dict (demo_commit "aaa")) = Ok (demo_commit "aaa").
Proof. split; [reflexivity|]. apply commit_roundtrip. reflexivity. Defined.

Lemma get_history_no_parent_witness :
  (forall c, head (add_commit (demo_commit "aaa") history_init).2 = Some c ->
             py_truthy_str (parent_hash c) = false) /\
  get_history 10 (add_commit (demo_commit "aaa") history_init).2 =
    Ok (match head (add_commit (demo_commit "aaa") history_init).2 with
        | Some c => if (0 <? 10)%Z then [c] else [] | None => [] end).
Proof.
  assert (Hp : forall c, head (add_commit (demo_commit "aaa") history_init).2 = Some c ->
                         py_truthy_str (parent_hash c) = false) by (intros c [= <-]; reflexivity).
  split; [exact Hp|]. apply (get_history_no_parent 10 _ Hp).
Defined.

End Commit.
