(* ===== verification/Repository.v ===== *)
(** [src/proyecto1/repository.py], class [Repository]: one staging area, a
    commit store keyed by hash, branch pointers and a head; [commit] moves
    the staged names into a new commit.  Also the history walk of
    [GitLogCommand.execute] ([src/proyecto1/commands.py]), which follows
    [parent_hash] through the store with no bound.

    The invariant [repo_wf] (store keys are the commits' hashes, the head
    is stored, the current branch points at the head, every parent is
    stored and strictly older) is preserved by [commit] when the new hash
    is fresh and the clock has advanced past the head's date; under it the
    walk terminates within [size commits] steps and never revisits a
    hash.  When the hash collides with the head's, the new commit is its
    own parent and the walk never ends.  [AbsRepo] is the abstract
    repository (the log as a list and the staged names) that [commit] and
    [add_file] refine. *)

From S2P Require Import Prelude DateTime Staging Commit.
From Stdlib Require Import Sorted.

Module Repository.
Import Commit.

(** [Repository.__init__]'s attributes.  [head] is the commit object the
    current branch points to. *)
Record Repository := mk_repo {
  name : string;
  path : string;
  branches : gmap string (option string);
  current_branch : string;
  staging_area : Staging.StagingArea;
  commits : gmap string Commit;
  head : option Commit
}.

(** [Repository(name, path)] *)
Definition repo_init (name path : string) : Repository :=
  {| name := name; path := path; branches := {["main" := None]};
     current_branch := "main"; staging_area := Staging.staging_init;
     commits := ∅; head := None |}.

Definition set_staging (r : Repository) (sa : Staging.StagingArea) : Repository :=
  {| name := name r; path := path r; branches := branches r;
     current_branch := current_branch r; staging_area := sa;
     commits := commits r; head := head r |}.

Section Operations.
Context `{Sha1}.

(** [Repository.add_file(filename)]: delegates with the default status;
    the exception of the staging area propagates. *)
Definition add_file (fs : Staging.FsSnapshot) (filename : string) : PyM Repository unit :=
  fun r =>
    match Staging.add_file fs filename Staging.status_added (staging_area r) with
    | (sa', Ok _) => (set_staging r sa', Ok tt)
    | (sa', Raise e) => (set_staging r sa', Raise e)
    end.

(** [Repository._generate_hash(data)] *)
Definition generate_hash (data : string) : string := sha1_hexdigest (py_encode data).

(** The hash [commit] computes from the first read of the clock. *)
Definition commit_hash_of (message author_email : string) (now_hash : datetime) : string :=
  generate_hash (message +:+ author_email +:+ dt_str now_hash).

(** [Repository.commit(message, author_email)].  The code reads the clock
    twice: [now_hash] is the [datetime.now()] inside the hashed string,
    [now_date] the one stored as the commit's date. *)
Definition commit (now_hash now_date : datetime) (message author_email : string)
    (r : Repository) : Repository * string :=
  if negb (py_truthy_list (Staging.files (staging_area r))) then
    (r, "No hay archivos en el área de staging para hacer commit.")
  else
    let commit_hash := commit_hash_of message author_email now_hash in
    let parent_hash := match head r with Some h => Some (hash h) | None => None end in
    let new_commit := {| hash := commit_hash; date := now_date;
                         author_email := author_email; message := message;
                         parent_hash := parent_hash;
                         files := Staging.get_files (staging_area r);
                         branch := current_branch r |} in
    ({| name := name r; path := path r;
        branches := <[current_branch r := Some commit_hash]> (branches r);
        current_branch := current_branch r;
        staging_area := Staging.mk_staging [];
        commits := <[commit_hash := new_commit]> (commits r);
        head := Some new_commit |},
     "Commit [" +:+ String.substring 0 6 commit_hash +:+ "] creado en rama '"
       +:+ current_branch r +:+ "'").

(** A caller's [add_file] of several names in order, stopping at the
    first exception (as a sequence of statements does). *)
Fixpoint add_files (fs : Staging.FsSnapshot) (names : list string) : PyM Repository unit :=
  match names with
  | [] => py_ret tt
  | n :: ns => (add_file fs n ;;! add_files fs ns)%py
  end.

End Operations.

(** ** The history walk of [git log] *)

(** One step of the loop: [current.parent_hash] when truthy, looked up
    with [commits.get]. *)
Definition parent_of (store : gmap string Commit) (c : Commit) : option Commit :=
  if py_truthy_str (parent_hash c) then
    match parent_hash c with Some p => store !! p | None => None end
  else None.

(** [while current: log += ...; current = ...] with fuel: [None] when the
    fuel runs out before the loop ends. *)
Fixpoint log_walk (fuel : nat) (store : gmap string Commit) (current : option Commit)
    : option (list Commit) :=
  match current with
  | None => Some []
  | Some c =>
      match fuel with
      | 0 => None
      | S fuel' => option_map (cons c) (log_walk fuel' store (parent_of store c))
      end
  end.

(** The commits the loop visits, as a relation: from [current], each
    commit is followed by its [parent_of]. *)
Inductive chain (store : gmap string Commit) : option Commit -> list Commit -> Prop :=
| chain_end : chain store None []
| chain_step c l : chain store (parent_of store c) l -> chain store (Some c) (c :: l).

(** ** The repository invariant *)

Record repo_wf (r : Repository) : Prop := {
  wf_keys : forall h c, commits r !! h = Some c -> hash c = h /\ h <> "";
  wf_head : forall c, head r = Some c -> commits r !! hash c = Some c;
  wf_branch : branches r !! current_branch r = None \/
              branches r !! current_branch r = Some (hash <$> head r);
  wf_parents : forall h c p, commits r !! h = Some c -> parent_hash c = Some p ->
                 exists cp, commits r !! p = Some cp /\ dt_lt (date cp) (date c)
}.

(** The hypotheses under which a commit keeps the invariant: the new hash
    is not in the store and is a truthy string, and the date of the new
    commit is later than the head's. *)
Definition commit_fresh (r : Repository) (h : string) (now_date : datetime) : Prop :=
  commits r !! h = None /\ h <> "" /\
  (forall c, head r = Some c -> dt_lt (date c) now_date).

(** ** The abstract repository *)

(** What the repository promises its user: the log, newest first, as
    (message, author, files), and the staged names. *)
Record AbsRepo := mk_abs {
  a_log : list (string * string * list string);
  a_staged : list string
}.

Definition a_init : AbsRepo := mk_abs [] [].

Definition a_add_file (filename : string) (a : AbsRepo) : AbsRepo :=
  mk_abs (a_log a) (a_staged a ++ [filename]).

Definition a_commit (message author : string) (a : AbsRepo) : AbsRepo :=
  match a_staged a with
  | [] => a
  | staged => mk_abs ((message, author, staged) :: a_log a) []
  end.

Definition log_entry (c : Commit) : string * string * list string :=
  (message c, author_email c, files c).

(** [r] implements [a]: the invariant holds, the staged names agree, and
    the walk from the head lists [a]'s log. *)
Definition refines (r : Repository) (a : AbsRepo) : Prop :=
  repo_wf r /\ Staging.get_files (staging_area r) = a_staged a /\
  exists l, chain (commits r) (head r) l /\ map log_entry l = a_log a.

(** ** Behaviour of the operations *)

Section Behaviour.
Context `{Sha1}.

(** [commit] with nothing staged reports it and changes nothing. *)
Lemma commit_nothing_staged now_hash now_date message author r :
  Staging.files (staging_area r) = [] ->
  commit now_hash now_date message author r =
    (r, "No hay archivos en el área de staging para hacer commit.").
Proof. intros He. unfold commit. by rewrite He. Qed.

(** [commit] with staged files: the new commit carries the staged names in
    order and the old head's hash as parent, it is stored under its hash,
    the current branch and the head point to it, and staging is empty. *)
Lemma commit_staged now_hash now_date message author r :
  Staging.files (staging_area r) <> [] ->
  let h := commit_hash_of message author now_hash in
  let c := {| hash := h; date := now_date; author_email := author; message := message;
              parent_hash := hash <$> head r;
              files := Staging.get_files (staging_area r);
              branch := current_branch r |} in
  let r' := (commit now_hash now_date message author r).1 in
  commits r' = <[h := c]> (commits r) /\ head r' = Some c /\
  branches r' = <[current_branch r := Some h]> (branches r) /\
  Staging.get_files (staging_area r') = [] /\
  current_branch r' = current_branch r.
Proof.
  intros Hne. unfold commit. destruct (Staging.files (staging_area r)) as [|f fs]; [done|].
  simpl. by destruct (head r).
Qed.

Lemma add_file_ok fs filename r r' :
  add_file fs filename r = (r', Ok tt) ->
  Staging.get_files (staging_area r') = Staging.get_files (staging_area r) ++ [filename] /\
  commits r' = commits r /\ head r' = head r /\ branches r' = branches r /\
  current_branch r' = current_branch r.
Proof.
  unfold add_file. destruct (Staging.add_file _ _ _ _) as [sa' [m|e]] eqn:E;
    intros [= <-]. simpl. by rewrite (Staging.add_file_appends _ _ _ _ _ _ E).
Qed.

Lemma add_file_raise fs filename r r' e :
  add_file fs filename r = (r', Raise e) -> r' = r.
Proof.
  unfold add_file. destruct (Staging.add_file _ _ _ _) as [sa' [m|e']] eqn:E;
    intros [= <- ->]. apply Staging.add_file_raise_unchanged in E as ->. by destruct r.
Qed.

(** Adding regular files one after the other stages their names in
    order, and leaves the store, the head and the branches alone. *)
Lemma add_files_ok fs names r :
  Forall (fun n => exists content mtime, fs !! n = Some (Staging.FsFile content mtime)) names ->
  exists r', add_files fs names r = (r', Ok tt) /\
             Staging.get_files (staging_area r') = Staging.get_files (staging_area r) ++ names.
Proof.
  revert r. induction names as [|n ns IH]; intros r Hns; simpl.
  - exists r. by rewrite app_nil_r.
  - apply Forall_cons in Hns as [(content & mtime & Hn) Hns].
    destruct (add_file fs n r) as [r1 [[]|e]] eqn:E.
    2: { unfold add_file in E. by rewrite (Staging.add_file_regular _ _ _ content mtime) in E. }
    destruct (IH r1 Hns) as (r2 & Hr2 & Hf). exists r2.
    unfold py_bind. rewrite E. split; [done|].
    rewrite Hf, (proj1 (add_file_ok _ _ _ _ E)), <- app_assoc. done.
Qed.

(** The records [add_files] stages: one per name, in order, each with
    the default status ['A']; the current branch does not change. *)
Lemma add_files_records fs names r r' :
  add_files fs names r = (r', Ok tt) ->
  map (fun fi => (Staging.sf_status fi, Staging.sf_filename fi)) (Staging.files (staging_area r')) =
    map (fun fi => (Staging.sf_status fi, Staging.sf_filename fi)) (Staging.files (staging_area r)) ++
    map (fun n => (Staging.status_added, n)) names /\
  current_branch r' = current_branch r.
Proof.
  revert r. induction names as [|n ns IH]; intros r; simpl.
  - intros [= <-]. by rewrite app_nil_r.
  - unfold py_bind, add_file.
    destruct (Staging.add_file fs n Staging.status_added (staging_area r)) as [sa1 [m|e]] eqn:E;
      [|done].
    intros (Hf & Hb)%IH. simpl in Hf, Hb. rewrite Hf, Hb.
    destruct (Staging.add_file_appends_record _ _ _ _ _ _ E) as (fi & -> & Hn & Hs).
    rewrite map_app, <- app_assoc. simpl. by rewrite Hn, Hs.
Qed.

End Behaviour.

(** ** The invariant *)

Lemma repo_init_wf name path : repo_wf (repo_init name path).
Proof.
  split; simpl.
  - intros h c. by rewrite lookup_empty.
  - done.
  - right. by rewrite lookup_singleton_eq.
  - intros h c p. by rewrite lookup_empty.
Qed.

Lemma set_staging_wf r sa : repo_wf r -> repo_wf (set_staging r sa).
Proof. intros []. by split. Qed.

Lemma add_file_wf `{Sha1} fs filename r :
  repo_wf r -> repo_wf (add_file fs filename r).1.
Proof.
  intros Hwf. unfold add_file.
  destruct (Staging.add_file _ _ _ _) as [sa' [m|e]]; by apply set_staging_wf.
Qed.

(** A stored commit's parent is another key of the store, hence different
    from a fresh hash. *)
Lemma wf_parent_ne_fresh r h c p k :
  repo_wf r -> commits r !! h = Some c -> parent_hash c = Some p -> commits r !! k = None ->
  p <> k.
Proof.
  intros Hwf Hc Hp Hk ->. destruct (wf_parents _ Hwf _ _ _ Hc Hp) as (cp & Hcp & _).
  congruence.
Qed.

(** [commit] keeps the invariant when the new hash is fresh and the date
    is later than the head's. *)
Lemma commit_keeps_wf `{Sha1} now_hash now_date message author r :
  repo_wf r ->
  commit_fresh r (commit_hash_of message author now_hash) now_date ->
  repo_wf (commit now_hash now_date message author r).1.
Proof.
  intros Hwf (Hfresh & Hne & Hclock).
  destruct (decide (Staging.files (staging_area r) = [])) as [He|He].
  { by rewrite commit_nothing_staged. }
  destruct (commit_staged now_hash now_date message author r He)
    as (Hcs & Hhd & Hbr & _ & Hcur).
  set (h := commit_hash_of message author now_hash) in *.
  split; rewrite ?Hcs, ?Hhd, ?Hbr, ?Hcur.
  - intros k c. rewrite lookup_insert. case_decide; [intros [= <-]; by subst|].
    apply (wf_keys _ Hwf).
  - intros c [= <-]. by rewrite lookup_insert_eq.
  - right. by rewrite lookup_insert_eq.
  - intros k c p. rewrite lookup_insert. case_decide as Hk.
    + intros [= <-] Hp. simpl in Hp. destruct (head r) as [hd|] eqn:Ehd; [|done].
      injection Hp as <-. exists hd. split; [|by apply Hclock].
      rewrite lookup_insert_ne; [by apply (wf_head _ Hwf)|].
      intros Heq. rewrite Heq, (wf_head _ Hwf hd Ehd) in Hfresh. done.
    + intros Hc Hp. destruct (wf_parents _ Hwf _ _ _ Hc Hp) as (cp & Hcp & Hlt).
      exists cp. split; [|done]. rewrite lookup_insert_ne; [done|].
      intros ->. congruence.
Qed.

(** ** The history walk *)

(** A commit stored under its own hash. *)
Definition stored (store : gmap string Commit) (c : Commit) : Prop := store !! hash c = Some c.

(** The termination measure: how many stored commits are older than [c]. *)
Definition older (store : gmap string Commit) (c : Commit) : nat :=
  length (filter (fun kc : string * Commit => dt_lt (date kc.2) (date c)) (map_to_list store)).

Lemma log_walk_None n store : log_walk n store None = Some [].
Proof. by destruct n. Qed.

(** When the walk of [git log] ends, it has listed the parent chain from
    its start: each commit followed by its [parent_of]. *)
Lemma log_walk_chain n store x l : log_walk n store x = Some l -> chain store x l.
Proof.
  revert x l. induction n as [|n IH]; intros [c|] l; simpl; try (intros [= <-]; constructor);
    try done.
  destruct (log_walk n store (parent_of store c)) eqn:E; intros [= <-].
  constructor. by apply IH.
Qed.

Lemma chain_functional store x l1 l2 : chain store x l1 -> chain store x l2 -> l1 = l2.
Proof.
  intros H1. revert l2. induction H1 as [|c l H IH]; intros l2 H2; inversion H2; subst; [done|].
  f_equal. by apply IH.
Qed.

Lemma log_walk_more_fuel n m store x l :
  log_walk n store x = Some l -> n <= m -> log_walk m store x = Some l.
Proof.
  revert m x l. induction n as [|n IH]; intros m [c|] l; simpl;
    [done| intros [= <-] _; by destruct m | | intros [= <-] _; by destruct m].
  destruct (log_walk n store (parent_of store c)) eqn:E; intros [= <-] Hm.
  destruct m as [|m]; [lia|]. simpl. by rewrite (IH m _ _ E) by lia.
Qed.

Lemma wf_stored r h c : repo_wf r -> commits r !! h = Some c -> stored (commits r) c.
Proof. intros Hwf Hc. unfold stored. by rewrite (proj1 (wf_keys _ Hwf _ _ Hc)). Qed.

(** The step of the walk from a stored commit reaches a stored, strictly
    older commit. *)
Lemma parent_of_older r c c' :
  repo_wf r -> stored (commits r) c -> parent_of (commits r) c = Some c' ->
  stored (commits r) c' /\ dt_lt (date c') (date c).
Proof.
  intros Hwf Hc. unfold parent_of. destruct (parent_hash c) as [p|] eqn:Hp; [|intros [=]].
  destruct (py_truthy_str (Some p)); [|intros [=]]. intros Hc'.
  destruct (wf_parents _ Hwf _ _ _ Hc Hp) as (cp & Hcp & Hlt).
  rewrite Hc' in Hcp. injection Hcp as <-. split; [by eapply wf_stored|done].
Qed.

Lemma older_step r c c' :
  repo_wf r -> stored (commits r) c -> parent_of (commits r) c = Some c' ->
  older (commits r) c' < older (commits r) c.
Proof.
  intros Hwf Hc Hpar. destruct (parent_of_older r c c' Hwf Hc Hpar) as [Hc' Hlt].
  unfold older. apply (length_filter_strict _ _ _ (hash c', c')).
  - intros [k x] _. simpl. eauto using dt_lt_trans.
  - by apply elem_of_map_to_list.
  - done.
  - apply dt_lt_irrefl.
Qed.

Lemma older_lt_size store c : stored store c -> older store c < size store.
Proof.
  intros Hc. unfold older. rewrite <- length_map_to_list.
  apply (length_filter_lt _ _ (hash c, c)); [by apply elem_of_map_to_list|].
  apply dt_lt_irrefl.
Qed.

Lemma log_walk_terminates_from r n c :
  repo_wf r -> stored (commits r) c -> older (commits r) c < n ->
  exists l, log_walk n (commits r) (Some c) = Some l.
Proof.
  intros Hwf. revert c. induction n as [|n IH]; intros c Hc Hn; [lia|]. simpl.
  destruct (parent_of (commits r) c) as [c'|] eqn:Hpar.
  - pose proof (older_step r c c' Hwf Hc Hpar).
    destruct (parent_of_older r c c' Hwf Hc Hpar) as [Hc' _].
    destruct (IH c' Hc') as [l ->]; [lia|]. by eexists.
  - rewrite log_walk_None. by eexists.
Qed.

(** The walk of [git log] from the head ends within as many steps as
    there are commits in the store. *)
Theorem log_walk_ends r :
  repo_wf r -> exists l, log_walk (size (commits r)) (commits r) (head r) = Some l.
Proof.
  intros Hwf. destruct (head r) as [c|] eqn:Hh; [|rewrite log_walk_None; by eexists].
  assert (Hc : stored (commits r) c) by (by apply (wf_head _ Hwf)).
  apply log_walk_terminates_from; [done|done|]. by apply older_lt_size.
Qed.

(** Every commit after [c] on its chain is stored and older than [c]. *)
Lemma chain_older r c l :
  repo_wf r -> stored (commits r) c -> chain (commits r) (parent_of (commits r) c) l ->
  Forall (fun x => stored (commits r) x /\ dt_lt (date x) (date c)) l.
Proof.
  intros Hwf. revert c. induction l as [|x l IH]; intros c Hc Hch; [done|].
  inversion Hch as [|x' l' Hch' Hx]; subst.
  destruct (parent_of_older r c x Hwf Hc (eq_sym Hx)) as [Hxs Hlt].
  constructor; [done|]. eapply Forall_impl; [apply (IH x Hxs Hch')|].
  intros y [? ?]. eauto using dt_lt_trans.
Qed.

(** A chain from a stored commit lists stored commits, each older than
    the ones before it, and ends at a commit without a stored parent. *)
Lemma chain_sorted r x l :
  repo_wf r -> (forall c, x = Some c -> stored (commits r) c) -> chain (commits r) x l ->
  Forall (stored (commits r)) l /\ StronglySorted (fun c c' => dt_lt (date c') (date c)) l /\
  forall c, last l = Some c -> parent_of (commits r) c = None.
Proof.
  intros Hwf Hx Hch. induction Hch as [|c l Hch IH].
  { split; [done|]. split; [constructor|done]. }
  assert (Hc : stored (commits r) c) by auto.
  destruct IH as (Hs & Hss & Hl); [intros c' Hc'; by eapply parent_of_older|].
  pose proof (chain_older r c l Hwf Hc Hch) as Hold.
  split; [by constructor|]. split.
  - constructor; [done|]. eapply Forall_impl; [exact Hold|]. by intros y [_ ?].
  - intros c' Hlast. destruct l as [|y l]; [injection Hlast as <-; by inversion Hch|by apply Hl].
Qed.


(** ** A hash collision with the head *)

Lemma log_walk_self_loop n store c :
  parent_of store c = Some c -> log_walk n store (Some c) = None.
Proof.
  intros Hc. induction n as [|n IH]; [done|]. simpl. by rewrite Hc, IH.
Qed.

(** C5: when the hash computed by [commit] equals the current head's hash
    (same message and author, and the same [str(datetime.now())]), the new
    commit overwrites the head in the store and records it as its own
    parent: the loop of [git log] then never ends, whatever the fuel. *)
Theorem commit_collision_log_diverges `{Sha1} now_hash now_date message author r hd :
  Staging.files (staging_area r) <> [] -> head r = Some hd -> hash hd <> "" ->
  commit_hash_of message author now_hash = hash hd ->
  let r' := (commit now_hash now_date message author r).1 in
  forall fuel, log_walk fuel (commits r') (head r') = None.
Proof.
  intros Hne Hh Hnz Hcol r' fuel.
  destruct (commit_staged now_hash now_date message author r Hne) as (Hcs & Hhd & _).
  subst r'. rewrite Hhd. apply log_walk_self_loop.
  unfold parent_of. rewrite Hh. simpl.
  destruct (String.eqb_spec (hash hd) ""); [congruence|]. simpl.
  rewrite Hcs, <- Hcol, lookup_insert_eq. by rewrite Hh, Hcol.
Qed.

(** ** Refinement of the abstract repository *)

(** Inserting a fresh key keeps every chain from a stored commit. *)
Lemma chain_insert_fresh r k v x l :
  repo_wf r -> commits r !! k = None ->
  (forall c, x = Some c -> stored (commits r) c) ->
  chain (commits r) x l -> chain (<[k := v]> (commits r)) x l.
Proof.
  intros Hwf Hk Hx Hch. induction Hch as [|c l Hch IH]; constructor.
  assert (Hc : stored (commits r) c) by auto.
  assert (Hpar : parent_of (<[k:=v]> (commits r)) c = parent_of (commits r) c).
  { unfold parent_of. destruct (parent_hash c) as [p|] eqn:Hp; [|done].
    destruct (py_truthy_str (Some p)); [|done].
    apply lookup_insert_ne. intros Heq. by apply (wf_parent_ne_fresh r (hash c) c p k Hwf Hc Hp Hk). }
  rewrite Hpar. apply IH. intros c' Hc'. by eapply parent_of_older.
Qed.

Lemma init_refines name path : refines (repo_init name path) a_init.
Proof.
  split; [apply repo_init_wf|]. split; [done|]. exists []. split; constructor.
Qed.

Lemma add_file_refines `{Sha1} fs filename r a :
  refines r a ->
  match add_file fs filename r with
  | (r', Ok _) => refines r' (a_add_file filename a)
  | (r', Raise _) => refines r' a
  end.
Proof.
  intros (Hwf & Hst & l & Hch & Hl).
  destruct (add_file fs filename r) as [r' [[]|e]] eqn:E.
  - destruct (add_file_ok _ _ _ _ E) as (Hf & Hc & Hh & _).
    pose proof (add_file_wf fs filename r Hwf) as Hwf'. rewrite E in Hwf'.
    split; [done|].
    split; [by rewrite Hf, Hst|]. exists l. by rewrite Hc, Hh.
  - apply add_file_raise in E as ->. split; [done|]. split; [done|]. by exists l.
Qed.

(** [commit] implements the abstract commit: with something staged, the
    log gains one entry (message, author, staged names) on top, and the
    staging area is emptied. *)
Theorem commit_refines `{Sha1} now_hash now_date message author r a :
  refines r a ->
  commit_fresh r (commit_hash_of message author now_hash) now_date ->
  refines (commit now_hash now_date message author r).1 (a_commit message author a).
Proof.
  intros (Hwf & Hst & l & Hch & Hl) Hfr.
  split; [by apply commit_keeps_wf|].
  destruct (decide (Staging.files (staging_area r) = [])) as [He|He].
  { rewrite commit_nothing_staged by done. unfold a_commit.
    rewrite <- Hst. unfold Staging.get_files. rewrite He. simpl. split; [done|]. by exists l. }
  destruct (commit_staged now_hash now_date message author r He)
    as (Hcs & Hhd & _ & Hsa & _).
  destruct Hfr as (Hfresh & Hnz & _).
  assert (Ha : a_commit message author a =
    mk_abs ((message, author, Staging.get_files (staging_area r)) :: a_log a) []).
  { unfold a_commit. rewrite <- Hst. unfold Staging.get_files.
    by destruct (Staging.files (staging_area r)). }
  rewrite Ha, Hsa, Hcs, Hhd. split; [done|].
  eexists (_ :: l). split; [constructor|simpl; by rewrite Hl].
  unfold parent_of. simpl. destruct (head r) as [hd|] eqn:Hh; simpl; [|inversion Hch; constructor].
  pose proof (wf_head _ Hwf hd Hh) as Hhds.
  destruct (String.eqb_spec (hash hd) "") as [Hz|_];
    [by destruct (wf_keys _ Hwf _ _ Hhds)|]. simpl.
  rewrite lookup_insert_ne by (intros Heq; rewrite Heq in Hfresh; congruence).
  rewrite Hhds. rewrite <- Hh in Hch |- *.
  apply chain_insert_fresh; [done|done| |done]. intros c Hc. rewrite Hh in Hc.
  by injection Hc as <-.
Qed.

(** ** Runs of the repository *)

Section Runs.
Context `{Sha1}.

(** The states a repository reaches from [Repository(name, path)] by
    [add_file] and [commit], beside the abstract state of the same run;
    every commit of the run has a fresh hash and a later date. *)
Inductive runs : Repository -> AbsRepo -> Prop :=
| runs_init name path : runs (repo_init name path) a_init
| runs_add fs filename r a :
    runs r a ->
    runs (add_file fs filename r).1
         (match (add_file fs filename r).2 with Ok _ => a_add_file filename a | Raise _ => a end)
| runs_commit now_hash now_date message author r a :
    runs r a -> commit_fresh r (commit_hash_of message author now_hash) now_date ->
    runs (commit now_hash now_date message author r).1 (a_commit message author a).

(** Each step of a run keeps the refinement. *)
Lemma runs_refines r a : runs r a -> refines r a.
Proof.
  induction 1 as [name path|fs filename r a _ IH|now_hash now_date message author r a _ IH Hfr].
  - apply init_refines.
  - pose proof (add_file_refines fs filename r a IH) as Hr.
    destruct (add_file fs filename r) as [r' [u|e]]; simpl; [by destruct u|done].
  - by apply commit_refines.
Qed.

End Runs.

(** C1: every run of [add_file] and [commit] from [Repository(name,
    path)] implements the abstract repository of the same run: the
    invariant holds, the staged names are the abstract ones, and the walk
    of [git log] from the head lists exactly the commits made, newest
    first, each with its message, author and the names staged for it. *)
Theorem runs_refine `{Sha1} r a : runs r a -> refines r a.
Proof. apply runs_refines. Qed.

(** ** The claims on the invariant and on termination *)

(** C3: [commit] keeps the repository invariant when the new hash is
    fresh and truthy and the clock has moved past the head's date. *)
Theorem commit_wf `{Sha1} now_hash now_date message author r :
  repo_wf r ->
  commit_fresh r (commit_hash_of message author now_hash) now_date ->
  repo_wf (commit now_hash now_date message author r).1.
Proof. apply commit_keeps_wf. Qed.

(** C2: on a well-formed repository the loop of [git log] ends within as
    many iterations as there are commits in the store. *)
Theorem log_walk_terminates r :
  repo_wf r -> exists l, log_walk (size (commits r)) (commits r) (head r) = Some l.
Proof. apply log_walk_ends. Qed.

(** C40: the spec's staging-to-commit property: files added one after the
    other to an empty staging area and then committed end up in the new
    head commit in insertion order, and staging is empty right after. *)
Theorem add_files_then_commit `{Sha1} fs names now_hash now_date message author r :
  Staging.files (staging_area r) = [] -> names <> [] ->
  Forall (fun n => exists content mtime, fs !! n = Some (Staging.FsFile content mtime)) names ->
  exists r1 c, add_files fs names r = (r1, Ok tt) /\
    head (commit now_hash now_date message author r1).1 = Some c /\ files c = names /\
    Staging.get_files (staging_area (commit now_hash now_date message author r1).1) = [].
Proof.
  intros He Hne Hns. destruct (add_files_ok fs names r Hns) as (r1 & Hr1 & Hf).
  unfold Staging.get_files in Hf. rewrite He in Hf. simpl in Hf.
  assert (Hs : Staging.files (staging_area r1) <> []) by (intros E; rewrite E in Hf; by subst).
  destruct (commit_staged now_hash now_date message author r1 Hs) as (_ & Hh & _ & Hst & _).
  eexists r1, _. split; [done|]. split; [exact Hh|]. split; [done|exact Hst].
Qed.

(** ** Concrete runs *)

Section Witnesses.
#[local] Existing Instance demo_sha1.

Definition demo_now1 : datetime := mk_datetime 2024 5 1 12 0 0 1.
Definition demo_now2 : datetime := mk_datetime 2024 5 1 12 0 0 2.

Definition demo_repo0 : Repository := repo_init "demo" "./demo".
Definition demo_repo1 : Repository := (add_file Staging.demo_fs "README.md" demo_repo0).1.
Definition demo_repo2 : Repository :=
  (commit demo_now1 demo_now2 "Initial commit" "a@b.com" demo_repo1).1.
(** The file staged again, and committed with the same message, author
    and clock reading as the first commit. *)
Definition demo_repo3 : Repository := (add_file Staging.demo_fs "README.md" demo_repo2).1.

Lemma demo_repo1_wf : repo_wf demo_repo1.
Proof. apply add_file_wf, repo_init_wf. Qed.

Lemma demo_fresh :
  commit_fresh demo_repo1 (commit_hash_of "Initial commit" "a@b.com" demo_now1) demo_now2.
Proof. split; [reflexivity|]. split; [vm_compute; discriminate|]. intros c Hc; discriminate. Qed.

Lemma demo_repo2_wf : repo_wf demo_repo2.
Proof. apply commit_keeps_wf; [apply demo_repo1_wf|apply demo_fresh]. Qed.

(** The abstract state of the example run. *)
Definition demo_abs2 : AbsRepo := a_commit "Initial commit" "a@b.com" (a_add_file "README.md" a_init).

Lemma demo_runs2 : runs demo_repo2 demo_abs2.
Proof.
  apply (runs_commit demo_now1 demo_now2 "Initial commit" "a@b.com" demo_repo1).
  - exact (runs_add Staging.demo_fs "README.md" _ _ (runs_init "demo" "./demo")).
  - apply demo_fresh.
Qed.

Lemma runs_refine_witness : runs demo_repo2 demo_abs2 /\ refines demo_repo2 demo_abs2.
Proof. split; [exact demo_runs2|]. apply runs_refine. exact demo_runs2. Defined.

Lemma log_walk_terminates_witness :
  repo_wf demo_repo2 /\
  exists l, log_walk (size (commits demo_repo2)) (commits demo_repo2) (head demo_repo2) = Some l.
Proof. split; [apply demo_repo2_wf|]. apply log_walk_terminates. apply demo_repo2_wf. Defined.

Lemma commit_wf_witness :
  repo_wf demo_repo1 /\
  commit_fresh demo_repo1 (commit_hash_of "Initial commit" "a@b.com" demo_now1) demo_now2 /\
  repo_wf demo_repo2.
Proof.
  split; [apply demo_repo1_wf|]. split; [apply demo_fresh|].
  apply commit_wf; [apply demo_repo1_wf|apply demo_fresh].
Defined.

Definition demo_c1 : Commit :=
  mk_commit (commit_hash_of "Initial commit" "a@b.com" demo_now1) demo_now2 "a@b.com"
            "Initial commit" None ["README.md"] "main".


Lemma add_files_then_commit_witness :
  Staging.files (staging_area demo_repo0) = [] /\ ["README.md"] <> [] /\
  Forall (fun n => exists content mtime, Staging.demo_fs !! n = Some (Staging.FsFile content mtime))
    ["README.md"] /\
  exists r1 c, add_files Staging.demo_fs ["README.md"] demo_repo0 = (r1, Ok tt) /\
    head (commit demo_now1 demo_now2 "Initial commit" "a@b.com" r1).1 = Some c /\
    files c = ["README.md"] /\
    Staging.get_files (staging_area (commit demo_now1 demo_now2 "Initial commit" "a@b.com" r1).1) = [].
Proof.
  assert (Hf : Forall (fun n => exists content mtime,
                 Staging.demo_fs !! n = Some (Staging.FsFile content mtime)) ["README.md"])
    by (repeat constructor; eexists _, _; reflexivity).
  split; [reflexivity|]. split; [done|]. split; [exact Hf|].
  apply add_files_then_commit; [reflexivity|done|exact Hf].
Defined.

(** The collision: same message, author and [str(datetime.now())] as the
    head. *)
Lemma commit_collision_log_diverges_witness :
  Staging.files (staging_area demo_repo3) <> [] /\ head demo_repo3 = Some demo_c1 /\
  hash demo_c1 <> "" /\
  commit_hash_of "Initial commit" "a@b.com" demo_now1 = hash demo_c1 /\
  forall fuel, log_walk fuel (commits (commit demo_now1 demo_now2 "Initial commit" "a@b.com"
                                         demo_repo3).1)
                      (head (commit demo_now1 demo_now2 "Initial commit" "a@b.com"
                                    demo_repo3).1) = None.
Proof.
  split; [vm_compute; discriminate|]. split; [vm_compute; reflexivity|].
  split; [vm_compute; discriminate|]. split; [reflexivity|].
  apply (commit_collision_log_diverges demo_now1 demo_now2 "Initial commit" "a@b.com"
           demo_repo3 demo_c1);
    [vm_compute; discriminate|vm_compute; reflexivity|vm_compute; discriminate|reflexivity].
Defined.

End Witnesses.

End Repository.
