(* ===== verification/RepoDict.v ===== *)
(** [Repository.to_dict] and [Repository.from_dict]
    ([src/proyecto1/repository.py]): the persisted form of a repository, a
    dict of its name, path, branches, current branch, head hash and
    commits.  The staging area is not persisted: [from_dict] starts from
    [Repository(name, path)], whose staging area is empty.

    A Python dict keeps insertion order; [to_dict] here lists a [gmap] in
    the map's own order.  [from_dict] rebuilds a map from the items, so
    the order does not change what it builds. *)

From S2P Require Import Prelude DateTime PyVal Staging Commit Repository.

Module RepoDict.
Import PyVal Commit Repository.

(** [{k: f(v) for k, v in d.items()}] read back into a map: later keys
    overwrite earlier ones, as in the comprehension. *)
Definition dict_of_items {A} (l : list (string * A)) : gmap string A :=
  foldl (fun m '(k, v) => <[k := v]> m) ∅ l.

(** The value of a [gmap] as a Python dict. *)
Definition dict_to_py {A} (f : A -> pyval) (m : gmap string A) : pyval :=
  PDict ((fun '(k, v) => (k, f v)) <$> map_to_list m).

(** [Repository.to_dict] *)
Definition repo_to_dict (r : Repository) : pyval :=
  PDict [("name", PStr (name r)); ("path", PStr (path r));
         ("branches", dict_to_py py_opt_str (branches r));
         ("current_branch", PStr (current_branch r));
         ("head", match head r with Some c => PStr (hash c) | None => PNone end);
         ("commits", dict_to_py commit_to_dict (commits r))].

(** One item of [data['commits'].items()] through [Commit.from_dict]. *)
Definition commit_item_from_dict (kv : string * pyval) : res (string * Commit) :=
  let '(h, cd) := kv in res_bind (commit_from_dict cd) (fun c => Ok (h, c)).

(** One item of [data['branches']]: a hash or [None]. *)
Definition branch_item_from_dict (kv : string * pyval) : res (string * option string) :=
  let '(b, v) := kv in res_bind (as_opt_str v) (fun h => Ok (b, h)).

(** [Repository.from_dict(data)]: [cls(data['name'], data['path'])], then
    the branches, the current branch, the commits and [head =
    commits.get(data['head'])], which is [None] when the hash is not a key
    of the store. *)
Definition repo_from_dict (data : pyval) : res Repository :=
  (let? nm := get_str data "name" in
   let? pth := get_str data "path" in
   let repo := repo_init nm pth in
   let? bitems := res_bind (py_getitem data "branches") as_dict in
   let? bs := res_map branch_item_from_dict bitems in
   let? cb := get_str data "current_branch" in
   let? citems := res_bind (py_getitem data "commits") as_items in
   let? cs := res_map commit_item_from_dict citems in
   let store := dict_of_items cs in
   let? hd := get_opt_str data "head" in
   Ok {| name := name repo; path := path repo; branches := dict_of_items bs;
         current_branch := cb; staging_area := staging_area repo; commits := store;
         head := match hd with Some h => store !! h | None => None end |})%py.

(** Every stored commit has a date the [datetime] constructor accepts (as
    every [datetime.now()] does), so that its [isoformat] reads back. *)
Definition repo_dates_valid (r : Repository) : Prop :=
  map_Forall (fun _ c => dt_valid (date c) = true) (commits r).

(** What a reload gives: the same repository with an empty staging area
    and the head looked up again by its hash. *)
Definition reloaded (r : Repository) : Repository :=
  {| name := name r; path := path r; branches := branches r;
     current_branch := current_branch r; staging_area := Staging.staging_init;
     commits := commits r;
     head := match head r with Some c => commits r !! hash c | None => None end |}.

(** ** Lemmas *)

Lemma foldl_insert_union {A} (l : list (string * A)) (m : gmap string A) :
  NoDup l.*1 ->
  foldl (fun m '(k, v) => <[k := v]> m) m l = list_to_map l ∪ m.
Proof.
  revert m. induction l as [|[k v] l IH]; intros m Hnd; simpl.
  - by rewrite map_empty_union.
  - inversion Hnd as [|? ? Hk Hnd']; subst. rewrite IH by done.
    rewrite <- insert_union_l, insert_union_r; [done|].
    by apply not_elem_of_list_to_map_1.
Qed.

(** A map read back from its own items. *)
Lemma dict_of_items_map_to_list {A} (m : gmap string A) : dict_of_items (map_to_list m) = m.
Proof.
  unfold dict_of_items. rewrite foldl_insert_union by apply NoDup_fst_map_to_list.
  by rewrite map_union_empty, list_to_map_to_list.
Qed.

(** Mapping over the items of a [gmap] and reading them back. *)
Lemma res_map_items {A} (enc : A -> pyval) (dec : string * pyval -> res (string * A))
    (m : gmap string A) :
  (forall k v, m !! k = Some v -> dec (k, enc v) = Ok (k, v)) ->
  res_map dec ((fun '(k, v) => (k, enc v)) <$> map_to_list m) = Ok (map_to_list m).
Proof.
  intros Hdec. rewrite list_fmap_alt. apply res_map_ok. apply Forall_forall.
  intros [k v] Hkv%elem_of_map_to_list. by apply Hdec.
Qed.

Lemma json_ok_dict_to_py {A} (f : A -> pyval) (m : gmap string A) :
  (forall v, json_ok (f v) = true) -> json_ok (dict_to_py f m) = true.
Proof.
  intros Hf. unfold dict_to_py. simpl. apply forallb_forall.
  intros [k v'] Hin%list_elem_of_In. apply list_elem_of_fmap in Hin as ([k' v] & Heq & _).
  injection Heq as -> ->. apply Hf.
Qed.

Lemma repo_from_to_dict_gen r :
  repo_dates_valid r -> repo_from_dict (repo_to_dict r) = Ok (reloaded r).
Proof.
  intros Hv. unfold repo_from_dict, repo_to_dict, get_str, get_opt_str.
  cbn [py_getitem assoc_lookup String.eqb Ascii.eqb Bool.eqb andb res_bind as_str as_items
       as_dict dict_to_py].
  rewrite (res_map_items py_opt_str branch_item_from_dict) by (intros k [h|] _; done).
  rewrite (res_map_items commit_to_dict commit_item_from_dict).
  2: { intros k c Hk. unfold commit_item_from_dict. rewrite commit_from_to_dict; [done|].
       exact (Hv k c Hk). }
  cbn [res_bind]. rewrite !dict_of_items_map_to_list.
  unfold reloaded. destruct (head r); reflexivity.
Qed.

(** On a well-formed repository the head is found again. *)
Lemma reloaded_wf r : repo_wf r -> reloaded r = set_staging r Staging.staging_init.
Proof.
  intros Hwf. unfold reloaded, set_staging. destruct (head r) as [c|] eqn:Eh; [|done].
  by rewrite (wf_head _ Hwf c Eh).
Qed.

(** C31: the spec's round trip: [Repository.from_dict(repo.to_dict())] has the
    same name, path, branches, current branch, commits and head, and an
    empty staging area, on a well-formed repository whose dates are
    valid. *)
Theorem repo_from_to_dict r :
  repo_wf r -> repo_dates_valid r ->
  repo_from_dict (repo_to_dict r) = Ok (set_staging r Staging.staging_init).
Proof.
  intros Hwf Hv. by rewrite repo_from_to_dict_gen, reloaded_wf.
Qed.

(** C32: a head whose hash is not in the persisted store is dropped without
    an error: the reloaded repository has no head. *)
Theorem repo_from_dict_dangling_head r c :
  head r = Some c -> commits r !! hash c = None -> repo_dates_valid r ->
  exists r', repo_from_dict (repo_to_dict r) = Ok r' /\ head r' = None /\
             commits r' = commits r /\ branches r' = branches r.
Proof.
  intros Eh Hc Hv. exists (reloaded r). rewrite repo_from_to_dict_gen by done.
  unfold reloaded. by rewrite Eh, Hc.
Qed.

(** [Repository.to_dict] is made of JSON types: [json.dump] accepts it. *)
Lemma repo_to_dict_json r : json_ok (repo_to_dict r) = true.
Proof.
  unfold repo_to_dict. cbn [json_ok forallb snd].
  rewrite !json_ok_dict_to_py by (intros; by autorewrite with gitsim || apply commit_to_dict_json).
  by destruct (head r).
Qed.

(** ** Concrete runs *)

Lemma demo_repo2_dates : repo_dates_valid demo_repo2.
Proof. apply (bool_decide_unpack _). vm_compute. reflexivity. Qed.

Lemma repo_from_to_dict_witness :
  repo_wf demo_repo2 /\ repo_dates_valid demo_repo2 /\
  repo_from_dict (repo_to_dict demo_repo2) = Ok (set_staging demo_repo2 Staging.staging_init).
Proof.
  split; [apply demo_repo2_wf|]. split; [apply demo_repo2_dates|].
  apply repo_from_to_dict; [apply demo_repo2_wf|apply demo_repo2_dates].
Defined.

(** A repository whose head is not in its store. *)
Definition demo_dangling : Repository :=
  {| name := "x"; path := "./x"; branches := {["main" := Some (hash demo_c1)]};
     current_branch := "main"; staging_area := Staging.staging_init; commits := ∅;
     head := Some demo_c1 |}.

Lemma repo_from_dict_dangling_head_witness :
  head demo_dangling = Some demo_c1 /\ commits demo_dangling !! hash demo_c1 = None /\
  repo_dates_valid demo_dangling /\
  exists r', repo_from_dict (repo_to_dict demo_dangling) = Ok r' /\ head r' = None /\
             commits r' = commits demo_dangling /\ branches r' = branches demo_dangling.
Proof.
  assert (Hv : repo_dates_valid demo_dangling) by apply map_Forall_empty.
  split; [reflexivity|]. split; [reflexivity|]. split; [exact Hv|].
  apply (repo_from_dict_dangling_head demo_dangling demo_c1); [reflexivity|reflexivity|exact Hv].
Defined.

End RepoDict.
