(* ===== verification/RepoManager.v ===== *)
(** [src/proyecto1/repository.py], class [RepositoryManager]: a list of
    repositories scanned by name.  [create_repository] does not check the
    name; the uniqueness of names is kept one layer up, by [git init]
    (see [Commands.v]). *)

From S2P Require Import Prelude DateTime PyVal Staging Commit Repository RepoDict.

Module RepoManager.
Import PyVal Repository RepoDict.

Record RepositoryManager := mk_manager { repositories : list Repository }.

(** [RepositoryManager.__init__] *)
Definition manager_init : RepositoryManager := mk_manager [].

(** [create_repository(name, path)]: always appends. *)
Definition create_repository (name path : string) (m : RepositoryManager)
    : Repository * RepositoryManager :=
  let repo := repo_init name path in (repo, mk_manager (repositories m ++ [repo])).

(** [get_repository(name)]: the first repository with that name. *)
Definition get_repository (nm : string) (m : RepositoryManager) : option Repository :=
  find (fun r => String.eqb (name r) nm) (repositories m).

(** [list_repositories()] *)
Definition list_repositories (m : RepositoryManager) : list string :=
  map name (repositories m).

(** [load_repositories(data)]: the list comprehension is evaluated before
    the assignment, so an exception of [Repository.from_dict] leaves the
    manager unchanged. *)
Definition load_repositories (data : pyval) : PyM RepositoryManager unit :=
  fun m =>
    match res_bind (py_iter data) (res_map repo_from_dict) with
    | Ok rs => (mk_manager rs, Ok tt)
    | Raise e => (m, Raise e)
    end.

(** [RepositoryManager.to_dict()] *)
Definition manager_to_dict (m : RepositoryManager) : pyval :=
  PList (map repo_to_dict (repositories m)).

(** ** Theorems *)

Lemma find_app_l {A} (f : A -> bool) l1 l2 x :
  find f l1 = Some x -> find f (l1 ++ l2) = Some x.
Proof. induction l1 as [|y l1 IH]; simpl; [done|]. by destruct (f y). Qed.

Lemma find_app_none {A} (f : A -> bool) l1 l2 :
  find f l1 = None -> find f (l1 ++ l2) = find f l2.
Proof. induction l1 as [|y l1 IH]; simpl; [done|]. by destruct (f y). Qed.

(** C24: [get_repository] after [create_repository]: a repository already
    named so shadows the new one, which is otherwise found. *)
Lemma get_after_create nm path m :
  get_repository nm (create_repository nm path m).2 =
    match get_repository nm m with
    | Some r => Some r
    | None => Some (repo_init nm path)
    end.
Proof.
  unfold get_repository. simpl. destruct (find _ (repositories m)) eqn:E.
  - by apply find_app_l.
  - rewrite find_app_none by done. simpl. by rewrite String.eqb_refl.
Qed.

Lemma list_after_create nm path m :
  list_repositories (create_repository nm path m).2 = list_repositories m ++ [nm].
Proof. unfold list_repositories. simpl. by rewrite map_app. Qed.

Lemma get_repository_none nm m :
  get_repository nm m = None <-> nm ∉ list_repositories m.
Proof.
  unfold get_repository, list_repositories. induction (repositories m) as [|r l IH]; simpl.
  - set_solver.
  - rewrite elem_of_cons. destruct (String.eqb_spec (name r) nm); naive_solver.
Qed.

(** Saving the manager and loading it back ([save_data] then
    [_load_data]): the same repositories in the same order, each with an
    empty staging area. *)
Theorem manager_reload m m0 :
  Forall (fun r => repo_wf r /\ repo_dates_valid r) (repositories m) ->
  load_repositories (manager_to_dict m) m0 =
    (mk_manager (map (fun r => set_staging r Staging.staging_init) (repositories m)), Ok tt).
Proof.
  intros Hall. unfold load_repositories, manager_to_dict. simpl.
  rewrite (res_map_map repo_from_dict repo_to_dict (fun r => set_staging r Staging.staging_init));
    [done|].
  eapply Forall_impl; [exact Hall|]. intros r [Hwf Hv]. by rewrite repo_from_to_dict_gen, reloaded_wf.
Qed.

End RepoManager.
