(* ===== verification/Commands.v ===== *)
(** [src/proyecto1/commands.py] and the dispatcher of [src/proyecto1/main.py]:
    the simulator's state (the repository manager and the current
    repository), the commands [init], [status] and [log], the command table
    built from the configuration ([_initialize_commands]) and
    [execute_command], and [cmd_reach], the simulators a sequence of
    commands reaches.

    [current_repo] is an alias of an entry of the manager's list (the same
    Python object), so it is modelled as an index into that list. *)

From S2P Require Import Prelude DateTime Staging Commit Repository RepoManager.

Module Commands.
Import Commit Repository RepoManager.

(** The attributes of [GitSimulator] the commands use. *)
Record Simulator := mk_sim {
  repo_manager : RepositoryManager;
  current_repo : option nat
}.

Definition current_repo_of (sim : Simulator) : option Repository :=
  match current_repo sim with
  | Some i => repositories (repo_manager sim) !! i
  | None => None
  end.

(** [GitInitCommand.execute] *)
Definition git_init (args : list string) (sim : Simulator) : Simulator * string :=
  match args with
  | [] => (sim, "Uso: git init <nombre_repositorio>")
  | repo_name :: _ =>
      match get_repository repo_name (repo_manager sim) with
      | Some _ => (sim, "El repositorio '" +:+ repo_name +:+ "' ya existe.")
      | None =>
          let '(_, m') := create_repository repo_name ("./" +:+ repo_name) (repo_manager sim) in
          (mk_sim m' (Some (length (repositories (repo_manager sim)))),
           "Repositorio vacío '" +:+ repo_name +:+ "' inicializado.")
      end
  end.

(** [GitStatusCommand.execute] *)
Definition git_status (sim : Simulator) : string :=
  match current_repo_of sim with
  | None => "No hay repositorio seleccionado. Use 'git init' o seleccione un repositorio."
  | Some r =>
      let st := "En la rama " +:+ current_branch r +:+ nl in
      let fs := Staging.files (staging_area r) in
      if py_truthy_list fs then
        foldl (fun acc fi => acc +:+ "  " +:+ Staging.sf_status fi +:+ ": "
                              +:+ Staging.sf_filename fi +:+ nl)
              (st +:+ nl +:+ "Archivos en staging:" +:+ nl) fs
      else st +:+ nl +:+ "No hay archivos en staging" +:+ nl
  end.

(** [GitLogCommand.execute], with the fuel of [log_walk]: [None]
    when the loop has not ended within it. *)
Definition git_log (fuel : nat) (sim : Simulator) : option string :=
  match current_repo_of sim with
  | None => Some "No hay repositorio seleccionado."
  | Some r =>
      if bool_decide (commits r = ∅) then Some "No hay commits aún en este repositorio."
      else
        option_map
          (foldl (fun acc c => acc +:+ nl +:+ commit_str c)
                 ("Historial de commits (rama " +:+ current_branch r +:+ "):" +:+ nl))
          (log_walk fuel (commits r) (head r))
  end.

(** ** The command table of [main.py] *)

Inductive cmd_kind := CmdInit | CmdStatus | CmdLog.

(** A [Command] object: its class and its [enabled] flag. *)
Record command := mk_command { kind : cmd_kind; enabled : bool }.

(** The table [_initialize_commands] builds before reading the
    configuration. *)
Definition default_commands : gmap string command :=
  {[ "init" := mk_command CmdInit true; "status" := mk_command CmdStatus true;
     "log" := mk_command CmdLog true ]}.

(** The loop over [config['commands'].items()]: names the table has get
    their flag; others are ignored. *)
Definition initialize_commands (config : list (string * bool)) : gmap string command :=
  foldl (fun cmds '(cmd_name, en) =>
           match cmds !! cmd_name with
           | Some c => <[cmd_name := mk_command (kind c) en]> cmds
           | None => cmds
           end) default_commands config.

(** [execute_command] *)
Definition execute_command (fuel : nat) (cmds : gmap string command) (command_name : string)
    (args : list string) (sim : Simulator) : option (Simulator * string) :=
  match cmds !! command_name with
  | Some c =>
      if enabled c then
        match kind c with
        | CmdInit => Some (git_init args sim)
        | CmdStatus => Some (sim, git_status sim)
        | CmdLog => option_map (fun s => (sim, s)) (git_log fuel sim)
        end
      else Some (sim, "Comando '" +:+ command_name +:+ "' no disponible.")
  | None => Some (sim, "Comando '" +:+ command_name +:+ "' no disponible.")
  end.

(** The [default_config] of [_initialize_commands], also written to
    [config.json] when the file is missing. *)
Definition default_config : list (string * bool) :=
  [("init", true); ("add", true); ("commit", true); ("status", true); ("log", true);
   ("branch", true); ("checkout", true); ("merge", true); ("pr", true)].

(** The reference for [initialize_commands]: the flag a name ends with is
    that of its last entry in the configuration, [d] if it has none. *)
Definition last_flag (nm : string) (config : list (string * bool)) (d : bool) : bool :=
  foldl (fun acc '(k, en) => if String.eqb k nm then en else acc) d config.

(** The simulators the loop of [run] can reach from [sim] with the table
    [cmds]: each line it does not treat itself is one [execute_command]
    call, with the fuel left at that point. *)
Inductive cmd_reach (cmds : gmap string command) : Simulator -> Simulator -> Prop :=
| reach_refl sim : cmd_reach cmds sim sim
| reach_step fuel nm args msg sim sim1 sim2 :
    execute_command fuel cmds nm args sim = Some (sim1, msg) ->
    cmd_reach cmds sim1 sim2 -> cmd_reach cmds sim sim2.

(** ** Theorems *)

(** The simulator invariant: repository names are unique, the current
    repository index is in range, every repository is well formed. *)
Definition sim_wf (sim : Simulator) : Prop :=
  NoDup (list_repositories (repo_manager sim)) /\
  (forall i, current_repo sim = Some i -> i < length (repositories (repo_manager sim))) /\
  Forall repo_wf (repositories (repo_manager sim)).

Lemma sim_init_wf : sim_wf (mk_sim manager_init None).
Proof. split; [constructor|]. split; [done|constructor]. Qed.

(** C23: [git init name] on a new name appends a repository with that name
    and makes it the current one; on a known name it changes nothing. *)
Lemma git_init_spec repo_name rest sim :
  let '(sim', msg) := git_init (repo_name :: rest) sim in
  match get_repository repo_name (repo_manager sim) with
  | Some _ => sim' = sim
  | None => list_repositories (repo_manager sim') =
              list_repositories (repo_manager sim) ++ [repo_name] /\
            current_repo_of sim' = Some (repo_init repo_name ("./" +:+ repo_name))
  end.
Proof.
  unfold git_init. destruct (get_repository _ _) eqn:E; [done|].
  unfold create_repository, list_repositories, current_repo_of. simpl.
  rewrite map_app. split; [done|]. by rewrite lookup_app_r, Nat.sub_diag by lia.
Qed.

Lemma git_init_keeps_wf args sim : sim_wf sim -> sim_wf (git_init args sim).1.
Proof.
  intros (Hnd & Hcur & Hwf). destruct args as [|repo_name rest]; [done|].
  unfold git_init. destruct (get_repository repo_name (repo_manager sim)) eqn:Eg; [done|].
  apply get_repository_none in Eg. unfold sim_wf, list_repositories in *. simpl.
  split; [|split].
  - rewrite map_app. apply NoDup_app. split; [done|]. split; [|apply NoDup_singleton].
    intros x Hx ->%list_elem_of_singleton. done.
  - intros i [= <-]. rewrite length_app. simpl. lia.
  - apply Forall_app. split; [done|]. constructor; [apply repo_init_wf|constructor].
Qed.

(** C20: [git init] keeps the simulator invariant: it is the guard of
    [git init], not [create_repository], that keeps names unique. *)
Theorem git_init_wf args sim : sim_wf sim -> sim_wf (git_init args sim).1.
Proof. apply git_init_keeps_wf. Qed.

(** The fuel [git log] needs: the number of commits of the current
    repository. *)
Definition log_fuel (sim : Simulator) : nat :=
  match current_repo_of sim with Some r => size (commits r) | None => 0 end.

Lemma current_repo_wf sim r : sim_wf sim -> current_repo_of sim = Some r -> repo_wf r.
Proof.
  intros (_ & _ & Hwf). unfold current_repo_of. destruct (current_repo sim); [|done].
  intros Hr. rewrite Forall_lookup in Hwf. eauto.
Qed.

(** On a run of [add_file] and [commit] with at least one commit, the
    walk from the head lists the commits made, newest first. *)
Lemma runs_log_walk `{Sha1} r a :
  runs r a -> a_log a <> [] ->
  commits r <> ∅ /\
  exists l, log_walk (size (commits r)) (commits r) (head r) = Some l /\ map log_entry l = a_log a.
Proof.
  intros Hrun Hne. destruct (runs_refines r a Hrun) as (Hwf & _ & l & Hch & Hl).
  destruct (log_walk_ends r Hwf) as [l' Hl'].
  rewrite (chain_functional _ _ _ _ (log_walk_chain _ _ _ _ Hl') Hch) in Hl'.
  split; [|by eauto].
  destruct l as [|c l]; [by subst|]. inversion Hch as [|? ? _ Hh]; subst.
  intros He. pose proof (wf_head _ Hwf c (eq_sym Hh)) as Hc. by rewrite He, lookup_empty in Hc.
Qed.

(** C21: [git log] on a repository built by [add_file] and [commit]
    prints its header and then, for each commit made, newest first, a
    newline and [str(commit)]: one entry per commit, with the message,
    author and staged names of the abstract log. *)
Theorem git_log_after_runs `{Sha1} r a sim :
  runs r a -> a_log a <> [] -> current_repo_of sim = Some r ->
  exists l, git_log (log_fuel sim) sim =
      Some ("Historial de commits (rama " +:+ current_branch r +:+ "):" +:+ nl +:+
            String.concat "" (map (fun c => nl +:+ commit_str c) l)) /\
    map log_entry l = a_log a.
Proof.
  intros Hrun Hne Hcur. destruct (runs_log_walk r a Hrun Hne) as (Hc & l & Hl & Hlog).
  exists l. split; [|done]. unfold git_log, log_fuel. rewrite Hcur, bool_decide_eq_false_2 by done.
  rewrite Hl. cbn [option_map]. by rewrite foldl_string_app, !string_app_assoc.
Qed.

(** Every repository of the manager has at most [K] commits. *)
Definition commits_bound (K : nat) (sim : Simulator) : Prop :=
  Forall (fun r => size (commits r) <= K) (repositories (repo_manager sim)).

Lemma log_fuel_bound K sim : commits_bound K sim -> log_fuel sim <= K.
Proof.
  intros HK. unfold commits_bound in HK. unfold log_fuel, current_repo_of. destruct (current_repo sim) as [i|]; [|lia].
  destruct (repositories (repo_manager sim) !! i) as [r|] eqn:Er; [|lia].
  rewrite Forall_lookup in HK. eauto.
Qed.

(** [git log] with more fuel than the current repository's commits. *)
Lemma git_log_enough_fuel fuel sim :
  sim_wf sim -> log_fuel sim <= fuel -> exists s, git_log fuel sim = Some s.
Proof.
  intros Hsim Hf. unfold git_log. unfold log_fuel in Hf.
  destruct (current_repo_of sim) as [r|] eqn:Er; [|by eexists].
  case_bool_decide; [by eexists|].
  destruct (log_walk_ends r (current_repo_wf sim r Hsim Er)) as [l Hl].
  rewrite (log_walk_more_fuel _ fuel _ _ _ Hl Hf). by eexists.
Qed.

Lemma git_init_bound K args sim : commits_bound K sim -> commits_bound K (git_init args sim).1.
Proof.
  unfold commits_bound. destruct args as [|nm rest]; simpl; [done|].
  destruct (get_repository nm (repo_manager sim)); simpl; [done|].
  intros HK. apply Forall_app. split; [done|]. constructor; [|constructor]. unfold repo_init. simpl. rewrite map_size_empty. lia.
Qed.

(** A command changes the manager only by appending new, empty
    repositories. *)
Lemma execute_command_appends fuel cmds nm args sim sim' msg :
  execute_command fuel cmds nm args sim = Some (sim', msg) ->
  exists rs, repositories (repo_manager sim') = repositories (repo_manager sim) ++ rs /\
             Forall (fun r => exists n p, r = repo_init n p) rs.
Proof.
  unfold execute_command.
  destruct (cmds !! nm) as [c|]; [|intros [= <- _]; exists []; by rewrite app_nil_r].
  destruct (enabled c); [|intros [= <- _]; exists []; by rewrite app_nil_r].
  destruct (kind c).
  - intros [= Hg]. unfold git_init in Hg.
    destruct args as [|n rest]; [injection Hg as <- _; exists []; by rewrite app_nil_r|].
    destruct (get_repository n (repo_manager sim));
      [injection Hg as <- _; exists []; by rewrite app_nil_r|].
    injection Hg as <- _. exists [repo_init n ("./" +:+ n)]. split; [done|].
    repeat constructor; eauto.
  - intros [= <- _]. exists []; by rewrite app_nil_r.
  - destruct (git_log fuel sim); simpl; [|done]. intros [= <- _]. exists []; by rewrite app_nil_r.
Qed.

(** Every command returns when the fuel covers the commits of every
    repository, and keeps the invariant and the bound. *)
Lemma execute_command_total K fuel cmds nm args sim :
  sim_wf sim -> commits_bound K sim -> K <= fuel ->
  exists sim' msg, execute_command fuel cmds nm args sim = Some (sim', msg) /\
                   sim_wf sim' /\ commits_bound K sim'.
Proof.
  intros Hsim HK Hf. unfold execute_command.
  destruct (cmds !! nm) as [c|]; [|by eauto].
  destruct (enabled c); [|by eauto].
  destruct (kind c).
  - exists (git_init args sim).1, (git_init args sim).2. rewrite <- surjective_pairing.
    split; [done|]. split; [by apply git_init_keeps_wf|by apply git_init_bound].
  - by eauto.
  - destruct (git_log_enough_fuel fuel sim Hsim) as [s ->]; [pose proof (log_fuel_bound K sim HK); lia|].
    simpl. by eauto.
Qed.

Lemma foldl_config_lookup config nm (cmds : gmap string command) :
  foldl (fun cmds '(cmd_name, en) =>
           match cmds !! cmd_name with
           | Some c => <[cmd_name := mk_command (kind c) en]> cmds
           | None => cmds
           end) cmds config !! nm =
    (fun c => mk_command (kind c) (last_flag nm config (enabled c))) <$> cmds !! nm.
Proof.
  unfold last_flag. revert cmds. induction config as [|[k en] config IH]; intros cmds; simpl.
  - by destruct (cmds !! nm) as [[]|].
  - rewrite IH. destruct (String.eqb_spec k nm) as [<-|Hne].
    + destruct (cmds !! k) as [c|] eqn:Ek; simpl; [|by rewrite Ek].
      by rewrite lookup_insert_eq.
    + destruct (cmds !! k) as [c|]; [|done]. by rewrite lookup_insert_ne.
Qed.

(** C33: the command table [_initialize_commands] builds is the default
    table with each command's flag taken from the last configuration
    entry of its name; names the table does not have are ignored. *)
Theorem initialize_commands_spec config nm :
  initialize_commands config !! nm =
    (fun c => mk_command (kind c) (last_flag nm config (enabled c))) <$> default_commands !! nm.
Proof. apply foldl_config_lookup. Qed.

(** C22: whatever [config.json] says, the table holds only [init],
    [status] and [log]: every other name, [add] and [commit] among them
    (enabled in the default configuration), answers that it is not
    available and changes nothing, so no command of the simulator reaches
    [Repository.add_file] or [Repository.commit]. *)
Theorem unknown_commands_refused fuel config nm args sim :
  nm <> "init" -> nm <> "status" -> nm <> "log" ->
  execute_command fuel (initialize_commands config) nm args sim =
    Some (sim, "Comando '" +:+ nm +:+ "' no disponible.").
Proof.
  intros Hi Hs Hl. unfold execute_command, initialize_commands.
  rewrite foldl_config_lookup. unfold default_commands.
  by rewrite !lookup_insert_ne, lookup_singleton_ne by congruence.
Qed.

(** C26: [git status] on a repository whose staging area was empty and
    to which [add_file] added the files [names] prints the branch, the
    heading and one line ["  A: name"] per file, in the order they were
    added. *)
Theorem git_status_after_add_files `{Sha1} fs names r r1 sim :
  Staging.files (staging_area r) = [] -> names <> [] ->
  add_files fs names r = (r1, Ok tt) -> current_repo_of sim = Some r1 ->
  git_status sim = "En la rama " +:+ current_branch r +:+ nl +:+ nl +:+ "Archivos en staging:" +:+ nl
                   +:+ String.concat "" (map (fun n => "  " +:+ Staging.status_added +:+ ": " +:+ n +:+ nl) names).
Proof.
  intros He Hne Hadd Hcur. destruct (add_files_records fs names r r1 Hadd) as [Hf Hb].
  rewrite He in Hf. simpl in Hf. unfold git_status. rewrite Hcur, Hb.
  assert (Ht : py_truthy_list (Staging.files (staging_area r1)) = true).
  { destruct (Staging.files (staging_area r1)); [|done]. destruct names; [done|discriminate]. }
  assert (Hm : map (fun fi => "  " +:+ Staging.sf_status fi +:+ ": " +:+ Staging.sf_filename fi +:+ nl)
                  (Staging.files (staging_area r1)) =
                map (fun n => "  " +:+ Staging.status_added +:+ ": " +:+ n +:+ nl) names).
  { pose proof (f_equal (map (fun '(st, n) => "  " +:+ st +:+ ": " +:+ n +:+ nl)) Hf) as Hm.
    by rewrite !map_map in Hm. }
  by rewrite Ht, foldl_string_app, Hm, !string_app_assoc.
Qed.

(** A command either leaves the current repository alone or selects the
    repository it has just appended. *)
Lemma execute_command_current fuel cmds nm args sim sim' msg :
  execute_command fuel cmds nm args sim = Some (sim', msg) ->
  current_repo sim' = current_repo sim \/
  current_repo sim' = Some (length (repositories (repo_manager sim))).
Proof.
  unfold execute_command.
  destruct (cmds !! nm) as [c|]; [|intros [= <- _]; by left].
  destruct (enabled c); [|intros [= <- _]; by left].
  destruct (kind c).
  - intros [= Hg]. unfold git_init in Hg.
    destruct args as [|n rest]; [injection Hg as <- _; by left|].
    destruct (get_repository n (repo_manager sim)); [injection Hg as <- _; by left|].
    injection Hg as <- _. by right.
  - intros [= <- _]. by left.
  - destruct (git_log fuel sim); simpl; [|done]. intros [= <- _]. by left.
Qed.

(** Along a run of commands the repositories are those of the start
    followed by new, empty ones, and the current repository is the first
    one or one appended on the way. *)
Lemma cmd_reach_current cmds sim sim' :
  cmd_reach cmds sim sim' ->
  (exists rs, repositories (repo_manager sim') = repositories (repo_manager sim) ++ rs /\
              Forall (fun r => exists n p, r = repo_init n p) rs) /\
  forall i, current_repo sim' = Some i ->
    current_repo sim = Some i \/ length (repositories (repo_manager sim)) <= i.
Proof.
  induction 1 as [sim|fuel nm args msg sim sim1 sim2 Hstep _ [(rs2 & Hrs2 & Hf2) IH]];
    [split; [exists []; by rewrite app_nil_r|by eauto]|].
  destruct (execute_command_appends _ _ _ _ _ _ _ Hstep) as (rs1 & Hrs1 & Hf1).
  split; [exists (rs1 ++ rs2); rewrite Hrs2, Hrs1, app_assoc; split; [done|by apply Forall_app]|].
  intros i Hi. destruct (IH i Hi) as [H1|H1]; [|right; rewrite Hrs1, length_app in H1; lia].
  destruct (execute_command_current _ _ _ _ _ _ _ Hstep) as [H2|H2]; rewrite H2 in H1;
    [by left|injection H1; right; lia].
Qed.

(** From a simulator with no current repository, the current repository
    of every state the commands reach is one [git init] created. *)
Lemma cmd_reach_current_fresh cmds sim sim' r :
  current_repo sim = None -> cmd_reach cmds sim sim' -> current_repo_of sim' = Some r ->
  exists n p, r = repo_init n p.
Proof.
  intros Hnone Hr. destruct (cmd_reach_current _ _ _ Hr) as [(rs & Hrs & Hf) Hcur].
  unfold current_repo_of. destruct (current_repo sim') as [i|] eqn:Ei; [|done].
  destruct (Hcur i eq_refl) as [H|H]; [by rewrite Hnone in H|].
  rewrite Hrs, lookup_app_r by done. intros Hl. rewrite Forall_lookup in Hf. eauto.
Qed.

(** C27: from a simulator with no current repository, as [GitSimulator]
    starts after loading [repos.json], no sequence of commands ever selects
    one of the repositories it already has: they stay in the manager, but
    [git init] on their name answers that they exist, and no other command
    sets [current_repo]; [status] and [log] only ever show repositories
    created in the session. *)
Theorem loaded_repos_never_current cmds sim sim' :
  current_repo sim = None -> cmd_reach cmds sim sim' ->
  repositories (repo_manager sim) `prefix_of` repositories (repo_manager sim') /\
  forall i, current_repo sim' = Some i -> length (repositories (repo_manager sim)) <= i.
Proof.
  intros Hnone Hr. destruct (cmd_reach_current _ _ _ Hr) as [(rs & Hrs & _) Hcur].
  split; [by exists rs|]. intros i Hi. by destruct (Hcur i Hi) as [H|H]; [rewrite Hnone in H|].
Qed.

(** C17: in a session started with no current repository, [git status]
    never lists a staged file and [git log] never prints a history: the
    table has no [add] or [commit], so a repository [git init] created
    keeps its empty staging area and store, and the loaded ones are never
    current (C27).  The two commands only ever give these answers. *)
Theorem session_status_log_fixed cmds sim sim' :
  current_repo sim = None -> cmd_reach cmds sim sim' ->
  (git_status sim' = "No hay repositorio seleccionado. Use 'git init' o seleccione un repositorio." \/
   git_status sim' = "En la rama main" +:+ nl +:+ nl +:+ "No hay archivos en staging" +:+ nl) /\
  forall fuel, git_log fuel sim' = Some "No hay repositorio seleccionado." \/
               git_log fuel sim' = Some "No hay commits aún en este repositorio.".
Proof.
  intros Hnone Hr. unfold git_status, git_log.
  destruct (current_repo_of sim') as [r|] eqn:Er; [|split; [by left|by left]].
  destruct (cmd_reach_current_fresh _ _ _ _ Hnone Hr Er) as (n & p & ->).
  split; [by right|]. intros fuel. right. by rewrite bool_decide_eq_true_2.
Qed.

(** ** Concrete runs *)

Definition demo_sim : Simulator := mk_sim (mk_manager [Repository.demo_repo2]) (Some 0).

Lemma demo_sim_wf : sim_wf demo_sim.
Proof.
  split; [apply NoDup_singleton|]. split; [intros i [= <-]; simpl; lia|].
  constructor; [apply Repository.demo_repo2_wf|constructor].
Qed.

Lemma git_init_wf_witness :
  sim_wf demo_sim /\ sim_wf (git_init ["other"] demo_sim).1.
Proof. split; [apply demo_sim_wf|]. apply git_init_wf, demo_sim_wf. Defined.

#[local] Existing Instance demo_sha1.

Lemma git_log_after_runs_witness :
  runs Repository.demo_repo2 Repository.demo_abs2 /\ a_log Repository.demo_abs2 <> [] /\
  current_repo_of demo_sim = Some Repository.demo_repo2 /\
  exists l, git_log (log_fuel demo_sim) demo_sim =
      Some ("Historial de commits (rama " +:+ current_branch Repository.demo_repo2 +:+ "):" +:+ nl +:+
            String.concat "" (map (fun c => nl +:+ commit_str c) l)) /\
    map log_entry l = a_log Repository.demo_abs2.
Proof.
  split; [exact Repository.demo_runs2|]. split; [discriminate|]. split; [reflexivity|].
  apply git_log_after_runs; [exact Repository.demo_runs2|discriminate|reflexivity].
Defined.

Lemma unknown_commands_refused_witness :
  "add" <> "init" /\ "add" <> "status" /\ "add" <> "log" /\
  execute_command 0 (initialize_commands default_config) "add" ["README.md"] demo_sim =
    Some (demo_sim, "Comando '" +:+ "add" +:+ "' no disponible.").
Proof.
  split; [discriminate|]. split; [discriminate|]. split; [discriminate|].
  apply unknown_commands_refused; discriminate.
Defined.

(** The demo repository's first state after [add README.md], selected. *)
Definition demo_staged_sim : Simulator :=
  mk_sim (mk_manager [(add_files Staging.demo_fs ["README.md"] Repository.demo_repo0).1]) (Some 0).

Lemma git_status_after_add_files_witness :
  Staging.files (staging_area Repository.demo_repo0) = [] /\ ["README.md"] <> [] /\
  add_files Staging.demo_fs ["README.md"] Repository.demo_repo0 =
    ((add_files Staging.demo_fs ["README.md"] Repository.demo_repo0).1, Ok tt) /\
  current_repo_of demo_staged_sim = Some (add_files Staging.demo_fs ["README.md"] Repository.demo_repo0).1 /\
  git_status demo_staged_sim =
    "En la rama " +:+ current_branch Repository.demo_repo0 +:+ nl +:+ nl +:+ "Archivos en staging:" +:+ nl
    +:+ String.concat "" (map (fun n => "  " +:+ Staging.status_added +:+ ": " +:+ n +:+ nl) ["README.md"]).
Proof.
  assert (Ha : add_files Staging.demo_fs ["README.md"] Repository.demo_repo0 =
                 ((add_files Staging.demo_fs ["README.md"] Repository.demo_repo0).1, Ok tt))
    by (vm_compute; reflexivity).
  split; [reflexivity|]. split; [discriminate|]. split; [exact Ha|]. split; [reflexivity|].
  apply (git_status_after_add_files Staging.demo_fs ["README.md"] Repository.demo_repo0
           (add_files Staging.demo_fs ["README.md"] Repository.demo_repo0).1);
    [reflexivity|discriminate|exact Ha|reflexivity].
Defined.

(** The simulator of a restart whose [repos.json] holds [demo_repo2]. *)
Definition demo_restarted : Simulator := mk_sim (mk_manager [Repository.demo_repo2]) None.

(** [git init] on the loaded name, then on a new one. *)
Definition demo_restarted_after : Simulator :=
  (git_init ["other"] demo_restarted).1.

Lemma demo_restarted_reach :
  cmd_reach (initialize_commands default_config) demo_restarted demo_restarted_after.
Proof.
  eapply (reach_step _ 0 "init" [Repository.name Repository.demo_repo2]); [reflexivity|].
  eapply (reach_step _ 0 "init" ["other"]); [reflexivity|]. apply reach_refl.
Qed.

Lemma loaded_repos_never_current_witness :
  current_repo demo_restarted = None /\
  cmd_reach (initialize_commands default_config) demo_restarted demo_restarted_after /\
  repositories (repo_manager demo_restarted) `prefix_of`
    repositories (repo_manager demo_restarted_after) /\
  forall i, current_repo demo_restarted_after = Some i ->
    length (repositories (repo_manager demo_restarted)) <= i.
Proof.
  split; [reflexivity|]. split; [exact demo_restarted_reach|].
  apply (loaded_repos_never_current (initialize_commands default_config) demo_restarted
           demo_restarted_after); [reflexivity|exact demo_restarted_reach].
Defined.

Lemma session_status_log_fixed_witness :
  current_repo demo_restarted = None /\
  cmd_reach (initialize_commands default_config) demo_restarted demo_restarted_after /\
  (git_status demo_restarted_after =
     "No hay repositorio seleccionado. Use 'git init' o seleccione un repositorio." \/
   git_status demo_restarted_after = "En la rama main" +:+ nl +:+ nl +:+ "No hay archivos en staging" +:+ nl) /\
  forall fuel, git_log fuel demo_restarted_after = Some "No hay repositorio seleccionado." \/
               git_log fuel demo_restarted_after = Some "No hay commits aún en este repositorio.".
Proof.
  split; [reflexivity|]. split; [exact demo_restarted_reach|].
  apply (session_status_log_fixed (initialize_commands default_config) demo_restarted
           demo_restarted_after); [reflexivity|exact demo_restarted_reach].
Defined.

End Commands.
