(* ===== verification/Main.v ===== *)
(** [src/proyecto1/main.py], class [GitSimulator]: its construction (the
    command table read from [config.json], the repositories read from
    [data/repos.json]), [save_data] and the interactive loop [run].

    The two files are [json_file]s.  [input()] reads the next line of a
    finite input; once it is exhausted it raises [EOFError], which the
    loop's [except Exception] catches, prints as [Error: ] and goes round
    again.  [run] takes fuel, one unit per iteration, and gives [None] when
    it runs out; [git log] inside it gets the fuel that is left. *)

From S2P Require Import Prelude DateTime PyVal Staging Commit Repository.
From S2P Require Import RepoDict RepoManager Commands.

Module Main.
Import PyVal Repository RepoDict RepoManager Commands.

(** The files the simulator reads and writes, at the paths of
    [_get_config_path] and [_get_data_dir]. *)
Record Files := mk_files { config_json : json_file; repos_json : json_file }.

Definition set_config (f : Files) (c : json_file) : Files := mk_files c (repos_json f).
Definition set_repos (f : Files) (r : json_file) : Files := mk_files (config_json f) r.

(** The attributes of a [GitSimulator]. *)
Record GitSimulator := mk_gitsim { gs_sim : Simulator; gs_commands : gmap string command }.

(** [default_config] as the dict [json.dump] writes to [config.json]. *)
Definition default_config_py : pyval :=
  PDict [("commands", PDict ((fun '(k, b) => (k, PBool b)) <$> default_config))].

(** The configuration part of [_initialize_commands]: a missing file is
    created with the defaults, a corrupt one is replaced by the defaults
    in memory, otherwise [config['commands'].items()] is read.  The flag
    stored in a [Command] is the JSON value itself, which [execute_command]
    tests for truthiness, so its truthiness is what is kept. *)
Definition initialize (f : Files) : res (gmap string command * Files) :=
  match config_json f with
  | FileMissing => Ok (initialize_commands default_config, set_config f (FileJson default_config_py))
  | FileCorrupt => Ok (initialize_commands default_config, f)
  | FileJson v =>
      res_bind (res_bind (py_getitem v "commands") as_items) (fun items =>
        Ok (initialize_commands ((fun '(k, x) => (k, py_truthy_val x)) <$> items), f))
  end.

(** [_load_data]: a missing file is skipped, a [JSONDecodeError] is caught
    and printed; an exception of [load_repositories] ([KeyError],
    [TypeError]) is not caught. *)
Definition load_data (rf : json_file) (sim : Simulator) : res Simulator :=
  match rf with
  | FileMissing => Ok sim
  | FileCorrupt => Ok sim
  | FileJson v =>
      match load_repositories v (repo_manager sim) with
      | (m', Ok _) => Ok (mk_sim m' (current_repo sim))
      | (_, Raise e) => Raise e
      end
  end.

(** [GitSimulator.__init__] *)
Definition gitsim_init (f : Files) : res (GitSimulator * Files) :=
  match initialize f with
  | Ok (cmds, f') =>
      match load_data (repos_json f') (mk_sim manager_init None) with
      | Ok sim => Ok (mk_gitsim sim cmds, f')
      | Raise e => Raise e
      end
  | Raise e => Raise e
  end.

(** [save_data]: [json.dump(self.repo_manager.to_dict(), f)]; only an
    [IOError] would be caught.  A [TypeError] of [json.dump] would leave a
    partly written file; it never happens (C37), and
    the model keeps the old file in that branch. *)
Definition save_data (g : GitSimulator) (f : Files) : res Files :=
  match json_save (manager_to_dict (repo_manager (gs_sim g))) with
  | Ok rf => Ok (set_repos f rf)
  | Raise e => Raise e
  end.

Definition set_sim (g : GitSimulator) (sim : Simulator) : GitSimulator :=
  mk_gitsim sim (gs_commands g).

(** [run]: one iteration per unit of fuel.  The result is what was
    printed (the prompt [git> ] of [input] aside) and the files when the
    loop breaks on [exit]. *)
Fixpoint run (fuel : nat) (g : GitSimulator) (f : Files) (inp : list string)
    (out : list string) : option (list string * Files) :=
  match fuel with
  | 0 => None
  | S fuel' =>
      match inp with
      | [] => run fuel' g f [] (out ++ ["Error: " +:+ py_exc_str EOFError])
      | line :: inp' =>
          let user_input := py_strip_str line in
          if String.eqb user_input "" then run fuel' g f inp' out
          else
            match py_split_ws user_input with
            | [] => run fuel' g f inp' out
            | command :: args =>
                if String.eqb command "exit" then
                  match save_data g f with
                  | Ok f' => Some (out, f')
                  | Raise e => run fuel' g f inp' (out ++ ["Error: " +:+ py_exc_str e])
                  end
                else
                  match execute_command fuel' (gs_commands g) command args (gs_sim g) with
                  | Some (sim', result) => run fuel' (set_sim g sim') f inp' (out ++ [result])
                  | None => None
                  end
            end
      end
  end.

(** The welcome line, then the loop. *)
Definition main_run (fuel : nat) (g : GitSimulator) (f : Files) (inp : list string)
    : option (list string * Files) :=
  run fuel g f inp ["Bienvenido al Simulador de Git"].

(** [if __name__ == "__main__": GitSimulator().run()]: an exception of the
    constructor ends the program before the loop. *)
Definition program (fuel : nat) (f : Files) (inp : list string)
    : res (option (list string * Files)) :=
  match gitsim_init f with
  | Ok (g, f') => Ok (main_run fuel g f' inp)
  | Raise e => Raise e
  end.

(** A line on which the loop stops: its first word is [exit]. *)
Definition exit_line (line : string) : bool :=
  match py_split_ws (py_strip_str line) with
  | command :: _ => String.eqb command "exit"
  | [] => false
  end.

(** The reference for what a session does to the simulator, outputs
    aside: an enabled [init] is the only command that changes it. *)
Definition command_effect (cmds : gmap string command) (nm : string) (args : list string)
    (sim : Simulator) : Simulator :=
  match cmds !! nm with
  | Some c => if enabled c then match kind c with CmdInit => (git_init args sim).1 | _ => sim end
              else sim
  | None => sim
  end.

(** An input line other than [exit]: blank lines do nothing, any other
    line is its first word applied to the rest. *)
Definition line_effect (cmds : gmap string command) (line : string) (sim : Simulator) : Simulator :=
  if String.eqb (py_strip_str line) "" then sim
  else match py_split_ws (py_strip_str line) with
       | [] => sim
       | command :: args => command_effect cmds command args sim
       end.

Definition session_effect (cmds : gmap string command) (lines : list string) (sim : Simulator)
    : Simulator :=
  foldl (fun s l => line_effect cmds l s) sim lines.

(** ** Theorems *)

Lemma manager_to_dict_json m : json_ok (manager_to_dict m) = true.
Proof.
  unfold manager_to_dict. simpl. apply forallb_forall.
  intros v (r & <- & _)%in_map_iff. apply repo_to_dict_json.
Qed.

Lemma save_data_ok g f :
  save_data g f = Ok (set_repos f (FileJson (manager_to_dict (repo_manager (gs_sim g))))).
Proof. unfold save_data, json_save. by rewrite manager_to_dict_json. Qed.

Lemma exit_line_parts line :
  exit_line line = true ->
  String.eqb (py_strip_str line) "" = false /\
  exists args, py_split_ws (py_strip_str line) = "exit" :: args.
Proof.
  unfold exit_line. destruct (py_split_ws (py_strip_str line)) as [|cmd args] eqn:E; [done|].
  intros ->%String.eqb_eq. split; [|by eexists].
  destruct (String.eqb_spec (py_strip_str line) "") as [He|]; [|done].
  rewrite He in E. discriminate E.
Qed.

(** What the loop keeps: the simulator invariant, a bound [K] on the
    commits of every repository (the fuel [git log] needs), and valid
    dates in every repository (what a reload needs). *)
Definition session_ok (K : nat) (g : GitSimulator) : Prop :=
  sim_wf (gs_sim g) /\ commits_bound K (gs_sim g) /\
  Forall repo_dates_valid (repositories (repo_manager (gs_sim g))).

(** The repositories of [g'] are those of [g] followed by new ones. *)
Definition extends (g g' : GitSimulator) : Prop :=
  exists rs, repositories (repo_manager (gs_sim g')) = repositories (repo_manager (gs_sim g)) ++ rs /\
             Forall (fun r => exists n p, r = repo_init n p) rs.

Lemma extends_refl g : extends g g.
Proof. exists []. by rewrite app_nil_r. Qed.

Lemma extends_trans g1 g2 g3 : extends g1 g2 -> extends g2 g3 -> extends g1 g3.
Proof.
  intros (rs1 & E1 & F1) (rs2 & E2 & F2). exists (rs1 ++ rs2).
  rewrite E2, E1, app_assoc. split; [done|]. by apply Forall_app.
Qed.

Lemma execute_command_session K fuel g nm args :
  session_ok K g -> K <= fuel ->
  exists sim' msg, execute_command fuel (gs_commands g) nm args (gs_sim g) = Some (sim', msg) /\
                   session_ok K (set_sim g sim') /\ extends g (set_sim g sim').
Proof.
  intros (Hwf & HK & Hd) Hf.
  destruct (execute_command_total K fuel (gs_commands g) nm args (gs_sim g)) as (sim' & msg & He & ? & ?);
    [done..|].
  exists sim', msg. split; [done|].
  destruct (execute_command_appends _ _ _ _ _ _ _ He) as (rs & Ers & Hrs).
  split; [split; [done|split; [done|]]|by exists rs]. simpl. rewrite Ers.
  apply Forall_app. split; [done|]. eapply Forall_impl; [exact Hrs|].
  intros r (n & p & ->). apply map_Forall_empty.
Qed.

(** A line that reaches [exit] saves the repositories of the state the
    loop has reached and stops, when the fuel covers the lines before it
    and the commits of the repositories. *)
Lemma execute_command_effect fuel cmds nm args sim sim' msg :
  execute_command fuel cmds nm args sim = Some (sim', msg) -> sim' = command_effect cmds nm args sim.
Proof.
  unfold execute_command, command_effect.
  destruct (cmds !! nm) as [c|]; [|by intros [= <- _]].
  destruct (enabled c); [|by intros [= <- _]].
  destruct (kind c); [intros [= Hg]; by rewrite Hg|by intros [= <- _]|].
  destruct (git_log fuel sim); simpl; [by intros [= <- _]|done].
Qed.

Lemma set_sim_self g : set_sim g (gs_sim g) = g.
Proof. by destruct g. Qed.

Lemma run_exit_saves K fuel g f pre line post out :
  session_ok K g -> Forall (fun l => exit_line l = false) pre -> exit_line line = true ->
  length pre + K < fuel ->
  let sim' := session_effect (gs_commands g) pre (gs_sim g) in
  exists out', run fuel g f (pre ++ line :: post) out =
                 Some (out', set_repos f (FileJson (manager_to_dict (repo_manager sim')))) /\
               session_ok K (set_sim g sim') /\ extends g (set_sim g sim').
Proof.
  revert g fuel out. induction pre as [|l pre IH]; intros g fuel out Hs Hpre Hex Hf;
    (destruct fuel as [|fuel]; [simpl in Hf; lia|]); simpl.
  - destruct (exit_line_parts line Hex) as [-> [args ->]]. rewrite save_data_ok, set_sim_self.
    exists out. split; [done|]. split; [done|apply extends_refl].
  - apply Forall_cons in Hpre as [Hl Hpre]. unfold line_effect.
    destruct (String.eqb (py_strip_str l) ""); [apply IH; (done || simpl in Hf; lia)|].
    unfold exit_line in Hl.
    destruct (py_split_ws (py_strip_str l)) as [|cmd args]; [apply IH; (done || simpl in Hf; lia)|].
    rewrite Hl.
    destruct (execute_command_session K fuel g cmd args) as (sim1 & msg & Hex1 & Hs' & Hx);
      [done|simpl in Hf; lia|].
    rewrite Hex1, <- (execute_command_effect _ _ _ _ _ _ _ Hex1).
    destruct (IH (set_sim g sim1) fuel (out ++ [msg]) Hs' Hpre Hex) as (out' & Hrun & Hs'' & Hx');
      [simpl in Hf; lia|].
    exists out'. split; [done|]. split; [done|]. by eapply extends_trans.
Qed.

Lemma initialize_set_repos f rf cmds f1 :
  initialize f = Ok (cmds, f1) -> initialize (set_repos f rf) = Ok (cmds, set_repos f1 rf).
Proof.
  unfold initialize, set_repos, set_config. destruct f as [[| |v] rj]; simpl.
  - by intros [= <- <-].
  - by intros [= <- <-].
  - destruct (res_bind (py_getitem v "commands") as_items); simpl; [|done]. by intros [= <- <-].
Qed.

(** The simulator built from a [repos.json] written by [save_data]: the
    saved repositories, in order, with empty staging areas, and no current
    repository. *)
Lemma restart_after_save g f cmds f1 :
  Forall (fun r => repo_wf r /\ repo_dates_valid r) (repositories (repo_manager (gs_sim g))) ->
  initialize f = Ok (cmds, f1) ->
  gitsim_init (set_repos f (FileJson (manager_to_dict (repo_manager (gs_sim g))))) =
    Ok (mk_gitsim (mk_sim (mk_manager (map (fun r => set_staging r Staging.staging_init)
                                            (repositories (repo_manager (gs_sim g))))) None) cmds,
        set_repos f1 (FileJson (manager_to_dict (repo_manager (gs_sim g))))).
Proof.
  intros Hall Hi. unfold gitsim_init. rewrite (initialize_set_repos _ _ _ _ Hi). simpl.
  by rewrite manager_reload.
Qed.

Lemma session_ok_reload K g :
  session_ok K g ->
  Forall (fun r => repo_wf r /\ repo_dates_valid r) (repositories (repo_manager (gs_sim g))).
Proof.
  intros ((_ & _ & Hwf) & _ & Hd). rewrite Forall_forall in *. eauto.
Qed.

(** [GitSimulator.__init__] sets [current_repo = None] before
    [_load_data], which does not change it. *)
Lemma gitsim_init_no_current f g f1 :
  gitsim_init f = Ok (g, f1) -> current_repo (gs_sim g) = None.
Proof.
  unfold gitsim_init. destruct (initialize f) as [[cmds f']|]; [|done].
  unfold load_data. destruct (repos_json f') as [| |v]; [by intros [= <- _]..|].
  destruct (load_repositories v _) as [m' [u|e]]; [by intros [= <- _]|done].
Qed.

(** When the loop ends, it has saved the manager of a simulator the
    commands of the session reach. *)
Lemma run_saves_reached fuel g f inp out out' f' :
  run fuel g f inp out = Some (out', f') ->
  exists sim, cmd_reach (gs_commands g) (gs_sim g) sim /\
              f' = set_repos f (FileJson (manager_to_dict (repo_manager sim))).
Proof.
  revert g inp out. induction fuel as [|fuel IH]; intros g inp out; [done|]. simpl.
  destruct inp as [|line inp]; [apply IH|].
  destruct (String.eqb (py_strip_str line) ""); [apply IH|].
  destruct (py_split_ws (py_strip_str line)) as [|cmd args]; [apply IH|].
  destruct (String.eqb cmd "exit").
  { rewrite save_data_ok. intros [= _ <-]. exists (gs_sim g). split; [apply reach_refl|done]. }
  destruct (execute_command fuel (gs_commands g) cmd args (gs_sim g)) as [[sim' msg]|] eqn:He;
    [|done].
  intros (sim & Hr & ->)%IH. exists sim. split; [|done]. by eapply reach_step.
Qed.

(** The program's part of C27: a session started from the files, when it
    ends, has saved the repositories it loaded, in order, and never made
    one of them the current repository. *)
Lemma program_never_selects_loaded fuel f inp out f' :
  program fuel f inp = Ok (Some (out, f')) ->
  exists g f1 sim, gitsim_init f = Ok (g, f1) /\ cmd_reach (gs_commands g) (gs_sim g) sim /\
    f' = set_repos f1 (FileJson (manager_to_dict (repo_manager sim))) /\
    repositories (repo_manager (gs_sim g)) `prefix_of` repositories (repo_manager sim) /\
    forall i, current_repo sim = Some i -> length (repositories (repo_manager (gs_sim g))) <= i.
Proof.
  unfold program, main_run. destruct (gitsim_init f) as [[g f1]|] eqn:Eg; [|done].
  intros [= (sim & Hr & ->)%run_saves_reached]. exists g, f1, sim.
  destruct (cmd_reach_current _ _ _ Hr) as [(rs & Hrs & _) Hcur].
  split; [done|]. split; [done|]. split; [done|]. split; [by exists rs|].
  intros i Hi. destruct (Hcur i Hi) as [H|H]; [|done].
  by rewrite (gitsim_init_no_current _ _ _ Eg) in H.
Qed.

(** C34: a session whose input reaches an [exit] line ends, and saves the
    repositories of the state its commands produced (the lines before
    [exit], in order, each an enabled [init] or no change); the simulator
    started next from the files it saved has those repositories: the ones
    the session started with, then those [git init] created, in order,
    each with an empty staging area, and no current repository. *)
Theorem session_restart K fuel g f pre line post cmds f1 :
  session_ok K g -> Forall (fun l => exit_line l = false) pre -> exit_line line = true ->
  length pre + K < fuel -> initialize f = Ok (cmds, f1) ->
  let sim' := session_effect (gs_commands g) pre (gs_sim g) in
  let f' := set_repos f (FileJson (manager_to_dict (repo_manager sim'))) in
  extends g (set_sim g sim') /\
  (exists out, main_run fuel g f (pre ++ line :: post) = Some (out, f')) /\
  gitsim_init f' =
    Ok (mk_gitsim (mk_sim (mk_manager (map (fun r => set_staging r Staging.staging_init)
                                            (repositories (repo_manager sim')))) None) cmds,
        set_repos f1 (repos_json f')).
Proof.
  intros Hs Hpre Hex Hf Hi sim' f'.
  destruct (run_exit_saves K fuel g f pre line post ["Bienvenido al Simulador de Git"] Hs Hpre Hex Hf)
    as (out & Hrun & Hs' & Hx).
  split; [done|]. split; [by exists out|].
  apply (restart_after_save (set_sim g sim')); [apply (session_ok_reload K), Hs'|done].
Qed.

(** C35: an input with no [exit] line never ends the loop: once [input()]
    has no line left it raises [EOFError], which [except Exception]
    catches, so the loop prints [Error: ] forever and never saves. *)
Theorem run_without_exit_never_ends fuel g f inp out :
  Forall (fun line => exit_line line = false) inp -> run fuel g f inp out = None.
Proof.
  revert g inp out. induction fuel as [|fuel IH]; intros g inp out Hinp; [done|].
  destruct inp as [|line inp]; simpl; [by apply IH|].
  apply Forall_cons in Hinp as [Hl Hinp]. unfold exit_line in Hl.
  destruct (String.eqb (py_strip_str line) ""); [by apply IH|].
  destruct (py_split_ws (py_strip_str line)) as [|cmd args]; [by apply IH|].
  rewrite Hl. destruct (execute_command _ _ _ _ _) as [[sim' msg]|]; [by apply IH|done].
Qed.

(** C36: a [repos.json] that is not valid JSON is reported and the
    simulator starts empty, but valid JSON of the wrong shape makes
    [Repository.from_dict] raise, and [_load_data] does not catch it: the
    constructor raises and the program stops before its loop. *)
Theorem load_data_errors f cmds f1 :
  initialize f = Ok (cmds, f1) ->
  (repos_json f = FileCorrupt -> gitsim_init f = Ok (mk_gitsim (mk_sim manager_init None) cmds, f1)) /\
  (forall v e, repos_json f = FileJson v ->
     res_bind (py_iter v) (res_map repo_from_dict) = Raise e ->
     gitsim_init f = Raise e /\ forall fuel inp, program fuel f inp = Raise e).
Proof.
  intros Hi. assert (Hr : repos_json f1 = repos_json f).
  { revert Hi. unfold initialize. destruct (config_json f); [by intros [= _ <-]..|].
    destruct (res_bind (py_getitem _ _) as_items); simpl; [by intros [= _ <-]|done]. }
  split.
  - intros Hc. unfold gitsim_init. by rewrite Hi, Hr, Hc.
  - intros v e Hv He. assert (Hg : gitsim_init f = Raise e).
    { unfold gitsim_init. rewrite Hi, Hr, Hv. simpl. unfold load_repositories. by rewrite He. }
    split; [done|]. intros fuel inp. unfold program. by rewrite Hg.
Qed.

(** C37: [save_data] never raises: every value [to_dict] builds is made of
    JSON types, so [json.dump] writes the whole manager. *)
Theorem save_data_never_raises g f :
  save_data g f = Ok (set_repos f (FileJson (manager_to_dict (repo_manager (gs_sim g))))).
Proof. apply save_data_ok. Qed.

(** ** Concrete runs *)

(** A simulator holding the demo repository, with the default table, and
    no files yet. *)
Definition demo_gitsim : GitSimulator := mk_gitsim demo_sim (initialize_commands default_config).
Definition demo_files : Files := mk_files FileMissing FileMissing.

Lemma demo_gitsim_ok : session_ok 1 demo_gitsim.
Proof.
  split; [apply demo_sim_wf|]. split.
  - apply Forall_singleton. vm_compute. lia.
  - apply Forall_singleton, demo_repo2_dates.
Qed.

Lemma session_restart_witness :
  session_ok 1 demo_gitsim /\ Forall (fun l => exit_line l = false) ["status"; "init nuevo"] /\
  exit_line "exit" = true /\ length ["status"; "init nuevo"] + 1 < 4 /\
  initialize demo_files =
    Ok (initialize_commands default_config, set_config demo_files (FileJson default_config_py)) /\
  let sim' := session_effect (gs_commands demo_gitsim) ["status"; "init nuevo"] (gs_sim demo_gitsim) in
  let f' := set_repos demo_files (FileJson (manager_to_dict (repo_manager sim'))) in
  extends demo_gitsim (set_sim demo_gitsim sim') /\
  (exists out, main_run 4 demo_gitsim demo_files (["status"; "init nuevo"] ++ "exit" :: []) =
                 Some (out, f')) /\
  gitsim_init f' =
    Ok (mk_gitsim (mk_sim (mk_manager (map (fun r => set_staging r Staging.staging_init)
                                            (repositories (repo_manager sim')))) None)
                  (initialize_commands default_config),
        set_repos (set_config demo_files (FileJson default_config_py)) (repos_json f')).
Proof.
  split; [apply demo_gitsim_ok|]. split; [repeat constructor|]. split; [reflexivity|].
  split; [simpl; lia|]. split; [reflexivity|].
  apply (session_restart 1 4 demo_gitsim demo_files ["status"; "init nuevo"] "exit" []);
    [apply demo_gitsim_ok|repeat constructor|reflexivity|simpl; lia|reflexivity].
Defined.

Lemma run_without_exit_never_ends_witness :
  Forall (fun line => exit_line line = false) ["status"; "  "] /\
  run 10 demo_gitsim demo_files ["status"; "  "] [] = None.
Proof.
  assert (Hl : Forall (fun line => exit_line line = false) ["status"; "  "])
    by (repeat constructor).
  split; [exact Hl|]. apply run_without_exit_never_ends. exact Hl.
Defined.

(** A [repos.json] holding one empty dict. *)
Definition demo_bad_repos : Files := mk_files FileMissing (FileJson (PList [PDict []])).

Lemma load_data_errors_witness :
  initialize demo_bad_repos =
    Ok (initialize_commands default_config, set_config demo_bad_repos (FileJson default_config_py)) /\
  gitsim_init demo_bad_repos = Raise (KeyError "name") /\
  forall fuel inp, program fuel demo_bad_repos inp = Raise (KeyError "name").
Proof.
  assert (Hi : initialize demo_bad_repos =
    Ok (initialize_commands default_config, set_config demo_bad_repos (FileJson default_config_py)))
    by reflexivity.
  split; [exact Hi|].
  apply (proj2 (load_data_errors _ _ _ Hi) (PList [PDict []]) (KeyError "name")); reflexivity.
Defined.

End Main.
