(* ===== verification/PullRequest.v ===== *)
(** [src/proyecto1/pull_request.py]: the class [PullRequest], whose status
    is a string set directly by [approve], [reject] and [merge], and the
    class [PullRequestQueue], a FIFO list of pull requests with an id
    counter that [load_from_file] recomputes from the last id.

    [save_to_file] writes the [to_dict] of every queued request with
    [json.dump]; [load_from_file] reads a [json_file] (missing, corrupt or
    a decoded value) and rebuilds the requests with [from_dict]. *)

From Stdlib Require Import Ascii.
From S2P Require Import Prelude DateTime PyVal.

Module PullRequest.
Import PyVal.

(** [PullRequest.__init__]'s attributes. *)
Record PullRequest := mk_pr {
  id : string;
  title : string;
  description : string;
  author : string;
  source_branch : string;
  target_branch : string;
  created_at : datetime;
  status : string;
  reviewers : list string;
  comments : list string;
  commits : list string;
  merged_at : option datetime;
  tags : list string
}.

Definition st_open : string := "open".
Definition st_in_review : string := "in_review".
Definition st_approved : string := "approved".
Definition st_rejected : string := "rejected".
Definition st_merged : string := "merged".

(** [PullRequest(pr_id, title, description, author, source_branch,
    target_branch)], with [now] the [datetime.now()] of [created_at]. *)
Definition pr_init (now : datetime) (pr_id title description author source_branch
    target_branch : string) : PullRequest :=
  {| id := pr_id; title := title; description := description; author := author;
     source_branch := source_branch; target_branch := target_branch;
     created_at := now; status := st_open; reviewers := []; comments := [];
     commits := []; merged_at := None; tags := [] |}.

(** Attribute assignments. *)
Definition set_status (s : string) (pr : PullRequest) : PullRequest :=
  {| id := id pr; title := title pr; description := description pr; author := author pr;
     source_branch := source_branch pr; target_branch := target_branch pr;
     created_at := created_at pr; status := s; reviewers := reviewers pr;
     comments := comments pr; commits := commits pr; merged_at := merged_at pr;
     tags := tags pr |}.

Definition set_lists (rv cm tg : list string) (ma : option datetime) (pr : PullRequest)
    : PullRequest :=
  {| id := id pr; title := title pr; description := description pr; author := author pr;
     source_branch := source_branch pr; target_branch := target_branch pr;
     created_at := created_at pr; status := status pr; reviewers := rv;
     comments := cm; commits := commits pr; merged_at := ma; tags := tg |}.

(** [add_reviewer], [add_comment], [add_tag]: appends. *)
Definition add_reviewer (reviewer : string) (pr : PullRequest) : PullRequest :=
  set_lists (reviewers pr ++ [reviewer]) (comments pr) (tags pr) (merged_at pr) pr.
Definition add_comment (comment : string) (pr : PullRequest) : PullRequest :=
  set_lists (reviewers pr) (comments pr ++ [comment]) (tags pr) (merged_at pr) pr.
Definition add_tag (tag : string) (pr : PullRequest) : PullRequest :=
  set_lists (reviewers pr) (comments pr) (tags pr ++ [tag]) (merged_at pr) pr.

(** [approve], [reject]: the status is set whatever it was. *)
Definition approve (pr : PullRequest) : PullRequest := set_status st_approved pr.
Definition reject (pr : PullRequest) : PullRequest := set_status st_rejected pr.

(** [merge]: status and [merged_at := datetime.now()]. *)
Definition merge (now : datetime) (pr : PullRequest) : PullRequest :=
  set_lists (reviewers pr) (comments pr) (tags pr) (Some now) (set_status st_merged pr).

(** The methods a caller can apply to one pull request. *)
Inductive pr_op :=
| OpAddReviewer (r : string)
| OpAddComment (c : string)
| OpApprove
| OpReject
| OpMerge (now : datetime)
| OpAddTag (t : string).

Definition apply_op (o : pr_op) (pr : PullRequest) : PullRequest :=
  match o with
  | OpAddReviewer r => add_reviewer r pr
  | OpAddComment c => add_comment c pr
  | OpApprove => approve pr
  | OpReject => reject pr
  | OpMerge now => merge now pr
  | OpAddTag t => add_tag t pr
  end.

(** The status machine as a step relation. *)
Inductive pr_step : PullRequest -> PullRequest -> Prop :=
| pr_step_op o pr : pr_step pr (apply_op o pr).

Inductive pr_reachable : PullRequest -> PullRequest -> Prop :=
| pr_reach_refl pr : pr_reachable pr pr
| pr_reach_step pr1 pr2 pr3 : pr_step pr1 pr2 -> pr_reachable pr2 pr3 -> pr_reachable pr1 pr3.

(** ** [PullRequestQueue] *)

Record PullRequestQueue := mk_queue { queue : list PullRequest; next_id : Z }.

(** [PullRequestQueue.__init__] *)
Definition queue_init : PullRequestQueue := mk_queue [] 1.

(** The id [f"PR-{n}"]. *)
Definition pr_id_of (n : Z) : string := "PR-" +:+ py_str_Z n.

(** [create_pr(...)]: the new pull request is appended and returned. *)
Definition create_pr (now : datetime) (title description author source_branch
    target_branch : string) (q : PullRequestQueue) : PullRequest * PullRequestQueue :=
  let pr := pr_init now (pr_id_of (next_id q)) title description author source_branch
              target_branch in
  (pr, mk_queue (queue q ++ [pr]) (next_id q + 1)).

(** [get_next_pr()] *)
Definition get_next_pr (q : PullRequestQueue) : option PullRequest :=
  match queue q with [] => None | pr :: _ => Some pr end.

(** [process_next_pr()]: [self.queue.pop(0)]. *)
Definition process_next_pr (q : PullRequestQueue) : option PullRequest * PullRequestQueue :=
  match queue q with
  | [] => (None, q)
  | pr :: rest => (Some pr, mk_queue rest (next_id q))
  end.

(** [get_pr_by_id(pr_id)]: the first match of the scan. *)
Definition get_pr_by_id (pr_id : string) (q : PullRequestQueue) : option PullRequest :=
  find (fun pr => String.eqb (id pr) pr_id) (queue q).

(** [list_prs(status=None)]: a falsy [status] ([None] or [""]) lists all. *)
Definition list_prs (st : option string) (q : PullRequestQueue) : list PullRequest :=
  match st with
  | Some s => if py_truthy_str st then List.filter (fun pr => String.eqb (status pr) s) (queue q)
              else queue q
  | None => queue q
  end.

(** [clear_queue()] *)
Definition clear_queue (q : PullRequestQueue) : PullRequestQueue := mk_queue [] (next_id q).

(** [int(pr.id.split('-')[1])] *)
Definition id_number (pr_id : string) : res Z :=
  match py_index (py_split "-"%char pr_id) 1 with
  | Ok part => py_int part
  | Raise e => Raise e
  end.

(** [PullRequest.to_dict] *)
Definition pr_to_dict (pr : PullRequest) : pyval :=
  PDict [("id", PStr (id pr)); ("title", PStr (title pr));
         ("description", PStr (description pr)); ("author", PStr (author pr));
         ("source_branch", PStr (source_branch pr));
         ("target_branch", PStr (target_branch pr));
         ("created_at", PStr (dt_isoformat (created_at pr)));
         ("status", PStr (status pr)); ("reviewers", py_str_list (reviewers pr));
         ("comments", py_str_list (comments pr)); ("commits", py_str_list (commits pr));
         ("merged_at", match merged_at pr with
                       | Some d => PStr (dt_isoformat d)
                       | None => PNone
                       end);
         ("tags", py_str_list (tags pr))].

(** [PullRequest.from_dict(data)]: the constructor's arguments, then the
    attributes in the order the code assigns them; [merged_at] is parsed
    only when the stored value is truthy. *)
Definition pr_from_dict (data : pyval) : res PullRequest :=
  (let? pid := get_str data "id" in
   let? ti := get_str data "title" in
   let? de := get_str data "description" in
   let? au := get_str data "author" in
   let? sb := get_str data "source_branch" in
   let? tb := get_str data "target_branch" in
   let? ca := res_bind (py_getitem data "created_at") py_fromisoformat in
   let? st := get_str data "status" in
   let? rv := get_str_list data "reviewers" in
   let? cm := get_str_list data "comments" in
   let? cs := get_str_list data "commits" in
   let? mv := py_getitem data "merged_at" in
   let? ma := (if py_truthy_val mv then res_bind (py_fromisoformat mv) (fun d => Ok (Some d))
               else Ok None) in
   let? tg := get_str_list data "tags" in
   Ok {| id := pid; title := ti; description := de; author := au; source_branch := sb;
         target_branch := tb; created_at := ca; status := st; reviewers := rv;
         comments := cm; commits := cs; merged_at := ma; tags := tg |})%py.

(** [save_to_file(filename)]: the file [json.dump] leaves. *)
Definition save_to_file (q : PullRequestQueue) : res json_file :=
  json_save (PList (map pr_to_dict (queue q))).

(** [load_from_file(filename)]: only [FileNotFoundError] is caught; a
    [JSONDecodeError] or an exception of [from_dict] propagates with the
    queue unchanged.  The queue is assigned before the last id is parsed,
    so a malformed id raises with the new queue and the old counter. *)
Definition load_from_file (f : json_file) : PyM PullRequestQueue unit :=
  fun q =>
    match f with
    | FileMissing => (q, Ok tt)
    | FileCorrupt => (q, Raise JSONDecodeError)
    | FileJson data =>
        match res_bind (py_iter data) (res_map pr_from_dict) with
        | Raise e => (q, Raise e)
        | Ok prs =>
            let q1 := mk_queue prs (next_id q) in
            if negb (py_truthy_list prs) then (q1, Ok tt)
            else
              match py_last prs with
              | Ok last =>
                  match id_number (id last) with
                  | Ok last_id => (mk_queue prs (last_id + 1), Ok tt)
                  | Raise e => (q1, Raise e)
                  end
              | Raise e => (q1, Raise e)
              end
        end
    end.

(** [save_to_file] followed by [load_from_file] into a fresh
    [PullRequestQueue], as a new process does. *)
Definition reload (q : PullRequestQueue) : PullRequestQueue * res unit :=
  match save_to_file q with
  | Ok f => load_from_file f queue_init
  | Raise e => (queue_init, Raise e)
  end.

(** ** The ids *)

Lemma pr_id_of_inj n m : pr_id_of n = pr_id_of m -> n = m.
Proof. unfold pr_id_of. autorewrite with gitsim. intros [= H]. by apply py_str_Z_inj. Qed.

(** Reading back [f"PR-{n}"] with [int(id.split('-')[1])] gives [n]. *)
Lemma id_number_pr_id_of n : (0 <= n)%Z -> id_number (pr_id_of n) = Ok n.
Proof.
  intros Hn. unfold id_number, pr_id_of. autorewrite with gitsim.
  cbn [py_split py_split_aux Ascii.eqb Bool.eqb andb].
  rewrite py_split_aux_nosep by by apply py_str_Z_nonneg_nodash.
  apply py_int_str_Z.
Qed.

(** The queue invariant: the ids are [PR-k] with [k] strictly increasing
    along the queue, from [lo] on and below [n]. *)
Fixpoint ids_ok (l : list PullRequest) (lo n : Z) : Prop :=
  match l with
  | [] => True
  | pr :: l' => exists k, id pr = pr_id_of k /\ (lo <= k < n)%Z /\ ids_ok l' (k + 1) n
  end.

Definition queue_wf (q : PullRequestQueue) : Prop :=
  (1 <= next_id q)%Z /\ ids_ok (queue q) 1 (next_id q).

Lemma ids_ok_weaken l lo lo' n : (lo' <= lo)%Z -> ids_ok l lo n -> ids_ok l lo' n.
Proof. destruct l as [|pr l]; simpl; [done|]. intros ? (k & ? & ? & ?). exists k. eauto with lia. Qed.

Lemma ids_ok_snoc l lo n pr :
  (lo <= n)%Z -> id pr = pr_id_of n -> ids_ok l lo n -> ids_ok (l ++ [pr]) lo (n + 1).
Proof.
  revert lo. induction l as [|pr' l IH]; intros lo Hlo Hid; simpl.
  - intros _. exists n. split; [done|]. split; [lia|done].
  - intros (k & Hk & Hb & Hl). exists k. split; [done|]. split; [lia|]. apply IH; [lia|done|done].
Qed.

Lemma ids_ok_bounds l lo n pr :
  ids_ok l lo n -> pr ∈ l -> exists k, id pr = pr_id_of k /\ (lo <= k < n)%Z.
Proof.
  revert lo. induction l as [|pr' l IH]; intros lo; simpl; [set_solver|].
  intros (k & Hk & Hb & Hl) [->|Hin]%elem_of_cons; [eauto|].
  destruct (IH (k + 1)%Z Hl Hin) as (k' & ? & ?). exists k'. split; [done|lia].
Qed.

Lemma ids_ok_nodup l lo n : ids_ok l lo n -> NoDup (map id l).
Proof.
  revert lo. induction l as [|pr l IH]; intros lo; simpl; [constructor|].
  intros (k & Hk & Hb & Hl). constructor; [|by eapply IH].
  intros (pr' & Hid & Hin)%list_elem_of_fmap.
  destruct (ids_ok_bounds _ _ _ _ Hl Hin) as (k' & Hk' & Hb').
  rewrite Hk, Hk' in Hid. apply pr_id_of_inj in Hid. lia.
Qed.

(** The last pull request carries the largest number, so every id of the
    queue is below it plus one. *)
Lemma ids_ok_last l lo n pr :
  ids_ok l lo n -> last l = Some pr ->
  exists k, id pr = pr_id_of k /\ (lo <= k < n)%Z /\ ids_ok l lo (k + 1).
Proof.
  revert lo. induction l as [|pr' l IH]; intros lo; [done|].
  intros (k & Hk & Hb & Hl) Hlast. destruct l as [|pr'' l].
  - injection Hlast as <-. exists k. simpl. eauto with lia.
  - destruct (IH (k + 1)%Z Hl Hlast) as (k' & Hk' & Hb' & Hl').
    exists k'. split; [done|]. split; [lia|]. exists k. eauto with lia.
Qed.

(** ** Queue operations *)

Lemma queue_init_wf : queue_wf queue_init.
Proof. split; simpl; [lia|done]. Qed.

(** C12: [create_pr] keeps the queue invariant (ids [PR-k], [k] strictly
    increasing along the queue and below [next_id]). *)
Lemma create_pr_wf now title description author src tgt q :
  queue_wf q -> queue_wf (create_pr now title description author src tgt q).2.
Proof.
  intros [Hn Hl]. split; simpl; [lia|]. by apply ids_ok_snoc.
Qed.

(** The id [create_pr] hands out is not the id of any queued request. *)
Theorem create_pr_fresh_id now title description author src tgt q :
  queue_wf q ->
  id (create_pr now title description author src tgt q).1 ∉ map id (queue q).
Proof.
  intros [Hn Hl] (pr & Hid & Hin)%list_elem_of_fmap. simpl in Hid.
  destruct (ids_ok_bounds _ _ _ _ Hl Hin) as (k & Hk & Hb).
  rewrite Hk in Hid. apply pr_id_of_inj in Hid. lia.
Qed.

(** [process_next_pr] keeps the queue invariant. *)
Lemma process_next_pr_wf q : queue_wf q -> queue_wf (process_next_pr q).2.
Proof.
  intros [Hn Hl]. unfold process_next_pr. destruct (queue q) as [|pr l] eqn:E.
  { split; [done|]. simpl. by rewrite E. }
  split; [done|]. simpl in *. destruct Hl as (k & _ & Hb & Hl). eapply ids_ok_weaken; [|done]. lia.
Qed.


Lemma clear_queue_wf q : queue_wf q -> queue_wf (clear_queue q).
Proof. by intros [? ?]. Qed.

Definition create_args : Type := datetime * string * string * string * string * string.

(** [create_pr] called once per argument tuple, collecting the results. *)
Fixpoint create_all (args : list create_args) (q : PullRequestQueue)
    : list PullRequest * PullRequestQueue :=
  match args with
  | [] => ([], q)
  | (now, t, d, au, s, tg) :: args' =>
      let '(pr, q1) := create_pr now t d au s tg q in
      let '(prs, q2) := create_all args' q1 in (pr :: prs, q2)
  end.

Lemma create_all_queue args q :
  queue (create_all args q).2 = queue q ++ (create_all args q).1.
Proof.
  revert q. induction args as [|[[[[[now t] d] au] s] tg] args IH]; intros q; simpl.
  - by rewrite app_nil_r.
  - specialize (IH (create_pr now t d au s tg q).2). simpl in IH.
    destruct (create_all args _) as [prs q2]. simpl in *. by rewrite IH, <- app_assoc.
Qed.

(** [process_next_pr] called [n] times. *)
Fixpoint drain (n : nat) (q : PullRequestQueue) : list PullRequest * PullRequestQueue :=
  match n with
  | 0 => ([], q)
  | S n' =>
      match process_next_pr q with
      | (Some pr, q') => let '(l, q'') := drain n' q' in (pr :: l, q'')
      | (None, q') => ([], q')
      end
  end.

Lemma drain_all q : drain (length (queue q)) q = (queue q, clear_queue q).
Proof.
  destruct q as [l n]. unfold clear_queue. simpl. induction l as [|pr l IH]; [done|].
  simpl. by rewrite IH.
Qed.

(** C8: FIFO: the requests created on a queue come out of [process_next_pr]
    after the ones already queued, in the order of their creation. *)
Theorem fifo_order (args : list create_args) q :
  let '(prs, q') := create_all args q in
  drain (length (queue q')) q' = (queue q ++ prs, clear_queue q').
Proof.
  pose proof (create_all_queue args q) as H.
  destruct (create_all args q) as [prs q']. simpl in H. by rewrite drain_all, H.
Qed.

(** ** Reload *)

(** The dates of a request are ones the [datetime] constructor accepts. *)
Definition pr_dates_valid (pr : PullRequest) : bool :=
  dt_valid (created_at pr) && match merged_at pr with Some d => dt_valid d | None => true end.

(** [from_dict] reads back what [to_dict] wrote. *)
Lemma pr_from_to_dict pr : pr_dates_valid pr = true -> pr_from_dict (pr_to_dict pr) = Ok pr.
Proof.
  intros [Hc Hm]%andb_true_iff. unfold pr_from_dict, pr_to_dict, get_str, get_str_list.
  cbn [py_getitem assoc_lookup String.eqb Ascii.eqb Bool.eqb andb res_bind as_str
       py_fromisoformat].
  rewrite dt_fromisoformat_isoformat by done. autorewrite with gitsim.
  destruct (merged_at pr) as [d|] eqn:Em; cbn [py_truthy_val res_bind py_fromisoformat].
  - rewrite dt_isoformat_nonempty, dt_fromisoformat_isoformat by done.
    cbn [negb res_bind]. autorewrite with gitsim. destruct pr; simpl in *; by subst.
  - autorewrite with gitsim. destruct pr; simpl in *; by subst.
Qed.

Lemma pr_to_dict_json pr : json_ok (pr_to_dict pr) = true.
Proof.
  unfold pr_to_dict. cbn [json_ok forallb snd]. autorewrite with gitsim.
  by destruct (merged_at pr).
Qed.

(** [save_to_file] never raises: the dicts hold no [datetime]. *)
Lemma save_to_file_ok q : save_to_file q = Ok (FileJson (PList (map pr_to_dict (queue q)))).
Proof.
  unfold save_to_file, json_save. replace (json_ok _) with true; [done|].
  symmetry. simpl. apply forallb_forall. intros v (pr & <- & _)%in_map_iff. apply pr_to_dict_json.
Qed.

(** A reload of an empty queue starts the counter again at 1. *)
Lemma reload_empty q : queue q = [] -> reload q = (mk_queue [] 1, Ok tt).
Proof. intros Hq. unfold reload. rewrite save_to_file_ok, Hq. reflexivity. Qed.

(** A reload sets the counter to the last saved id's number plus one. *)
Lemma reload_last q pr k :
  Forall (fun pr => pr_dates_valid pr = true) (queue q) ->
  last (queue q) = Some pr -> id pr = pr_id_of k -> (0 <= k)%Z ->
  reload q = (mk_queue (queue q) (k + 1), Ok tt).
Proof.
  intros Hd Hlast Hid Hk. unfold reload. rewrite save_to_file_ok. unfold load_from_file.
  cbn [py_iter res_bind].
  rewrite (res_map_ok pr_from_dict pr_to_dict)
    by (eapply Forall_impl; [exact Hd|]; intros; by apply pr_from_to_dict).
  destruct (queue q) as [|p l]; [done|]. simpl.
  unfold py_last. by rewrite Hlast, Hid, id_number_pr_id_of.
Qed.

(** What a save and reload gives: the same requests, and a counter [n']
    with [1 <= n' <= next_id] under which the ids are still in order. *)
Lemma reload_shape q :
  queue_wf q -> Forall (fun pr => pr_dates_valid pr = true) (queue q) ->
  exists n', reload q = (mk_queue (queue q) n', Ok tt) /\ (1 <= n' <= next_id q)%Z /\
             ids_ok (queue q) 1 n'.
Proof.
  intros [Hn Hl] Hd. destruct (last (queue q)) as [lst|] eqn:Hlast.
  - destruct (ids_ok_last (queue q) 1 (next_id q) lst Hl Hlast) as (k & Hk & Hb & Hl').
    exists (k + 1)%Z. rewrite (reload_last q lst k) by (done || lia). split; [done|]. split; [lia|done].
  - apply last_None in Hlast. exists 1%Z. rewrite reload_empty, Hlast by done.
    split; [done|]. split; [lia|done].
Qed.

Lemma reload_spec q :
  queue_wf q -> Forall (fun pr => pr_dates_valid pr = true) (queue q) ->
  (reload q).2 = Ok tt /\ queue (reload q).1 = queue q /\ queue_wf (reload q).1.
Proof.
  intros Hq Hd. destruct (reload_shape q Hq Hd) as (n' & -> & Hb & Hl).
  split; [done|]. split; [done|]. split; simpl; [lia|done].
Qed.

(** C9: a request created after a reload gets an id that no
    reloaded request has. *)
Corollary reload_create_fresh q now title description author src tgt :
  queue_wf q -> Forall (fun pr => pr_dates_valid pr = true) (queue q) ->
  id (create_pr now title description author src tgt (reload q).1).1 ∉ map id (queue q).
Proof.
  intros Hq Hd. destruct (reload_spec q Hq Hd) as (_ & Hqueue & Hwf).
  rewrite <- Hqueue. by apply create_pr_fresh_id.
Qed.

(** C7: the counter is rebuilt from the requests still queued only: after
    a save and reload, the next request gets the number of the last
    queued one plus one, and [PR-1] when the queue is empty, whatever ids
    were handed out before; once requests have been processed their ids
    are handed out again. *)
Theorem reload_next_id_from_last q now title description author src tgt :
  queue_wf q -> Forall (fun pr => pr_dates_valid pr = true) (queue q) ->
  (queue q = [] -> id (create_pr now title description author src tgt (reload q).1).1 = pr_id_of 1) /\
  (forall pr k, last (queue q) = Some pr -> id pr = pr_id_of k ->
     id (create_pr now title description author src tgt (reload q).1).1 = pr_id_of (k + 1)).
Proof.
  intros [Hn Hl] Hd. split; [intros He; by rewrite reload_empty|].
  intros pr k Hlast Hid.
  destruct (ids_ok_last (queue q) 1 (next_id q) pr Hl Hlast) as (k' & Hk' & Hb & _).
  rewrite Hid in Hk'. apply pr_id_of_inj in Hk' as ->.
  by rewrite (reload_last q pr k') by (done || lia).
Qed.

(** ** Lookup and listing *)

Lemma find_id_nodup (l : list PullRequest) pr :
  NoDup (map id l) -> pr ∈ l -> find (fun x => String.eqb (id x) (id pr)) l = Some pr.
Proof.
  induction l as [|x l IH]; intros Hnd Hin; [set_solver|]. simpl.
  inversion Hnd as [|? ? Hx Hnd']; subst.
  destruct (String.eqb_spec (id x) (id pr)) as [Heq|Hne].
  - apply elem_of_cons in Hin as [->|Hin]; [done|].
    exfalso. apply Hx. rewrite Heq. by apply list_elem_of_fmap_2.
  - apply elem_of_cons in Hin as [->|Hin]; [done|]. by apply IH.
Qed.

(** C14: on a well-formed queue, [get_pr_by_id] finds every queued request by
    its id. *)
Theorem get_pr_by_id_found q pr :
  queue_wf q -> pr ∈ queue q -> get_pr_by_id (id pr) q = Some pr.
Proof. intros [_ Hl] Hin. apply find_id_nodup; [by eapply ids_ok_nodup|done]. Qed.

(** C25: [list_prs] with a nonempty status lists exactly the queued requests
    with that status, in queue order; with [""] or [None], which are falsy,
    it lists all of them. *)
Lemma list_prs_status q s :
  (s <> "" -> list_prs (Some s) q = List.filter (fun pr => String.eqb (status pr) s) (queue q)) /\
  list_prs (Some "") q = queue q /\ list_prs None q = queue q.
Proof.
  split; [|done]. intros Hs. unfold list_prs. simpl. by destruct (String.eqb_spec s "").
Qed.

(** ** The status machine *)

(** What holds of every request a sequence of method calls can produce
    from a new one: its status is one the code writes ([open], [approved],
    [rejected], [merged]) and a [merged] request has a merge time. *)
Definition pr_inv (pr : PullRequest) : Prop :=
  (status pr = st_open \/ status pr = st_approved \/ status pr = st_rejected \/
   status pr = st_merged) /\
  (status pr = st_merged -> merged_at pr <> None).

Lemma pr_step_inv pr pr' : pr_inv pr -> pr_step pr pr' -> pr_inv pr'.
Proof.
  intros [Hs Hm] Hstep. inversion Hstep as [o ? ]; subst.
  destruct o; unfold pr_inv; simpl; [done|done| | | |done];
    (split; [tauto|]); unfold st_merged, st_approved, st_rejected; done.
Qed.

(** C11: no method ever sets [in_review]: from a newly created request the
    status [in_review] is unreachable, and [merged] always comes with a
    merge time. *)
Theorem pr_reachable_inv now pr_id title description author src tgt pr :
  pr_reachable (pr_init now pr_id title description author src tgt) pr ->
  pr_inv pr /\ status pr <> st_in_review.
Proof.
  intros Hr.
  assert (Hinv : pr_inv pr).
  { remember (pr_init now pr_id title description author src tgt) as pr0 eqn:E.
    assert (H0 : pr_inv pr0) by (subst; split; [by left|done]).
    clear E. induction Hr; eauto using pr_step_inv. }
  split; [done|]. destruct Hinv as [Hs _].
  unfold st_in_review, st_open, st_approved, st_rejected, st_merged in *.
  intros Heq. rewrite Heq in Hs. naive_solver.
Qed.

(** The reference for a sequence of method calls on one request: the
    status a call sets (if any), the merge time it stamps, and what it
    appends to each list. *)
Definition op_status (o : pr_op) : option string :=
  match o with
  | OpApprove => Some st_approved | OpReject => Some st_rejected | OpMerge _ => Some st_merged
  | _ => None
  end.
Definition op_merge_time (o : pr_op) : option datetime :=
  match o with OpMerge now => Some now | _ => None end.
Definition op_reviewer (o : pr_op) : option string :=
  match o with OpAddReviewer r => Some r | _ => None end.
Definition op_comment (o : pr_op) : option string :=
  match o with OpAddComment c => Some c | _ => None end.
Definition op_tag (o : pr_op) : option string :=
  match o with OpAddTag t => Some t | _ => None end.

Lemma last_omap_snoc {A B} (f : A -> option B) (l : list A) (x : A) :
  last (omap f (l ++ [x])) = match f x with Some y => Some y | None => last (omap f l) end.
Proof.
  rewrite omap_app. simpl. destruct (f x); simpl; [by rewrite last_snoc|by rewrite app_nil_r].
Qed.

(** C28: the methods of [PullRequest] check nothing: after any sequence
    of calls, the status is the one set by the last [approve], [reject]
    or [merge] (so [merge] works from any status, [rejected] included, and
    an [approve] after a [merge] keeps its merge time), [merged_at] is the
    time of the last [merge], the reviewers, comments and tags are the old
    ones followed by those added, in call order, and the other fields do
    not change. *)
Theorem pr_ops_spec (os : list pr_op) pr :
  let pr' := foldl (fun p o => apply_op o p) pr os in
  status pr' = default (status pr) (last (omap op_status os)) /\
  merged_at pr' = default (merged_at pr) (Some <$> last (omap op_merge_time os)) /\
  reviewers pr' = reviewers pr ++ omap op_reviewer os /\
  comments pr' = comments pr ++ omap op_comment os /\
  tags pr' = tags pr ++ omap op_tag os /\
  (id pr', title pr', description pr', author pr', source_branch pr', target_branch pr',
   created_at pr', commits pr') =
  (id pr, title pr, description pr, author pr, source_branch pr, target_branch pr,
   created_at pr, commits pr).
Proof.
  induction os as [|o os IH] using rev_ind; [simpl; by rewrite !app_nil_r|].
  rewrite foldl_app, !last_omap_snoc, !omap_app. cbn [foldl].
  destruct IH as (Hs & Hm & Hr & Hc & Ht & Hrest).
  destruct o; simpl; rewrite ?app_nil_r, ?app_assoc; repeat split; congruence.
Qed.

(** ** The claims on reload and ids *)

(** C15: after [save_to_file] and [load_from_file] into a fresh queue,
    nothing is raised, the queue is the saved one and the queue invariant
    holds again (the counter is the last id's number plus one). *)
Theorem reload_wf q :
  queue_wf q -> Forall (fun pr => pr_dates_valid pr = true) (queue q) ->
  (reload q).2 = Ok tt /\ queue (reload q).1 = queue q /\ queue_wf (reload q).1.
Proof. apply reload_spec. Qed.

(** C39: [load_from_file] catches only a missing file: a corrupt file
    raises [JSONDecodeError] and an entry [from_dict] cannot read raises,
    both with the queue unchanged; a last id with no number after [-]
    raises once the queue has been replaced, leaving the old counter. *)
Theorem load_from_file_errors q v :
  load_from_file FileCorrupt q = (q, Raise JSONDecodeError) /\
  (forall e, res_bind (py_iter v) (res_map pr_from_dict) = Raise e ->
     load_from_file (FileJson v) q = (q, Raise e)) /\
  (forall prs lst e, res_bind (py_iter v) (res_map pr_from_dict) = Ok prs ->
     py_last prs = Ok lst -> id_number (id lst) = Raise e ->
     load_from_file (FileJson v) q = (mk_queue prs (next_id q), Raise e)).
Proof.
  split; [done|]. split.
  - intros e He. unfold load_from_file. by rewrite He.
  - intros prs lst e Hp Hl He. unfold load_from_file. rewrite Hp, Hl, He.
    destruct prs; [done|]. reflexivity.
Qed.

(** C30: the bounds of the counter after [save_to_file] and
    [load_from_file]: it is at least 1, never more than before the save,
    and above the number of every reloaded id.  It is below the old
    counter exactly when the newest request is no longer queued. *)
Theorem reload_next_id_bounds q :
  queue_wf q -> Forall (fun pr => pr_dates_valid pr = true) (queue q) ->
  (1 <= next_id (reload q).1 <= next_id q)%Z /\
  forall pr, pr ∈ queue q -> exists k, id pr = pr_id_of k /\ (k < next_id (reload q).1)%Z.
Proof.
  intros Hq Hd. destruct (reload_shape q Hq Hd) as (n' & -> & Hb & Hl). simpl.
  split; [done|]. intros pr Hin. destruct (ids_ok_bounds _ _ _ pr Hl Hin) as (k & Hk & ?).
  exists k. split; [done|lia].
Qed.

(** C10: [int(f"PR-{n}".split('-')[1])] is [n] for every [n >= 0]: the
    print/parse round trip of the id counter. *)
Theorem id_number_roundtrip n : (0 <= n)%Z -> id_number (pr_id_of n) = Ok n.
Proof. apply id_number_pr_id_of. Qed.

(** ** Concrete runs *)

Definition demo_now : datetime := mk_datetime 2024 5 1 12 0 0 0.

Definition demo_q1 : PullRequestQueue :=
  (create_pr demo_now "Fix bug" "desc" "alice" "fix-1" "main" queue_init).2.
Definition demo_q2 : PullRequestQueue :=
  (create_pr demo_now "Docs" "desc" "bob" "docs" "main" demo_q1).2.

Lemma demo_q1_wf : queue_wf demo_q1.
Proof. split; simpl; [lia|]. exists 1%Z. split; [reflexivity|]. split; [lia|done]. Qed.

Lemma demo_q2_wf : queue_wf demo_q2.
Proof.
  split; simpl; [lia|]. exists 1%Z. split; [reflexivity|]. split; [lia|].
  exists 2%Z. split; [reflexivity|]. split; [lia|done].
Qed.

Lemma demo_q2_dates : Forall (fun pr => pr_dates_valid pr = true) (queue demo_q2).
Proof. repeat constructor. Qed.

Lemma create_pr_wf_witness :
  queue_wf demo_q1 /\ queue_wf (create_pr demo_now "Docs" "desc" "bob" "docs" "main" demo_q1).2.
Proof. split; [apply demo_q1_wf|]. apply create_pr_wf, demo_q1_wf. Defined.


Lemma reload_next_id_from_last_witness :
  queue_wf demo_q2 /\ Forall (fun pr => pr_dates_valid pr = true) (queue demo_q2) /\
  ((queue demo_q2 = [] ->
    id (create_pr demo_now "T" "d" "eve" "x" "main" (reload demo_q2).1).1 = pr_id_of 1) /\
   (forall pr k, last (queue demo_q2) = Some pr -> id pr = pr_id_of k ->
     id (create_pr demo_now "T" "d" "eve" "x" "main" (reload demo_q2).1).1 = pr_id_of (k + 1))).
Proof.
  split; [apply demo_q2_wf|]. split; [apply demo_q2_dates|].
  apply reload_next_id_from_last; [apply demo_q2_wf|apply demo_q2_dates].
Defined.

Lemma reload_wf_witness :
  queue_wf demo_q2 /\ Forall (fun pr => pr_dates_valid pr = true) (queue demo_q2) /\
  ((reload demo_q2).2 = Ok tt /\ queue (reload demo_q2).1 = queue demo_q2 /\
   queue_wf (reload demo_q2).1).
Proof.
  split; [apply demo_q2_wf|]. split; [apply demo_q2_dates|].
  apply reload_wf; [apply demo_q2_wf|apply demo_q2_dates].
Defined.

Lemma reload_create_fresh_witness :
  queue_wf demo_q2 /\ Forall (fun pr => pr_dates_valid pr = true) (queue demo_q2) /\
  id (create_pr demo_now "t" "d" "carol" "x" "main" (reload demo_q2).1).1 ∉ map id (queue demo_q2).
Proof.
  split; [apply demo_q2_wf|]. split; [apply demo_q2_dates|].
  apply reload_create_fresh; [apply demo_q2_wf|apply demo_q2_dates].
Defined.

(** A saved request whose id has no [-]: the last id does not parse. *)
Definition demo_bad_file : pyval :=
  PList [pr_to_dict (pr_init demo_now "X" "t" "d" "a" "s" "main")].

Lemma load_from_file_errors_witness :
  load_from_file (FileJson demo_bad_file) queue_init =
    (mk_queue [pr_init demo_now "X" "t" "d" "a" "s" "main"] 1, Raise IndexError).
Proof.
  apply (proj2 (proj2 (load_from_file_errors queue_init demo_bad_file))
           _ (pr_init demo_now "X" "t" "d" "a" "s" "main")); vm_compute; reflexivity.
Defined.

Lemma id_number_roundtrip_witness : (0 <= 12)%Z /\ id_number (pr_id_of 12) = Ok 12%Z.
Proof. split; [lia|]. apply id_number_roundtrip. lia. Defined.

Lemma get_pr_by_id_found_witness :
  exists pr, queue_wf demo_q2 /\ pr ∈ queue demo_q2 /\ get_pr_by_id (id pr) demo_q2 = Some pr.
Proof.
  eexists. split; [apply demo_q2_wf|].
  assert (Hin : pr_init demo_now "PR-2" "Docs" "desc" "bob" "docs" "main" ∈ queue demo_q2)
    by (simpl; set_solver).
  split; [exact Hin|]. apply get_pr_by_id_found; [apply demo_q2_wf|exact Hin].
Defined.

Lemma list_prs_status_witness :
  "open" <> "" /\
  list_prs (Some "open") demo_q2 =
    List.filter (fun pr => String.eqb (status pr) "open") (queue demo_q2).
Proof. split; [done|]. apply (proj1 (list_prs_status demo_q2 "open")). done. Defined.

Lemma reload_next_id_bounds_witness :
  queue_wf demo_q2 /\ Forall (fun pr => pr_dates_valid pr = true) (queue demo_q2) /\
  (1 <= next_id (reload demo_q2).1 <= next_id demo_q2)%Z /\
  forall pr, pr ∈ queue demo_q2 -> exists k, id pr = pr_id_of k /\ (k < next_id (reload demo_q2).1)%Z.
Proof.
  split; [apply demo_q2_wf|]. split; [apply demo_q2_dates|].
  apply reload_next_id_bounds; [apply demo_q2_wf|apply demo_q2_dates].
Defined.

Lemma pr_reachable_inv_witness :
  let pr0 := pr_init demo_now "PR-1" "Fix bug" "desc" "alice" "fix-1" "main" in
  let pr := approve (merge demo_now pr0) in
  pr_reachable pr0 pr /\ (pr_inv pr /\ status pr <> st_in_review).
Proof.
  assert (Hr : pr_reachable (pr_init demo_now "PR-1" "Fix bug" "desc" "alice" "fix-1" "main")
                 (approve (merge demo_now
                    (pr_init demo_now "PR-1" "Fix bug" "desc" "alice" "fix-1" "main")))).
  { eapply pr_reach_step; [apply (pr_step_op (OpMerge demo_now))|].
    eapply pr_reach_step; [apply (pr_step_op OpApprove)|]. apply pr_reach_refl. }
  split; [exact Hr|]. exact (pr_reachable_inv _ _ _ _ _ _ _ _ Hr).
Defined.

End PullRequest.
